(** * Portfolio Analytics API: the loader and the derived metrics of
    [src/api/main.py], embedded in Rocq.

    The Python program reads six sheets of a workbook into the module-level
    dictionary [DATA_CACHE] and answers queries from it.  The embedding keeps
    the program's own shape:

    - Python values that come out of a sheet are the tagged union [pyval];
      Python's [float] is binary64, modelled by Rocq's primitive floats, and
      Python's [int] by [Z];
    - an exception is a value of [exn], and code that may raise returns a
      [result];
    - [DATA_CACHE] is a record threaded through [load_excel_data] and the
      endpoints (explicit state passing).

    Strings are the UTF-8 encoding of the Python [str] (one [ascii] per
    byte). *)

From Stdlib Require Import ZArith List String Ascii Bool Lia DecimalString.
From Stdlib Require Import Floats.
Import ListNotations.

Set Warnings "-inexact-float".

Open Scope string_scope.
Open Scope Z_scope.

(** ** Exceptions and fallible computations *)

Inductive exn : Type :=
| ValueError
| TypeError
| OverflowError
| ZeroDivisionError
| KeyError
| IndexError
| SheetError                 (* raised by the spreadsheet reader *)
| ColumnNotFoundError        (* polars: a rename of a column that is not there *)
| DuplicateError             (* polars: a rename that collides with a column *)
| HTTPException (status : Z).

Inductive result (A : Type) : Type :=
| Ok (a : A)
| Raise (e : exn).
Arguments Ok {A} a.
Arguments Raise {A} e.

Definition bind {A B : Type} (r : result A) (k : A -> result B) : result B :=
  match r with
  | Ok a => k a
  | Raise e => Raise e
  end.

Notation "x <- r ;; k" := (bind r (fun x => k))
  (at level 61, r at next level, right associativity).

(** [try: r except Exception: h] *)
Definition try_except {A : Type} (r : result A) (h : exn -> result A) : result A :=
  match r with
  | Ok a => Ok a
  | Raise e => h e
  end.

Definition is_ok {A : Type} (r : result A) : bool :=
  match r with Ok _ => true | Raise _ => false end.

(** ** Strings *)

Module Str.

(** [s.startswith(p)], returning what follows the prefix. *)
Fixpoint strip_prefix (p s : string) : option string :=
  match p, s with
  | EmptyString, _ => Some s
  | String a p', String b s' => if Ascii.eqb a b then strip_prefix p' s' else None
  | String _ _, EmptyString => None
  end.

(** [needle in hay] *)
Fixpoint contains (needle hay : string) {struct hay} : bool :=
  match strip_prefix needle hay with
  | Some _ => true
  | None =>
      match hay with
      | EmptyString => false
      | String _ hay' => contains needle hay'
      end
  end.

(** The scan of [s.replace(old, "")]: [skip] bytes of a match found just
    before are still to be dropped. *)
Fixpoint remove_scan (old : string) (skip : nat) (s : string) : string :=
  match s with
  | EmptyString => EmptyString
  | String c s' =>
      match skip with
      | S k => remove_scan old k s'
      | O =>
          match strip_prefix old s with
          | Some _ => remove_scan old (Nat.pred (String.length old)) s'
          | None => String c (remove_scan old O s')
          end
      end
  end.

(** [s.replace(old, "")]: every non-overlapping occurrence of [old], found
    left to right, is deleted. *)
Definition remove (old s : string) : string :=
  match old with
  | EmptyString => s
  | String _ _ => remove_scan old O s
  end.

Definition byte (c : ascii) : N := N_of_ascii c.

(** The code points for which [str.isspace] holds, by their UTF-8 bytes:
    U+0009..U+000D, U+001C..U+0020; U+0085, U+00A0; U+1680,
    U+2000..U+200A, U+2028, U+2029, U+202F, U+205F, U+3000. *)
Definition is_space1 (a : ascii) : bool :=
  let n := byte a in
  ((9 <=? n) && (n <=? 13) || (28 <=? n) && (n <=? 32))%N.

Definition is_space2 (a b : ascii) : bool :=
  ((byte a =? 194) && ((byte b =? 133) || (byte b =? 160)))%N.

Definition is_space3 (a b c : ascii) : bool :=
  let x := byte a in let y := byte b in let z := byte c in
  ((x =? 225) && (y =? 154) && (z =? 128)
   || (x =? 226) && (y =? 128)
      && ((128 <=? z) && (z <=? 138) || (z =? 168) || (z =? 169) || (z =? 175))
   || (x =? 226) && (y =? 129) && (z =? 159)
   || (x =? 227) && (y =? 128) && (z =? 128))%N.

(** [s.lstrip()] *)
Fixpoint lstrip (s : string) : string :=
  match s with
  | EmptyString => s
  | String a s1 =>
      if is_space1 a then lstrip s1
      else
        match s1 with
        | EmptyString => s
        | String b s2 =>
            if is_space2 a b then lstrip s2
            else
              match s2 with
              | EmptyString => s
              | String c s3 => if is_space3 a b c then lstrip s3 else s
              end
        end
  end.

Definition is_empty (s : string) : bool :=
  match s with EmptyString => true | String _ _ => false end.

(** [s.rstrip()]: the longest suffix made of white space is cut. *)
Fixpoint rstrip (s : string) : string :=
  match s with
  | EmptyString => EmptyString
  | String a s' => if is_empty (lstrip s) then EmptyString else String a (rstrip s')
  end.

(** [s.strip()] *)
Definition strip (s : string) : string := rstrip (lstrip s).

Definition lower_ascii (a : ascii) : ascii :=
  let n := byte a in
  if ((65 <=? n) && (n <=? 90))%N then ascii_of_N (n + 32) else a.

(** [s.lower()] as far as ASCII letters are concerned: besides [A]..[Z],
    two code points have a lower-case form that contains an ASCII letter,
    U+0130 (to [i] followed by U+0307) and U+212A, the Kelvin sign (to
    [k]).  Every other code point outside ASCII is left as it is: its
    lower-case form has no ASCII letter either, and the program only looks
    for ASCII words in the result. *)
Fixpoint lower (s : string) : string :=
  match s with
  | EmptyString => EmptyString
  | String a s1 =>
      match s1 with
      | String b s2 =>
          if ((byte a =? 196) && (byte b =? 176))%N then
            String "i" (String (ascii_of_N 204) (String (ascii_of_N 135) (lower s2)))
          else
            match s2 with
            | String c s3 =>
                if ((byte a =? 226) && (byte b =? 132) && (byte c =? 170))%N
                then String "k" (lower s3)
                else String (lower_ascii a) (lower s1)
            | EmptyString => String (lower_ascii a) (lower s1)
            end
      | EmptyString => String (lower_ascii a) EmptyString
      end
  end.

(** A byte [10xxxxxx] continues the code point begun before it. *)
Definition is_continuation (a : ascii) : bool :=
  ((128 <=? byte a) && (byte a <=? 191))%N.

(** [s[:n]]: the first [n] code points. *)
Fixpoint take_chars (n : nat) (s : string) : string :=
  match s with
  | EmptyString => EmptyString
  | String a s' =>
      if is_continuation a then String a (take_chars n s')
      else
        match n with
        | O => EmptyString
        | S n' => String a (take_chars n' s')
        end
  end.

(** [s] with [A]..[Z] in lower case and every other byte as it is. *)
Fixpoint lower_letters (s : string) : string :=
  match s with
  | EmptyString => EmptyString
  | String a s' => String (lower_ascii a) (lower_letters s')
  end.

(** [str(z)] for an [int]. *)
Definition of_Z (z : Z) : string := NilZero.string_of_int (Z.to_int z).

Fixpoint repeat0 (n : nat) : string :=
  match n with
  | O => EmptyString
  | S n' => String "0" (repeat0 n')
  end.

End Str.

(** ** Python's [float]: binary64 *)

Module PyFloat.

(** The double nearest to the integer [z] (ties to even); beyond the
    range, an infinity. *)
Definition of_Z_nearest (z : Z) : float :=
  SF2Prim (binary_normalize prec emax z 0 false).

(** [float(z)] for an [int]: [OverflowError] when [z] is too large. *)
Definition of_int (z : Z) : result float :=
  let f := of_Z_nearest z in
  if is_infinity f then Raise OverflowError else Ok f.

(** The double nearest to the fraction [p/q], with sign [neg]. *)
Definition nearest_ratio (neg : bool) (p q : positive) : float :=
  SF2Prim (SFdiv prec emax (S754_finite neg p 0) (S754_finite false q 0)).

Definition signed_zero (neg : bool) : float := if neg then neg_zero else zero.

(** [int(f)]: truncation towards zero. *)
Definition to_int (f : float) : result Z :=
  match Prim2SF f with
  | S754_nan => Raise ValueError
  | S754_infinity _ => Raise OverflowError
  | S754_zero _ => Ok 0
  | S754_finite s m e =>
      let a := if 0 <=? e then Zpos m * 2 ^ e else Zpos m / 2 ^ (- e) in
      Ok (if s then - a else a)
  end.

(** [z ?= f], exactly, as Python compares an [int] with a [float]. *)
Definition compare_Z (z : Z) (f : float) : option comparison :=
  match Prim2SF f with
  | S754_nan => None
  | S754_infinity s => Some (if s then Gt else Lt)
  | S754_zero _ => Some (z ?= 0)
  | S754_finite s m e =>
      let v := if s then Zneg m else Zpos m in
      Some (if 0 <=? e then z ?= v * 2 ^ e else z * 2 ^ (- e) ?= v)
  end.

(** The integer nearest to [num/den], ties to even ([0 <= num], [0 < den]). *)
Definition round_half_even (num den : Z) : Z :=
  let q := num / den in
  match 2 * (num mod den) ?= den with
  | Lt => q
  | Gt => q + 1
  | Eq => if Z.even q then q else q + 1
  end.

(** [round(x, ndigits)] for [0 <= ndigits]: the exact value of [x] is
    rounded to [ndigits] decimals, ties to even, and the double nearest to
    that decimal is returned; [nan], the infinities and the zeros round to
    themselves. *)
Definition round (x : float) (ndigits : nat) : float :=
  match Prim2SF x with
  | S754_finite s m e =>
      if 0 <=? e then x
      else
        let scale := 10 ^ Z.of_nat ndigits in
        match round_half_even (Zpos m * scale) (2 ^ (- e)) with
        | Zpos p => nearest_ratio s p (Z.to_pos scale)
        | _ => signed_zero s
        end
  | _ => x
  end.

(** *** [float(s)] for a [str] *)

(** [float] reads the decimal digits of every script: before anything
    else, each code point that Unicode classes as a decimal digit is
    replaced by the ASCII digit of the same value.  The ten digits of a
    script are ten code points in a row, from its zero on; [zero_digits]
    lists the zeros outside ASCII (Unicode 14.0, the version that CPython
    3.11 carries). *)
Definition zero_digits : list N :=
  [0x660; 0x6F0; 0x7C0; 0x966; 0x9E6; 0xA66; 0xAE6; 0xB66; 0xBE6; 0xC66;
   0xCE6; 0xD66; 0xDE6; 0xE50; 0xED0; 0xF20; 0x1040; 0x1090; 0x17E0; 0x1810;
   0x1946; 0x19D0; 0x1A80; 0x1A90; 0x1B50; 0x1BB0; 0x1C40; 0x1C50; 0xA620;
   0xA8D0; 0xA900; 0xA9D0; 0xA9F0; 0xAA50; 0xABF0; 0xFF10; 0x104A0; 0x10D30;
   0x11066; 0x110F0; 0x11136; 0x111D0; 0x112F0; 0x11450; 0x114D0; 0x11650;
   0x116C0; 0x11730; 0x118E0; 0x11950; 0x11C50; 0x11D50; 0x11DA0; 0x16A60;
   0x16AC0; 0x16B50; 0x1D7CE; 0x1D7D8; 0x1D7E2; 0x1D7EC; 0x1D7F6; 0x1E140;
   0x1E2F0; 0x1E950; 0x1FBF0]%N.

Definition decimal_of (code_point : N) : option ascii :=
  match find (fun z => (z <=? code_point) && (code_point <? z + 10))%N zero_digits with
  | Some z => Some (ascii_of_N (48 + (code_point - z)))
  | None => None
  end.

(** The code point that two, three and four bytes of UTF-8 encode, when it
    is a decimal digit. *)
Definition tail_bits (a : ascii) : N := Str.byte a - 128.

Definition digit2 (a b : ascii) : option ascii :=
  if ((192 <=? Str.byte a) && (Str.byte a <=? 223))%N && Str.is_continuation b
  then decimal_of ((Str.byte a - 192) * 64 + tail_bits b)
  else None.

Definition digit3 (a b c : ascii) : option ascii :=
  if ((224 <=? Str.byte a) && (Str.byte a <=? 239))%N
     && Str.is_continuation b && Str.is_continuation c
  then decimal_of ((Str.byte a - 224) * 4096 + tail_bits b * 64 + tail_bits c)
  else None.

Definition digit4 (a b c d : ascii) : option ascii :=
  if ((240 <=? Str.byte a) && (Str.byte a <=? 247))%N
     && Str.is_continuation b && Str.is_continuation c && Str.is_continuation d
  then decimal_of ((Str.byte a - 240) * 262144 + tail_bits b * 4096
                   + tail_bits c * 64 + tail_bits d)
  else None.

(** [s] with its decimal digits in ASCII. *)
Fixpoint ascii_digits (s : string) : string :=
  match s with
  | EmptyString => EmptyString
  | String a s1 =>
      if (Str.byte a <? 128)%N then String a (ascii_digits s1)
      else
        match s1 with
        | EmptyString => s
        | String b s2 =>
            match digit2 a b with
            | Some d => String d (ascii_digits s2)
            | None =>
                match s2 with
                | EmptyString => s
                | String c s3 =>
                    match digit3 a b c with
                    | Some d => String d (ascii_digits s3)
                    | None =>
                        match s3 with
                        | EmptyString => s
                        | String d' s4 =>
                            match digit4 a b c d' with
                            | Some d => String d (ascii_digits s4)
                            | None => String a (ascii_digits s1)
                            end
                        end
                    end
                end
            end
        end
  end.

Definition is_digit (a : ascii) : bool :=
  ((48 <=? Str.byte a) && (Str.byte a <=? 57))%N.

Definition digit_val (a : ascii) : Z := Z.of_N (Str.byte a) - 48.

(** White space for [float]: the code points of [str.isspace] but
    U+001C..U+001F. *)
Definition is_space1 (a : ascii) : bool :=
  let n := Str.byte a in
  ((9 <=? n) && (n <=? 13) || (n =? 32))%N.

Fixpoint lstrip (s : string) : string :=
  match s with
  | EmptyString => s
  | String a s1 =>
      if is_space1 a then lstrip s1
      else
        match s1 with
        | EmptyString => s
        | String b s2 =>
            if Str.is_space2 a b then lstrip s2
            else
              match s2 with
              | EmptyString => s
              | String c s3 => if Str.is_space3 a b c then lstrip s3 else s
              end
        end
  end.

Fixpoint rstrip (s : string) : string :=
  match s with
  | EmptyString => EmptyString
  | String a s' =>
      if Str.is_empty (lstrip s) then EmptyString else String a (rstrip s')
  end.

(** An underscore is accepted between two digits and dropped; [prev] is
    the character read before. *)
Fixpoint drop_underscores (prev : option ascii) (s : string) : option string :=
  let prev_digit := match prev with Some p => is_digit p | None => false end in
  let prev_under := match prev with Some p => Ascii.eqb p "_" | None => false end in
  match s with
  | EmptyString => if prev_under then None else Some EmptyString
  | String a s' =>
      if Ascii.eqb a "_" then
        if prev_digit then drop_underscores (Some a) s' else None
      else if prev_under && negb (is_digit a) then None
      else option_map (String a) (drop_underscores (Some a) s')
  end.

(** The digits at the head of [s]: their value after [acc], how many they
    are, and what follows them. *)
Fixpoint span_digits (s : string) (acc : Z) (count : Z) : Z * Z * string :=
  match s with
  | String a s' =>
      if is_digit a then span_digits s' (10 * acc + digit_val a) (count + 1)
      else (acc, count, s)
  | EmptyString => (acc, count, s)
  end.

Definition split_sign (s : string) : bool * string :=
  match s with
  | String "-" s' => (true, s')
  | String "+" s' => (false, s')
  | _ => (false, s)
  end.

(** [e] or [E], a sign if any, and at least one digit, up to the end. *)
Definition parse_exponent (s : string) : option Z :=
  match s with
  | EmptyString => Some 0
  | String a s' =>
      if Ascii.eqb (Str.lower_ascii a) "e" then
        let '(neg, t) := split_sign s' in
        let '(v, n, rest) := span_digits t 0 0 in
        if (0 <? n) && Str.is_empty rest then Some (if neg then - v else v)
        else None
      else None
  end.

(** A decimal literal without sign: its digits as an integer [d] and the
    power of ten [e10], for the value [d * 10^e10]. *)
Definition parse_decimal (s : string) : option (Z * Z) :=
  let '(ip, n1, r1) := span_digits s 0 0 in
  let '(d, n2, r2) :=
    match r1 with
    | String "." t => span_digits t ip 0
    | _ => (ip, 0, r1)
    end in
  if 0 <? n1 + n2 then
    match parse_exponent r2 with
    | Some e => Some (d, e - n2)
    | None => None
    end
  else None.

Definition decimal_digits (z : Z) : Z := Z.of_nat (String.length (Str.of_Z z)).

(** The double nearest to [d * 10^e10] (with sign [neg]).  A value at or
    above [10^310] is an infinity and one below [10^-331] is a zero
    whatever its digits are, so the power of ten is not computed there. *)
Definition of_decimal (neg : bool) (d e10 : Z) : float :=
  match d with
  | Zpos p =>
      let mag := decimal_digits d + e10 in
      if 310 <? mag then (if neg then neg_infinity else infinity)
      else if mag <? -330 then signed_zero neg
      else if 0 <=? e10 then
        SF2Prim (binary_normalize prec emax (cond_Zopp neg (d * 10 ^ e10)) 0 false)
      else nearest_ratio neg p (Z.to_pos (10 ^ (- e10)))
  | _ => signed_zero neg
  end.

(** [float(s)]: the decimal digits are put in ASCII and the white space
    around the literal is dropped; the literal is a sign if any, then
    [inf], [infinity] or [nan] in any case, or a decimal number; [None]
    stands for [ValueError]. *)
Definition of_string (s : string) : option float :=
  match drop_underscores None (rstrip (lstrip (ascii_digits s))) with
  | None => None
  | Some t =>
      let '(neg, u) := split_sign t in
      let w := Str.lower_letters u in
      if String.eqb w "inf" || String.eqb w "infinity" then
        Some (if neg then neg_infinity else infinity)
      else if String.eqb w "nan" then Some nan
      else
        match parse_decimal u with
        | Some (d, e10) => Some (of_decimal neg d e10)
        | None => None
        end
  end.

End PyFloat.

(** *** [repr(f)]: the shortest decimal that reads back as [f] *)

Module Repr.

(** [c * 10^t ?= xn / xd] for [0 < xd]. *)
Definition compare_scaled (c t xn xd : Z) : comparison :=
  if 0 <=? t then c * 10 ^ t * xd ?= xn else c * xd ?= xn * 10 ^ (- t).

(** The [j >= 1] with [vn * 10^j >= vd], searched upwards. *)
Fixpoint first_scale (fuel : nat) (vn vd j : Z) : Z :=
  match fuel with
  | O => j
  | S fuel' => if vd <=? vn * 10 ^ j then j else first_scale fuel' vn vd (j + 1)
  end.

(** The [p] with [10^p <= vn/vd < 10^(p+1)]. *)
Definition decimal_exponent (vn vd : Z) : Z :=
  if vd <=? vn then PyFloat.decimal_digits (vn / vd) - 1
  else - first_scale 400 vn vd 1.

Section Shortest.
(** The double is [vn/vd]; the reals nearer to it than to any other
    double lie between [ln/vd] and [hn/vd], bounds included when [incl]. *)
Variables (ln vn hn vd : Z) (incl : bool) (p : Z).

Definition reads_back (c t : Z) : bool :=
  match compare_scaled c t ln vd, compare_scaled c t hn vd with
  | Gt, Lt => true
  | Eq, Lt | Gt, Eq => incl
  | _, _ => false
  end.

(** With [k] digits: the decimals just below and just above the double,
    and the one of them to print, if one reads back. *)
Definition candidate (k : Z) : option (Z * Z) :=
  let t := p - k + 1 in
  let low := if 0 <=? t then vn / (vd * 10 ^ t) else vn * 10 ^ (- t) / vd in
  let high := low + 1 in
  match reads_back low t, reads_back high t with
  | true, false => Some (low, t)
  | false, true => Some (high, t)
  | false, false => None
  | true, true =>
      match compare_scaled (low + high) t (2 * vn) vd with
      | Gt => Some (low, t)
      | Lt => Some (high, t)
      | Eq => Some (if Z.even low then low else high, t)
      end
  end.

Fixpoint shortest (fuel : nat) (k : Z) : Z * Z :=
  match candidate k with
  | Some ct => ct
  | None =>
      match fuel with
      | O => (0, 0)
      | S fuel' => shortest fuel' (k + 1)
      end
  end.
End Shortest.

(** The digits of [c] without its trailing zeros. *)
Fixpoint trim_zeros (fuel : nat) (c : Z) : Z :=
  match fuel with
  | O => c
  | S fuel' => if (c mod 10 =? 0) && negb (c =? 0) then trim_zeros fuel' (c / 10) else c
  end.

(** The digits [ds] and the position [decpt] of the point: the value is
    [0.ds * 10^decpt]. *)
Definition digits_of (m : positive) (e : Z) : string * Z :=
  let boundary := (Zpos m =? 2 ^ 52) && (-1074 <? e) in
  let scale := e - 2 in
  let up := if 0 <=? scale then 2 ^ scale else 1 in
  let vd := if 0 <=? scale then 1 else 2 ^ (- scale) in
  let vn := 4 * Zpos m * up in
  let hn := (4 * Zpos m + 2) * up in
  let ln := (if boundary then 4 * Zpos m - 1 else 4 * Zpos m - 2) * up in
  let p := decimal_exponent vn vd in
  let '(c, t) := shortest ln vn hn vd (Z.even (Zpos m)) p 17 1 in
  (Str.of_Z (trim_zeros 20 c), t + PyFloat.decimal_digits c).

Definition head_tail (ds : string) : string * string :=
  match ds with
  | String a rest => (String a EmptyString, rest)
  | EmptyString => (EmptyString, EmptyString)
  end.

Fixpoint split_at (n : nat) (s : string) : string * string :=
  match n, s with
  | S n', String a s' => let '(l, r) := split_at n' s' in (String a l, r)
  | _, _ => (EmptyString, s)
  end.

(** Python's layout of the digits: an exponent when [decpt] is above 16 or
    below -3, a point and at least one digit after it otherwise. *)
Definition layout (ds : string) (decpt : Z) : string :=
  let n := Z.of_nat (String.length ds) in
  if (decpt <=? -4) || (16 <? decpt) then
    let '(h, t) := head_tail ds in
    let x := decpt - 1 in
    let xs := Str.of_Z (Z.abs x) in
    h ++ (if Str.is_empty t then "" else "." ++ t)
      ++ "e" ++ (if x <? 0 then "-" else "+")
      ++ (if Z.abs x <? 10 then "0" else "") ++ xs
  else if decpt <=? 0 then "0." ++ Str.repeat0 (Z.to_nat (- decpt)) ++ ds
  else if n <=? decpt then ds ++ Str.repeat0 (Z.to_nat (decpt - n)) ++ ".0"
  else let '(l, r) := split_at (Z.to_nat decpt) ds in l ++ "." ++ r.

(** [repr(f)], which is [str(f)]. *)
Definition repr (f : float) : string :=
  match Prim2SF f with
  | S754_nan => "nan"
  | S754_infinity s => if s then "-inf" else "inf"
  | S754_zero s => if s then "-0.0" else "0.0"
  | S754_finite s m e =>
      let '(ds, decpt) := digits_of m e in
      (if s then "-" else "") ++ layout ds decpt
  end.

End Repr.

(** ** Python values *)

(** What a cell of a sheet holds once polars has read it. *)
Inductive pyval : Type :=
| VNone
| VBool (b : bool)
| VInt (z : Z)
| VFloat (f : float)
| VStr (s : string)
| VDate (ymd text : string).
    (* a date, datetime or time object, by the two renderings the program
       takes of one: [strftime("%Y-%m-%d")] and [str()] *)

(** A number: the result of arithmetic that mixes [int] and [float]. *)
Inductive num : Type :=
| NInt (z : Z)
| NFloat (f : float).

Module Py.

(** [bool(v)] *)
Definition truthy (v : pyval) : bool :=
  match v with
  | VNone => false
  | VBool b => b
  | VInt z => negb (z =? 0)
  | VFloat f => negb (f =? 0)%float
  | VStr s => negb (Str.is_empty s)
  | VDate _ _ => true
  end.

(** [a or b] *)
Definition or (a b : pyval) : pyval := if truthy a then a else b.

(** [str(v)] *)
Definition str (v : pyval) : string :=
  match v with
  | VNone => "None"
  | VBool b => if b then "True" else "False"
  | VInt z => Str.of_Z z
  | VFloat f => Repr.repr f
  | VStr s => s
  | VDate _ text => text
  end.

(** [float(v)] *)
Definition float (v : pyval) : result float :=
  match v with
  | VNone => Raise TypeError
  | VBool b => Ok (if b then 1 else 0)%float
  | VInt z => PyFloat.of_int z
  | VFloat f => Ok f
  | VStr s =>
      match PyFloat.of_string s with
      | Some f => Ok f
      | None => Raise ValueError
      end
  | VDate _ _ => Raise TypeError
  end.

(** [abs(v)] *)
Definition abs (v : pyval) : result num :=
  match v with
  | VBool b => Ok (NInt (if b then 1 else 0))
  | VInt z => Ok (NInt (Z.abs z))
  | VFloat f => Ok (NFloat (PrimFloat.abs f))
  | VNone | VStr _ | VDate _ _ => Raise TypeError
  end.

(** An [int] of at most 48 bits: CPython compares it with a [float] as
    the double it converts to exactly, and a larger one by exact
    values. *)
Definition small (z : Z) : bool := Z.abs z <? 2 ^ 48.

Definition of_small (z : Z) : PrimFloat.float := PyFloat.of_Z_nearest z.

(** [a < b], [a <= b] and [a == b] on numbers. *)
Definition ltb (a b : num) : bool :=
  match a, b with
  | NInt x, NInt y => x <? y
  | NFloat x, NFloat y => (x <? y)%float
  | NInt x, NFloat y =>
      if small x then (of_small x <? y)%float
      else match PyFloat.compare_Z x y with Some Lt => true | _ => false end
  | NFloat x, NInt y =>
      if small y then (x <? of_small y)%float
      else match PyFloat.compare_Z y x with Some Gt => true | _ => false end
  end.

Definition leb (a b : num) : bool :=
  match a, b with
  | NInt x, NInt y => x <=? y
  | NFloat x, NFloat y => (x <=? y)%float
  | NInt x, NFloat y =>
      if small x then (of_small x <=? y)%float
      else match PyFloat.compare_Z x y with Some (Lt | Eq) => true | _ => false end
  | NFloat x, NInt y =>
      if small y then (x <=? of_small y)%float
      else match PyFloat.compare_Z y x with Some (Gt | Eq) => true | _ => false end
  end.

Definition gtb (a b : num) : bool := ltb b a.
Definition geb (a b : num) : bool := leb b a.

Definition num_eqb (a b : num) : bool :=
  match a, b with
  | NInt x, NInt y => x =? y
  | NFloat x, NFloat y => (x =? y)%float
  | NInt x, NFloat y | NFloat y, NInt x =>
      if small x then (of_small x =? y)%float
      else match PyFloat.compare_Z x y with Some Eq => true | _ => false end
  end.

(** [max(a, b)] and [min(a, b)]: the first argument unless the second is
    strictly beyond it. *)
Definition max (a b : num) : num := if gtb b a then b else a.
Definition min (a b : num) : num := if ltb b a then b else a.

(** [a - b]; an [int] operand beside a [float] is converted to a double
    (exactly, for the counts the program subtracts). *)
Definition sub (a b : num) : num :=
  match a, b with
  | NInt x, NInt y => NInt (x - y)
  | NInt x, NFloat y => NFloat (PyFloat.of_Z_nearest x - y)
  | NFloat x, NInt y => NFloat (x - PyFloat.of_Z_nearest y)
  | NFloat x, NFloat y => NFloat (x - y)
  end.

(** [sum(l)] for floats [l]: the additions start from the [int] 0 and go
    from left to right.  (From CPython 3.12 on, [sum] compensates the
    rounding errors of the additions, and its result may differ from this
    one in the last bits.) *)
Definition sum (l : list PrimFloat.float) : num :=
  match l with
  | [] => NInt 0
  | _ :: _ => NFloat (fold_left PrimFloat.add l 0%float)
  end.

(** The double of a number: what [a / b] computes with and what pydantic
    stores in a [float] field.  (The [int]s of the program that reach it
    are small: 0, 2, 10, a count.) *)
Definition to_float (a : num) : PrimFloat.float :=
  match a with
  | NInt z => PyFloat.of_Z_nearest z
  | NFloat f => f
  end.

(** [a / b] where one of the two at least is a [float]. *)
Definition truediv (a b : num) : result PrimFloat.float :=
  if num_eqb b (NInt 0) then Raise ZeroDivisionError
  else Ok (to_float a / to_float b)%float.

(** The number a value is, if it is one ([True] is 1 and [False] is 0). *)
Definition as_num (v : pyval) : option num :=
  match v with
  | VBool b => Some (NInt (if b then 1 else 0))
  | VInt z => Some (NInt z)
  | VFloat f => Some (NFloat f)
  | _ => None
  end.

(** [a == b] for the values that are keys of a [dict]: numbers by their
    values, texts and dates by their contents (dates and datetimes without
    time zone, as polars returns them).  A [nan] equals no key, since each
    cell is an object of its own. *)
Definition eqb (a b : pyval) : bool :=
  match as_num a, as_num b with
  | Some x, Some y => num_eqb x y
  | Some _, None | None, Some _ => false
  | None, None =>
      match a, b with
      | VNone, VNone => true
      | VStr s, VStr t => String.eqb s t
      | VDate y1 t1, VDate y2 t2 => String.eqb y1 y2 && String.eqb t1 t2
      | _, _ => false
      end
  end.

End Py.

(** ** Dictionaries, in insertion order *)

Module Dict.

Section WithKey.
Context {K V : Type} (keq : K -> K -> bool).

(** [d.get(k)] *)
Fixpoint get (d : list (K * V)) (k : K) : option V :=
  match d with
  | [] => None
  | (k', v) :: d' => if keq k' k then Some v else get d' k
  end.

(** [d[k] = v]: the value of an existing key is replaced where it
    stands; a new key goes last. *)
Fixpoint set (d : list (K * V)) (k : K) (v : V) : list (K * V) :=
  match d with
  | [] => [(k, v)]
  | (k', v') :: d' => if keq k' k then (k', v) :: d' else (k', v') :: set d' k v
  end.
End WithKey.

End Dict.

(** ** The workbook and the snapshot *)

(** A polars [DataFrame]: the column names, all different, and the rows,
    each with one cell per column. *)
Record frame : Type := {
  columns : list string;
  rows : list (list pyval)
}.

(** A row of [iter_rows(named=True)]: a [dict] from column name to cell. *)
Definition row : Type := list (string * pyval).

Definition named_rows (df : frame) : list row :=
  map (fun cells => combine (columns df) cells) (rows df).

(** [row.get(k)], [row.get(k, d)] and [row[k]] *)
Definition row_get (r : row) (k : string) : pyval :=
  match Dict.get String.eqb r k with Some v => v | None => VNone end.

Definition row_get_or (r : row) (k : string) (d : pyval) : pyval :=
  match Dict.get String.eqb r k with Some v => v | None => d end.

Definition row_item (r : row) (k : string) : result pyval :=
  match Dict.get String.eqb r k with Some v => Ok v | None => Raise KeyError end.

Definition mem (s : string) (l : list string) : bool := existsb (String.eqb s) l.

Fixpoint has_duplicate (l : list string) : bool :=
  match l with
  | [] => false
  | s :: l' => mem s l' || has_duplicate l'
  end.

(** [df.rename(mapping)]: every key of the mapping is a column, and the
    names that result are all different; polars raises otherwise. *)
Definition rename (mapping : list (string * string)) (df : frame) : result frame :=
  if forallb (fun '(old, _) => mem old (columns df)) mapping then
    let renamed :=
      map (fun c => match Dict.get String.eqb mapping c with
                    | Some c' => c'
                    | None => c
                    end) (columns df) in
    if has_duplicate renamed then Raise DuplicateError
    else Ok {| columns := renamed; rows := rows df |}
  else Raise ColumnNotFoundError.

(** What the spreadsheet file holds when a load is attempted: whether the
    file is there and, for each call of the reader, the frame it returns or
    the exception it raises. *)
Record workbook : Type := {
  file_exists : bool;
  read_holdings : result frame;          (* polars, engine openpyxl *)
  read_holdings_pandas : result frame;   (* the pandas fallback *)
  read_historical_performance : result frame;
  read_sector_allocation : result frame;
  read_market_cap : result frame;
  read_summary : result frame;
  read_top_performers : result frame
}.

(** An entry of [DATA_CACHE["holdings"]]. *)
Record holding : Type := {
  symbol : string;
  name : string;
  quantity : Z;
  avgPrice : float;
  currentPrice : float;
  sector : string;
  marketCap : string;
  value : float;
  gainLoss : float;
  gainLossPercent : float
}.

(** An entry of [DATA_CACHE["historical_performance"]]. *)
Record performance_point : Type := {
  date : string;
  portfolio : float;
  nifty50 : float;
  gold : float
}.

(** A value of [DATA_CACHE["sector_allocation"]] and of
    [DATA_CACHE["market_cap"]]. *)
Record allocation_entry : Type := {
  entry_value : float;
  entry_percentage : float
}.

(** A value of [DATA_CACHE["top_performers"]]. *)
Record performer_entry : Type := {
  performer_symbol : pyval;
  performer_name : pyval;
  performance : pyval
}.

(** The module-level [DATA_CACHE]; [None] is Python's [None]. *)
Record data_cache : Type := {
  holdings : option (list holding);
  historical_performance : option (list performance_point);
  sector_allocation : option (list (pyval * allocation_entry));
  market_cap : option (list (pyval * allocation_entry));
  top_performers : option (list (pyval * performer_entry));
  summary : option (list (pyval * pyval))
}.

Definition DATA_CACHE : data_cache :=
  {| holdings := None; historical_performance := None;
     sector_allocation := None; market_cap := None;
     top_performers := None; summary := None |}.

Definition set_holdings (v : list holding) (c : data_cache) : data_cache :=
  {| holdings := Some v; historical_performance := historical_performance c;
     sector_allocation := sector_allocation c; market_cap := market_cap c;
     top_performers := top_performers c; summary := summary c |}.

Definition set_historical_performance (v : list performance_point) (c : data_cache)
  : data_cache :=
  {| holdings := holdings c; historical_performance := Some v;
     sector_allocation := sector_allocation c; market_cap := market_cap c;
     top_performers := top_performers c; summary := summary c |}.

Definition set_sector_allocation (v : list (pyval * allocation_entry)) (c : data_cache)
  : data_cache :=
  {| holdings := holdings c; historical_performance := historical_performance c;
     sector_allocation := Some v; market_cap := market_cap c;
     top_performers := top_performers c; summary := summary c |}.

Definition set_market_cap (v : list (pyval * allocation_entry)) (c : data_cache)
  : data_cache :=
  {| holdings := holdings c; historical_performance := historical_performance c;
     sector_allocation := sector_allocation c; market_cap := Some v;
     top_performers := top_performers c; summary := summary c |}.

Definition set_summary (v : list (pyval * pyval)) (c : data_cache) : data_cache :=
  {| holdings := holdings c; historical_performance := historical_performance c;
     sector_allocation := sector_allocation c; market_cap := market_cap c;
     top_performers := top_performers c; summary := Some v |}.

Definition set_top_performers (v : list (pyval * performer_entry)) (c : data_cache)
  : data_cache :=
  {| holdings := holdings c; historical_performance := historical_performance c;
     sector_allocation := sector_allocation c; market_cap := market_cap c;
     top_performers := Some v; summary := summary c |}.

(** ** The loader: [load_excel_data] *)

Definition rupee : string := "₹".

(** The name the loader gives to a Holdings column, if any (the [if]/[elif]
    chain that fills [column_mapping]). *)
Definition column_mapping_of (col : string) : option string :=
  let col_lower := Str.strip (Str.lower col) in
  let has w := Str.contains w col_lower in
  if has "avg" && has "price" then Some "avg_price"
  else if has "current" && has "price" then Some "current_price"
  else if has "value" && Str.contains rupee col then Some "value"
  else if has "gain" && has "loss" && Str.contains rupee col then Some "gain_loss"
  else if has "gain" && has "loss" && Str.contains "%" col then Some "gain_loss_percent"
  else if has "company" && has "name" then Some "company_name"
  else if has "market" && has "cap" then Some "market_cap"
  else None.

Definition column_mapping (cols : list string) : list (string * string) :=
  flat_map (fun col => match column_mapping_of col with
                       | Some new_name => [(col, new_name)]
                       | None => []
                       end) cols.

(** [for old_name, new_name in column_mapping.items(): df = df.rename(...)] *)
Fixpoint apply_renaming (mapping : list (string * string)) (df : frame) : result frame :=
  match mapping with
  | [] => Ok df
  | (old_name, new_name) :: rest =>
      df' <- rename [(old_name, new_name)] df ;;
      apply_renaming rest df'
  end.

(** [float(x) if x else 0.0] *)
Definition float_or_zero (x : pyval) : result float :=
  if Py.truthy x then Py.float x else Ok 0%float.

(** [int(float(x)) if x else 0] *)
Definition int_or_zero (x : pyval) : result Z :=
  if Py.truthy x then f <- Py.float x ;; PyFloat.to_int f else Ok 0.

(** [float(x) * 100 if x and abs(x) <= 1 else float(x) if x else 0.0] *)
Definition gain_loss_percent_of (x : pyval) : result float :=
  small <- (if Py.truthy x then a <- Py.abs x ;; Ok (Py.leb a (NInt 1))
            else Ok false) ;;
  if small then f <- Py.float x ;; Ok (f * 100)%float
  else if Py.truthy x then Py.float x
  else Ok 0%float.

(** The cells of a Holdings row, by the names of the loader's variables. *)
Record holding_cells : Type := {
  symbol_cell : pyval;
  company_name_cell : pyval;
  quantity_cell : pyval;
  avg_price_cell : pyval;
  current_price_cell : pyval;
  sector_cell : pyval;
  market_cap_cell : pyval;
  value_cell : pyval;
  gain_loss_cell : pyval;
  gain_loss_percent_cell : pyval
}.

(** [symbol = row.get("Symbol") or row.get("symbol")] *)
Definition symbol_of (r : row) : pyval :=
  Py.or (row_get r "Symbol") (row_get r "symbol").

(** [# Extract values with fallbacks] *)
Definition cells_of (r : row) : holding_cells :=
  {| symbol_cell := symbol_of r;
     company_name_cell :=
       Py.or (Py.or (row_get r "company_name") (row_get r "Company Name"))
             (row_get_or r "name" (VStr ""));
     quantity_cell := Py.or (row_get r "Quantity") (row_get_or r "quantity" (VInt 0));
     avg_price_cell := Py.or (row_get r "avg_price") (row_get_or r "avgPrice" (VInt 0));
     current_price_cell :=
       Py.or (row_get r "current_price") (row_get_or r "currentPrice" (VInt 0));
     sector_cell := Py.or (row_get r "Sector") (row_get_or r "sector" (VStr ""));
     market_cap_cell := Py.or (row_get r "market_cap") (row_get_or r "Market Cap" (VStr ""));
     value_cell := Py.or (row_get r "value") (row_get_or r "Value" (VInt 0));
     gain_loss_cell := Py.or (row_get r "gain_loss") (row_get_or r "gainLoss" (VInt 0));
     gain_loss_percent_cell :=
       Py.or (row_get r "gain_loss_percent") (row_get_or r "gainLossPercent" (VInt 0)) |}.

(** [# Convert and validate data types] *)
Definition convert_cells (x : holding_cells) : result holding :=
  q <- int_or_zero (quantity_cell x) ;;
  ap <- float_or_zero (avg_price_cell x) ;;
  cp <- float_or_zero (current_price_cell x) ;;
  v <- float_or_zero (value_cell x) ;;
  gl <- float_or_zero (gain_loss_cell x) ;;
  glp <- gain_loss_percent_of (gain_loss_percent_cell x) ;;
  Ok {| symbol := Py.str (symbol_cell x);
        name := Py.str (company_name_cell x);
        quantity := q;
        avgPrice := ap;
        currentPrice := cp;
        sector := Py.str (sector_cell x);
        marketCap := Py.str (market_cap_cell x);
        value := v;
        gainLoss := gl;
        gainLossPercent := glp |}.

(** The body of the loop over the Holdings rows: [Ok None] is the
    [continue] of a row without symbol, [Raise] an exception of the
    conversions. *)
Definition holding_of_row (r : row) : result (option holding) :=
  if negb (Py.truthy (symbol_of r)) then Ok None
  else h <- convert_cells (cells_of r) ;; Ok (Some h).

(** The loop over the Holdings rows: a row whose conversion raises is
    reported and left out ([except Exception ... continue]). *)
Fixpoint holdings_data_of (rs : list row) : list holding :=
  match rs with
  | [] => []
  | r :: rs' =>
      match holding_of_row r with
      | Ok (Some h) => h :: holdings_data_of rs'
      | Ok None | Raise _ => holdings_data_of rs'
      end
  end.

(** A loop over rows that has no [try] of its own: the first exception
    ends it. *)
Fixpoint fold_rows {A : Type} (step : A -> row -> result A) (rs : list row) (acc : A)
  : result A :=
  match rs with
  | [] => Ok acc
  | r :: rs' => acc' <- step acc r ;; fold_rows step rs' acc'
  end.

Definition performance_step (acc : list performance_point) (r : row)
  : result (list performance_point) :=
  let date_val := Py.or (row_get r "Date") (row_get r "date") in
  if Py.truthy date_val then
    let date_str :=
      match date_val with
      | VDate ymd _ => ymd
      | _ => Str.take_chars 10 (Py.str date_val)
      end in
    p <- float_or_zero (row_get r "portfolio_value") ;;
    n <- float_or_zero (row_get r "nifty50") ;;
    g <- float_or_zero (row_get r "gold") ;;
    Ok (acc ++ [{| date := date_str; portfolio := p; nifty50 := n; gold := g |}])%list
  else Ok acc.

(** [float(x) * 100 if x else 0.0] *)
Definition percentage_of (x : pyval) : result float :=
  if Py.truthy x then f <- Py.float x ;; Ok (f * 100)%float else Ok 0%float.

Definition sector_step (acc : list (pyval * allocation_entry)) (r : row)
  : result (list (pyval * allocation_entry)) :=
  key <- row_item r "Sector" ;;
  if Py.truthy key then
    value_c <- row_item r "value" ;;
    v <- float_or_zero value_c ;;
    percentage_cell <- row_item r "Percentage" ;;
    p <- percentage_of percentage_cell ;;
    Ok (Dict.set Py.eqb acc key {| entry_value := v; entry_percentage := p |})
  else Ok acc.

(** A text without commas and rupee signs, and without white space around. *)
Definition clean_number (s : string) : string :=
  Str.strip (Str.remove rupee (Str.remove "," s)).

(** The value of a Market_Cap row: the text of the cell, cleaned, read as a
    float; [0.0] when that raises. *)
Definition market_cap_value (cell : pyval) : float :=
  let value_str := clean_number (Py.str cell) in
  if negb (Str.is_empty value_str) && negb (String.eqb value_str "0") then
    match Py.float (VStr value_str) with
    | Ok f => f
    | Raise _ => 0%float
    end
  else 0%float.

Definition market_cap_step (acc : list (pyval * allocation_entry)) (r : row)
  : result (list (pyval * allocation_entry)) :=
  key <- row_item r "market_cap" ;;
  if Py.truthy key then
    value_c <- row_item r "value" ;;
    let v := market_cap_value value_c in
    percentage_cell <- row_item r "Percentage" ;;
    p <- percentage_of percentage_cell ;;
    Ok (Dict.set Py.eqb acc key {| entry_value := v; entry_percentage := p |})
  else Ok acc.

Definition summary_step (acc : list (pyval * pyval)) (r : row)
  : result (list (pyval * pyval)) :=
  metric <- row_item r "Metric" ;;
  if Py.truthy metric then
    value_c <- row_item r "Value" ;;
    let v :=
      match value_c with
      | VStr s =>
          match PyFloat.of_string (clean_number s) with
          | Some f => VFloat f
          | None => VStr (clean_number s)
          end
      | _ => value_c
      end in
    Ok (Dict.set Py.eqb acc metric v)
  else Ok acc.

Definition top_performers_step (acc : list (pyval * performer_entry)) (r : row)
  : result (list (pyval * performer_entry)) :=
  metric <- row_item r "Metric" ;;
  if Py.truthy metric then
    perf_cell <- row_item r "Performance" ;;
    let perf :=
      match perf_cell with
      | VStr s =>
          match PyFloat.of_string (clean_number s) with
          | Some f => VFloat f
          | None => perf_cell
          end
      | _ => perf_cell
      end in
    sym <- row_item r "Symbol" ;;
    nam <- row_item r "Company Name" ;;
    Ok (Dict.set Py.eqb acc metric
          {| performer_symbol := sym; performer_name := nam; performance := perf |})
  else Ok acc.

(** *** Code that reads and writes [DATA_CACHE] and may raise

    What was written to [DATA_CACHE] before an exception stays written. *)

Definition action (A : Type) : Type := data_cache -> result A * data_cache.

Definition ret {A : Type} (a : A) : action A := fun c => (Ok a, c).

Definition lift {A : Type} (r : result A) : action A := fun c => (r, c).

Definition and_then {A B : Type} (m : action A) (k : A -> action B) : action B :=
  fun c =>
    match m c with
    | (Ok a, c') => k a c'
    | (Raise e, c') => (Raise e, c')
    end.

Definition update (f : data_cache -> data_cache) : action unit :=
  fun c => (Ok tt, f c).

Definition read : action data_cache := fun c => (Ok c, c).

Definition catch {A : Type} (m : action A) (h : exn -> action A) : action A :=
  fun c =>
    match m c with
    | (Ok a, c') => (Ok a, c')
    | (Raise e, c') => h e c'
    end.

Notation "x <~ m ;; k" := (and_then m (fun x => k))
  (at level 61, m at next level, right associativity).
Notation "m ;;; k" := (and_then m (fun _ => k))
  (at level 61, right associativity).

Definition performance_renaming : list (string * string) :=
  [("Portfolio Value (₹)", "portfolio_value"); ("Nifty 50", "nifty50");
   ("Gold (₹/10g)", "gold")].

Definition sector_renaming : list (string * string) := [("Value (₹)", "value")].

Definition market_cap_renaming : list (string * string) :=
  [("Market Cap", "market_cap"); ("Value (₹)", "value")].

(** The Holdings sheet, read by polars or, when that raises, by pandas. *)
Definition open_holdings (wb : workbook) : result frame :=
  try_except (read_holdings wb) (fun _ => read_holdings_pandas wb).

(** What follows the reading of the Holdings sheet in [load_excel_data]. *)
Definition load_sheets (wb : workbook) (holdings_df : frame) : action bool :=
  holdings_df <~ lift (apply_renaming (column_mapping (columns holdings_df)) holdings_df) ;;
  update (set_holdings (holdings_data_of (named_rows holdings_df))) ;;;
  performance_df <~ lift (read_historical_performance wb) ;;
  performance_df <~ lift (rename performance_renaming performance_df) ;;
  performance_data <~ lift (fold_rows performance_step (named_rows performance_df) []) ;;
  update (set_historical_performance performance_data) ;;;
  sector_df <~ lift (read_sector_allocation wb) ;;
  sector_df <~ lift (rename sector_renaming sector_df) ;;
  sector_data <~ lift (fold_rows sector_step (named_rows sector_df) []) ;;
  update (set_sector_allocation sector_data) ;;;
  market_cap_df <~ lift (read_market_cap wb) ;;
  market_cap_df <~ lift (rename market_cap_renaming market_cap_df) ;;
  market_cap_data <~ lift (fold_rows market_cap_step (named_rows market_cap_df) []) ;;
  update (set_market_cap market_cap_data) ;;;
  summary_df <~ lift (read_summary wb) ;;
  summary_data <~ lift (fold_rows summary_step (named_rows summary_df) []) ;;
  update (set_summary summary_data) ;;;
  top_performers_df <~ lift (read_top_performers wb) ;;
  top_performers_data <~
    lift (fold_rows top_performers_step (named_rows top_performers_df) []) ;;
  update (set_top_performers top_performers_data) ;;;
  ret true.

(** [load_excel_data()]: [False] when the file is missing, when neither
    reader opens the Holdings sheet, and when anything after that raises. *)
Definition load_excel_data (wb : workbook) : action bool :=
  catch
    (if negb (file_exists wb) then ret false
     else
       match open_holdings wb with
       | Raise _ => ret false
       | Ok holdings_df => load_sheets wb holdings_df
       end)
    (fun _ => ret false).

(** ** The derived metrics *)

(** The response models (pydantic). *)
Module AllocationItem.
Record t : Type := { value : float; percentage : float }.
End AllocationItem.

Module PerformanceReturns.
Record t : Type := { month1 : float; months3 : float; year1 : float }.
End PerformanceReturns.

Module HoldingItem.
Record t : Type := {
  symbol : string;
  name : string;
  quantity : Z;
  avgPrice : float;
  currentPrice : float;
  sector : string;
  marketCap : string;
  value : float;
  gainLoss : float;
  gainLossPercent : float
}.
End HoldingItem.

Module TopPerformer.
Record t : Type := {
  symbol : string;
  name : string;
  gainPercent : option float;
  value : option float
}.
End TopPerformer.

(** [if d:] for a list or a dict that may be [None]. *)
Definition non_empty {A : Type} (d : option (list A)) : bool :=
  match d with
  | Some (_ :: _) => true
  | Some [] | None => false
  end.

(** The totals per group of the fallback: a group starts at the [int] 0 and
    each holding adds its value, so that the first addition is [0.0 + v]. *)
Definition add_to_group (key : holding -> string) (totals : list (string * float))
  (h : holding) : list (string * float) :=
  let current :=
    match Dict.get String.eqb totals (key h) with
    | Some t => t
    | None => 0%float
    end in
  Dict.set String.eqb totals (key h) (current + value h)%float.

Definition group_totals (key : holding -> string) (holdings_data : list holding)
  : list (string * float) :=
  fold_left (add_to_group key) holdings_data [].

(** The dict comprehension of the fallback, one group after the other. *)
Fixpoint allocation_items (total_value : num) (totals : list (string * float))
  : result (list (pyval * AllocationItem.t)) :=
  match totals with
  | [] => Ok []
  | (k, v) :: rest =>
      ratio <- Py.truediv (NFloat v) total_value ;;
      items <- allocation_items total_value rest ;;
      Ok ((VStr k,
           {| AllocationItem.value := v;
              AllocationItem.percentage := PyFloat.round (ratio * 100)%float 1 |})
          :: items)
  end.

(** The part of both allocation functions that starts at
    [# Fallback: calculate from holdings data]. *)
Definition allocation_fallback (key : holding -> string) (c : data_cache)
  : result (list (pyval * AllocationItem.t)) :=
  match holdings c with
  | None | Some [] => Ok []
  | Some holdings_data =>
      let total_value := Py.sum (map value holdings_data) in
      allocation_items total_value (group_totals key holdings_data)
  end.

Definition item_of_entry (e : allocation_entry) : AllocationItem.t :=
  {| AllocationItem.value := entry_value e;
     AllocationItem.percentage := PyFloat.round (entry_percentage e) 1 |}.

Definition calculate_allocation_by_sector (c : data_cache)
  : result (list (pyval * AllocationItem.t)) :=
  if non_empty (sector_allocation c) then
    match sector_allocation c with
    | Some d => Ok (map (fun '(k, e) => (k, item_of_entry e)) d)
    | None => Ok []
    end
  else allocation_fallback sector c.

Definition calculate_allocation_by_market_cap (c : data_cache)
  : result (list (pyval * AllocationItem.t)) :=
  if non_empty (market_cap c) then
    match market_cap c with
    | Some d =>
        Ok (map (fun '(k, e) => (k, item_of_entry e))
                (filter (fun '(_, e) => (0 <? entry_value e)%float) d))
    | None => Ok []
    end
  else allocation_fallback marketCap c.

(** [calculate_return], the function local to
    [calculate_performance_returns]. *)
Definition calculate_return (current_val past_val : float) : num :=
  if (0 <? past_val)%float
  then NFloat (PyFloat.round ((current_val - past_val) / past_val * 100)%float 1)
  else NInt 0.

Definition returns_of (series : performance_point -> float)
  (current month1_data months3_data year1_data : performance_point)
  : PerformanceReturns.t :=
  {| PerformanceReturns.month1 :=
       Py.to_float (calculate_return (series current) (series month1_data));
     PerformanceReturns.months3 :=
       Py.to_float (calculate_return (series current) (series months3_data));
     PerformanceReturns.year1 :=
       Py.to_float (calculate_return (series current) (series year1_data)) |}.

(** [l[i]] for [0 <= i < len(l)], with a default that is never reached
    where the program indexes. *)
Definition item (l : list performance_point) (i : nat) : performance_point :=
  nth i l {| date := ""; portfolio := 0; nifty50 := 0; gold := 0 |}.

Definition calculate_performance_returns (c : data_cache)
  : list (string * PerformanceReturns.t) :=
  match historical_performance c with
  | None => []
  | Some timeline_data =>
      let len := List.length timeline_data in
      if (len <? 2)%nat then []
      else
        let current := item timeline_data (len - 1) in
        let month1_data :=
          if (2 <=? len)%nat then item timeline_data (len - 2)
          else item timeline_data 0 in
        let months3_data :=
          if (4 <=? len)%nat then item timeline_data (Nat.max 0 (len - 4))
          else item timeline_data 0 in
        let year1_data := item timeline_data 0 in
        [("portfolio", returns_of portfolio current month1_data months3_data year1_data);
         ("nifty50", returns_of nifty50 current month1_data months3_data year1_data);
         ("gold", returns_of gold current month1_data months3_data year1_data)]
  end.

(** [len(set(holding["sector"] for holding in holdings_data))] *)
Definition count_sectors (holdings_data : list holding) : Z :=
  Z.of_nat (List.length (nodup string_dec (map sector holdings_data))).

Definition calculate_diversification_score (c : data_cache) : num :=
  match holdings c with
  | None | Some [] => NFloat 5
  | Some holdings_data =>
      let num_sectors := count_sectors holdings_data in
      let num_holdings := Z.of_nat (List.length holdings_data) in
      let base_score := Py.min (NInt (num_sectors * 2)) (NInt 10) in
      let concentration_penalty :=
        if 10 <? num_holdings
        then Py.max (NInt 0) (NFloat (PyFloat.of_Z_nearest (num_holdings - 10) * 0.1))
        else NInt 0 in
      Py.min (NFloat 10) (Py.max (NFloat 1) (Py.sub base_score concentration_penalty))
  end.

Definition high_risk_sectors : list string := ["Technology"; "Small Cap Stocks"].

Definition high_risk_ratio_of (holdings_data : list holding) : result num :=
  let high_risk_exposure :=
    Py.sum (map value
              (filter (fun h => mem (sector h) high_risk_sectors) holdings_data)) in
  let total_value := Py.sum (map value holdings_data) in
  if Py.gtb total_value (NInt 0)
  then r <- Py.truediv high_risk_exposure total_value ;; Ok (NFloat r)
  else Ok (NInt 0).

Definition determine_risk_level (c : data_cache) (diversification_score : num)
  : result string :=
  match holdings c with
  | None | Some [] => Ok "Moderate"
  | Some holdings_data =>
      high_risk_ratio <- high_risk_ratio_of holdings_data ;;
      if Py.geb diversification_score (NInt 8) && Py.ltb high_risk_ratio (NFloat 0.3)
      then Ok "Conservative"
      else if Py.geb diversification_score (NInt 6)
              && Py.ltb high_risk_ratio (NFloat 0.5)
      then Ok "Moderate"
      else Ok "Aggressive"
  end.

(** ** The endpoints *)

Definition raise {A : Type} (e : exn) : action A := fun c => (Raise e, c).

(** [ensure_data_loaded()]: a load is attempted only while
    [DATA_CACHE["holdings"]] is [None]. *)
Definition ensure_data_loaded (wb : workbook) : action unit :=
  c <~ read ;;
  match holdings c with
  | None =>
      success <~ load_excel_data wb ;;
      if success then ret tt else raise (HTTPException 500)
  | Some _ => ret tt
  end.



(** [sorted(l, key=key, reverse=True)] for keys none of which is a [nan]:
    the greater keys first, holdings of equal key in the order of [l].
    (A [nan] compares as neither less nor greater than any key; the order
    Python gives to a list with such a key depends on the steps of its
    merge sort and is not the one of this definition, which is used for
    that order only where [no_nan] holds.) *)
Fixpoint insert_desc (key : holding -> float) (x : holding) (l : list holding)
  : list holding :=
  match l with
  | [] => [x]
  | y :: l' => if (key x <? key y)%float then y :: insert_desc key x l' else x :: l
  end.

Definition sorted_desc (key : holding -> float) (l : list holding) : list holding :=
  fold_right (insert_desc key) [] l.

(** [l[0]] and [l[-1]] *)
Definition first_item (l : list holding) : result holding :=
  match l with
  | h :: _ => Ok h
  | [] => Raise IndexError
  end.

Definition last_item (l : list holding) : result holding :=
  match rev l with
  | h :: _ => Ok h
  | [] => Raise IndexError
  end.

Record performers : Type := {
  topPerformer : TopPerformer.t;
  worstPerformer : TopPerformer.t;
  highestValue : TopPerformer.t;
  lowestValue : TopPerformer.t
}.

Definition by_gain (h : holding) : TopPerformer.t :=
  {| TopPerformer.symbol := symbol h; TopPerformer.name := name h;
     TopPerformer.gainPercent := Some (gainLossPercent h);
     TopPerformer.value := None |}.

Definition by_value (h : holding) : TopPerformer.t :=
  {| TopPerformer.symbol := symbol h; TopPerformer.name := name h;
     TopPerformer.gainPercent := None;
     TopPerformer.value := Some (value h) |}.

(** [get_portfolio_summary], the branch [# Fallback calculation] taken
    when [DATA_CACHE["top_performers"]] is empty or [None]: the four records
    derived from the holdings. *)
Definition fallback_performers (holdings_data : list holding) : result performers :=
  let sorted_by_performance := sorted_desc gainLossPercent holdings_data in
  let sorted_by_value := sorted_desc value holdings_data in
  top_holding <- first_item sorted_by_performance ;;
  worst_holding <- last_item sorted_by_performance ;;
  highest_value_holding <- first_item sorted_by_value ;;
  lowest_value_holding <- last_item sorted_by_value ;;
  Ok {| topPerformer := by_gain top_holding;
        worstPerformer := by_gain worst_holding;
        highestValue := by_value highest_value_holding;
        lowestValue := by_value lowest_value_holding |}.

(** ** The tables of one load attempt

    Each table as [load_excel_data] computes it from the workbook, or the
    exception that ends the attempt at that table. *)

Definition parse_holdings (wb : workbook) : result (list holding) :=
  df <- open_holdings wb ;;
  df' <- apply_renaming (column_mapping (columns df)) df ;;
  Ok (holdings_data_of (named_rows df')).

Definition parse_historical_performance (wb : workbook)
  : result (list performance_point) :=
  df <- read_historical_performance wb ;;
  df' <- rename performance_renaming df ;;
  fold_rows performance_step (named_rows df') [].

Definition parse_sector_allocation (wb : workbook)
  : result (list (pyval * allocation_entry)) :=
  df <- read_sector_allocation wb ;;
  df' <- rename sector_renaming df ;;
  fold_rows sector_step (named_rows df') [].

Definition parse_market_cap (wb : workbook) : result (list (pyval * allocation_entry)) :=
  df <- read_market_cap wb ;;
  df' <- rename market_cap_renaming df ;;
  fold_rows market_cap_step (named_rows df') [].

Definition parse_summary (wb : workbook) : result (list (pyval * pyval)) :=
  df <- read_summary wb ;;
  fold_rows summary_step (named_rows df) [].

Definition parse_top_performers (wb : workbook) : result (list (pyval * performer_entry)) :=
  df <- read_top_performers wb ;;
  fold_rows top_performers_step (named_rows df) [].

(** [DATA_CACHE] after a table of the workbook has been assigned to its key
    (unchanged when the table cannot be computed). *)
Definition install {A : Type} (table : result A) (set : A -> data_cache -> data_cache)
  (c : data_cache) : data_cache :=
  match table with
  | Ok v => set v c
  | Raise _ => c
  end.

(** [DATA_CACHE] after the first [stage] assignments of a load attempt, in
    the order of the program: holdings, historical_performance,
    sector_allocation, market_cap, summary, top_performers. *)
Fixpoint installed (stage : nat) (wb : workbook) (c : data_cache) : data_cache :=
  match stage with
  | O => c
  | S n =>
      let c' := installed n wb c in
      match n with
      | 0%nat => install (parse_holdings wb) set_holdings c'
      | 1%nat => install (parse_historical_performance wb) set_historical_performance c'
      | 2%nat => install (parse_sector_allocation wb) set_sector_allocation c'
      | 3%nat => install (parse_market_cap wb) set_market_cap c'
      | 4%nat => install (parse_summary wb) set_summary c'
      | 5%nat => install (parse_top_performers wb) set_top_performers c'
      | _ => c'
      end
  end.

(** Whether the table of rank [n] of a load attempt can be computed (for the
    holdings, the file has to be there too). *)
Definition computed (n : nat) (wb : workbook) : bool :=
  match n with
  | 0%nat => file_exists wb && is_ok (parse_holdings wb)
  | 1%nat => is_ok (parse_historical_performance wb)
  | 2%nat => is_ok (parse_sector_allocation wb)
  | 3%nat => is_ok (parse_market_cap wb)
  | 4%nat => is_ok (parse_summary wb)
  | 5%nat => is_ok (parse_top_performers wb)
  | _ => true
  end.

(** ** The other endpoints *)

Module PerformanceTimeline.
Record t : Type := { date : string; portfolio : float; nifty50 : float; gold : float }.
End PerformanceTimeline.

Module PerformanceData.
Record t : Type := {
  timeline : list PerformanceTimeline.t;
  returns : list (string * PerformanceReturns.t)
}.
End PerformanceData.

Module MarketCapItem.
Record t : Type := { marketCap : string; value : float; percentage : float }.
End MarketCapItem.

(** [startup_event()]: what the load returns is not looked at. *)
Definition startup_event (wb : workbook) : action unit :=
  load_excel_data wb ;;; ret tt.

(** The answer of [GET /api/portfolio/allocation]. *)
Record allocation : Type := {
  bySector : list (pyval * AllocationItem.t);
  byMarketCap : list (pyval * AllocationItem.t)
}.

(** [GET /api/portfolio/allocation].  Neither of the two coroutines given
    to [asyncio.gather] waits for anything or writes to [DATA_CACHE]: they
    run one after the other, and an exception of either leaves [gather],
    that of the first one if both raise. *)
Definition get_portfolio_allocation (wb : workbook) : action allocation :=
  catch
    (ensure_data_loaded wb ;;;
     c <~ read ;;
     sector_allocation <~ lift (calculate_allocation_by_sector c) ;;
     market_cap_allocation <~ lift (calculate_allocation_by_market_cap c) ;;
     ret {| bySector := sector_allocation; byMarketCap := market_cap_allocation |})
    (fun _ => raise (HTTPException 500)).

Definition timeline_item (p : performance_point) : PerformanceTimeline.t :=
  {| PerformanceTimeline.date := date p;
     PerformanceTimeline.portfolio := portfolio p;
     PerformanceTimeline.nifty50 := nifty50 p;
     PerformanceTimeline.gold := gold p |}.

(** [GET /api/portfolio/performance]: as for the holdings, the 404 of an
    empty timeline leaves as a 500. *)
Definition get_portfolio_performance (wb : workbook) : action PerformanceData.t :=
  catch
    (ensure_data_loaded wb ;;;
     c <~ read ;;
     if non_empty (historical_performance c) then
       match historical_performance c with
       | Some timeline_data =>
           ret {| PerformanceData.timeline := map timeline_item timeline_data;
                  PerformanceData.returns := calculate_performance_returns c |}
       | None => raise (HTTPException 404)
       end
     else raise (HTTPException 404))
    (fun _ => raise (HTTPException 500)).

Module PortfolioSummary.
Record t : Type := {
  totalValue : float;
  totalInvested : float;
  totalGainLoss : float;
  totalGainLossPercent : float;
  topPerformer : TopPerformer.t;
  worstPerformer : TopPerformer.t;
  highestValue : TopPerformer.t;
  lowestValue : TopPerformer.t;
  diversificationScore : float;
  riskLevel : string
}.
End PortfolioSummary.

(** The four totals of [get_portfolio_summary], before they are rounded. *)
Module Totals.
Record t : Type := {
  total_value : num;
  total_invested : num;
  total_gain_loss : num;
  total_gain_loss_percent : num
}.
End Totals.

(** [float(summary_data.get(metric, 0))] *)
Definition summary_metric (summary_data : list (pyval * pyval)) (metric : string)
  : result float :=
  Py.float (match Dict.get Py.eqb summary_data (VStr metric) with
            | Some v => v
            | None => VInt 0
            end).

(** [holding["quantity"] * holding["avgPrice"]] for each holding: the
    [int] is converted to a float, which raises if it is too large. *)
Fixpoint invested_amounts (holdings_data : list holding) : result (list float) :=
  match holdings_data with
  | [] => Ok []
  | h :: rest =>
      q <- PyFloat.of_int (quantity h) ;;
      amounts <- invested_amounts rest ;;
      Ok ((q * avgPrice h)%float :: amounts)
  end.

(** [# Get totals from summary sheet or calculate from holdings] *)
Definition summary_totals (c : data_cache) (holdings_data : list holding)
  : result Totals.t :=
  match summary c with
  | Some (row1 :: rows) =>
      let summary_data := row1 :: rows in
      total_value <- summary_metric summary_data "Total Portfolio Value" ;;
      total_invested <- summary_metric summary_data "Total Invested Amount" ;;
      total_gain_loss <- summary_metric summary_data "Total Gain/Loss" ;;
      percent <- summary_metric summary_data "Total Gain/Loss %" ;;
      Ok {| Totals.total_value := NFloat total_value;
            Totals.total_invested := NFloat total_invested;
            Totals.total_gain_loss := NFloat total_gain_loss;
            Totals.total_gain_loss_percent := NFloat (percent * 100) |}
  | Some [] | None =>
      let total_value := Py.sum (map value holdings_data) in
      amounts <- invested_amounts holdings_data ;;
      let total_invested := Py.sum amounts in
      let total_gain_loss := Py.sub total_value total_invested in
      total_gain_loss_percent <-
        (if Py.gtb total_invested (NInt 0)
         then q <- Py.truediv total_gain_loss total_invested ;; Ok (NFloat (q * 100))
         else Ok (NInt 0)) ;;
      Ok {| Totals.total_value := total_value;
            Totals.total_invested := total_invested;
            Totals.total_gain_loss := total_gain_loss;
            Totals.total_gain_loss_percent := total_gain_loss_percent |}
  end.

(** [top_performers_data.get(metric, {})], read with [.get("symbol", "")],
    [.get("name", "")] and [.get("performance", 0)]: the loader stores the
    three keys in every entry. *)
Definition performer_of (top_performers_data : list (pyval * performer_entry))
  (metric : string) : performer_entry :=
  match Dict.get Py.eqb top_performers_data (VStr metric) with
  | Some e => e
  | None => {| performer_symbol := VStr ""; performer_name := VStr "";
               performance := VInt 0 |}
  end.

(** [round(x, ndigits)] as a [float] field stores it: an [int] rounds to
    itself. *)
Definition rounded (x : num) (ndigits : nat) : float :=
  match x with
  | NFloat f => PyFloat.round f ndigits
  | NInt z => Py.to_float (NInt z)
  end.

Section Pydantic.

(** What pydantic makes of the value given for a field declared [str] and
    for one declared [Optional[float]]: it takes a [str] for the first and
    a [float] for the second as they are; what becomes of values of other
    types depends on its version, so both validations are left open. *)
Variable str_field : pyval -> result string.
Variable optional_float_field : pyval -> result (option float).

(** The list comprehension of [get_market_cap_info]. *)
Fixpoint market_cap_items (market_cap_data : list (pyval * allocation_entry))
  : result (list MarketCapItem.t) :=
  match market_cap_data with
  | [] => Ok []
  | (cap, data) :: rest =>
      market_cap <- str_field cap ;;
      items <- market_cap_items rest ;;
      Ok ({| MarketCapItem.marketCap := market_cap;
             MarketCapItem.value := entry_value data;
             MarketCapItem.percentage := PyFloat.round (entry_percentage data) 1 |}
          :: items)
  end.

(** [GET /api/portfolio/marketcap] *)
Definition get_market_cap_info (wb : workbook) : action (list MarketCapItem.t) :=
  catch
    (ensure_data_loaded wb ;;;
     c <~ read ;;
     if non_empty (market_cap c) then
       match market_cap c with
       | Some market_cap_data => lift (market_cap_items market_cap_data)
       | None => raise (HTTPException 404)
       end
     else raise (HTTPException 404))
    (fun _ => raise (HTTPException 500)).

(** [TopPerformer(symbol=..., name=..., gainPercent=float(...) * 100)] *)
Definition gain_performer (e : performer_entry) : result TopPerformer.t :=
  gain_percent <- Py.float (performance e) ;;
  s <- str_field (performer_symbol e) ;;
  n <- str_field (performer_name e) ;;
  Ok {| TopPerformer.symbol := s; TopPerformer.name := n;
        TopPerformer.gainPercent := Some (gain_percent * 100)%float;
        TopPerformer.value := None |}.

(** [TopPerformer(symbol=..., name=..., value=...)], the performance of
    the entry being read as a float first when it is a text. *)
Definition value_performer (e : performer_entry) : result TopPerformer.t :=
  perf <- match performance e with
          | VStr s => f <- Py.float (VStr (Str.strip (Str.remove "," s))) ;; Ok (VFloat f)
          | v => Ok v
          end ;;
  s <- str_field (performer_symbol e) ;;
  n <- str_field (performer_name e) ;;
  v <- optional_float_field perf ;;
  Ok {| TopPerformer.symbol := s; TopPerformer.name := n;
        TopPerformer.gainPercent := None;
        TopPerformer.value := v |}.

(** [# Get top/worst performers and highest/lowest values from Excel or
    calculate] *)
Definition summary_performers (c : data_cache) (holdings_data : list holding)
  : result performers :=
  match top_performers c with
  | Some (row1 :: rows) =>
      let top_performers_data := row1 :: rows in
      top_performer <- gain_performer (performer_of top_performers_data "Best Performer") ;;
      worst_performer <-
        gain_performer (performer_of top_performers_data "Worst Performer") ;;
      highest_value <-
        value_performer (performer_of top_performers_data "Highest Value") ;;
      lowest_value <- value_performer (performer_of top_performers_data "Lowest Value") ;;
      Ok {| topPerformer := top_performer; worstPerformer := worst_performer;
            highestValue := highest_value; lowestValue := lowest_value |}
  | Some [] | None => fallback_performers holdings_data
  end.

(** [GET /api/portfolio/summary] *)
Definition get_portfolio_summary (wb : workbook) : action PortfolioSummary.t :=
  catch
    (ensure_data_loaded wb ;;;
     c <~ read ;;
     match holdings c with
     | Some (h :: hs) =>
         let holdings_data := h :: hs in
         t <~ lift (summary_totals c holdings_data) ;;
         p <~ lift (summary_performers c holdings_data) ;;
         let diversification_score := calculate_diversification_score c in
         risk_level <~ lift (determine_risk_level c diversification_score) ;;
         ret {| PortfolioSummary.totalValue := rounded (Totals.total_value t) 2;
                PortfolioSummary.totalInvested := rounded (Totals.total_invested t) 2;
                PortfolioSummary.totalGainLoss := rounded (Totals.total_gain_loss t) 2;
                PortfolioSummary.totalGainLossPercent :=
                  rounded (Totals.total_gain_loss_percent t) 2;
                PortfolioSummary.topPerformer := topPerformer p;
                PortfolioSummary.worstPerformer := worstPerformer p;
                PortfolioSummary.highestValue := highestValue p;
                PortfolioSummary.lowestValue := lowestValue p;
                PortfolioSummary.diversificationScore := rounded diversification_score 1;
                PortfolioSummary.riskLevel := risk_level |}
     | Some [] | None => raise (HTTPException 404)
     end)
    (fun _ => raise (HTTPException 500)).

End Pydantic.

(** [GET /health], without its timestamp. *)
Record health : Type := { status : string; data_loaded : bool }.

(** [v is not None] *)
Definition is_not_none {A : Type} (v : option A) : bool :=
  match v with Some _ => true | None => false end.

Definition health_check (c : data_cache) : health :=
  let data_loaded :=
    forallb (fun v => v)
      [is_not_none (holdings c); is_not_none (historical_performance c)] in
  {| status := if data_loaded then "healthy" else "degraded";
     data_loaded := data_loaded |}.

(** ** The vocabulary of the properties *)


(** The rows that have a symbol, and those whose conversion raises. *)
Definition has_symbol (r : row) : bool := Py.truthy (symbol_of r).

Definition raises (r : row) : bool :=
  match holding_of_row r with Raise _ => true | Ok _ => false end.



(** [clamp(x, lo, hi)] *)
Definition clamp (x lo hi : num) : num := Py.min hi (Py.max lo x).

(** The level for a diversification score and a high-risk ratio. *)
Definition level_of (d ratio : num) : string :=
  if Py.geb d (NInt 8) && Py.ltb ratio (NFloat 0.3) then "Conservative"
  else if Py.geb d (NInt 6) && Py.ltb ratio (NFloat 0.5) then "Moderate"
  else "Aggressive".

Definition high_risk_exposure (hs : list holding) : num :=
  Py.sum (map value (filter (fun h => mem (sector h) high_risk_sectors) hs)).

Definition total_value (hs : list holding) : num := Py.sum (map value hs).

Definition quotient (a b : num) : num := NFloat (Py.to_float a / Py.to_float b).

(** The ratio in the words of the specification: the high-risk value over
    the total value, 0 if the total is 0. *)
Definition claimed_ratio (hs : list holding) : num :=
  if Py.num_eqb (total_value hs) (NInt 0) then NInt 0
  else quotient (high_risk_exposure hs) (total_value hs).

Definition claimed_risk_level (hs : list holding) (d : num) : string :=
  match hs with
  | [] => "Moderate"
  | _ :: _ => level_of d (claimed_ratio hs)
  end.

(** Every table of a load attempt can be computed. *)
Definition all_computed (wb : workbook) : bool :=
  forallb (fun n => computed n wb) (seq 0 6).

(** The date cell of a Historical_Performance row, the text the loader
    keeps for it, and whether the row is kept. *)
Definition date_val_of (r : row) : pyval := Py.or (row_get r "Date") (row_get r "date").

Definition date_str_of (r : row) : string :=
  match date_val_of r with
  | VDate ymd _ => ymd
  | _ => Str.take_chars 10 (Py.str (date_val_of r))
  end.

Definition dated (r : row) : bool := Py.truthy (date_val_of r).

(** The name of column [c] after [rename({old_name: new_name})]. *)
Definition rename_one (old_name new_name c : string) : string :=
  if String.eqb old_name c then new_name else c.

(** The entries of a precomputed table that [byMarketCap] keeps. *)
Definition positive_entry (x : pyval * allocation_entry) : bool :=
  (0 <? entry_value (snd x))%float.

(** The keys of a table, when all of them are texts. *)
Fixpoint texts_of {V : Type} (d : list (pyval * V)) : option (list string) :=
  match d with
  | [] => Some []
  | (VStr s, _) :: rest => option_map (cons s) (texts_of rest)
  | _ :: _ => None
  end.

(** A float that is neither [nan] nor an infinity nor a zero. *)
Definition finite_float (x : float) : bool :=
  match Prim2SF x with S754_finite _ _ _ => true | _ => false end.

(** A step of a loop that fills a dict looks at its row only: it leaves
    the dict as it is, assigns one entry, or raises. *)
Definition row_local {V : Type}
  (step : list (pyval * V) -> row -> result (list (pyval * V))) : Prop :=
  forall acc r,
    (step [] r = Ok [] /\ step acc r = Ok acc)
    \/ (exists k v, step [] r = Ok [(k, v)] /\ step acc r = Ok (Dict.set Py.eqb acc k v))
    \/ (exists e, step [] r = Raise e /\ step acc r = Raise e).

(** The four metrics the summary reads from the Summary table. *)
Definition summary_metrics : list string :=
  ["Total Portfolio Value"; "Total Invested Amount"; "Total Gain/Loss";
   "Total Gain/Loss %"].

(** The quantities of the holdings are not too large for a float. *)
Definition convertible (hs : list holding) : bool :=
  forallb (fun h => is_ok (PyFloat.of_int (quantity h))) hs.

(** A text of ASCII characters only; a text of ASCII digits only, and the
    number it writes after the digits of [acc]. *)
Fixpoint ascii_only (s : string) : bool :=
  match s with
  | EmptyString => true
  | String a s' => (Str.byte a <? 128)%N && ascii_only s'
  end.

Fixpoint digits_only (s : string) : bool :=
  match s with
  | EmptyString => true
  | String a s' => PyFloat.is_digit a && digits_only s'
  end.

Fixpoint number_of (s : string) (acc : Z) : Z :=
  match s with
  | EmptyString => acc
  | String a s' => number_of s' (10 * acc + PyFloat.digit_val a)
  end.

(** The characters of a decimal number without sign or exponent. *)
Definition plain_char (a : ascii) : bool := PyFloat.is_digit a || Ascii.eqb a ".".

Fixpoint plain (s : string) : bool :=
  match s with
  | EmptyString => true
  | String a s' => plain_char a && plain s'
  end.




(** No value and no gain of the holdings is a [nan]. *)
Definition no_nan (hs : list holding) : bool :=
  forallb (fun h => negb (is_nan (value h)) && negb (is_nan (gainLossPercent h))) hs.

(** ** Workbooks and snapshots used as examples *)

Definition missing_sheet : result frame := Raise SheetError.

(** A workbook whose only sheet is Holdings, with one row. *)
Definition wb_holdings_only : workbook :=
  {| file_exists := true;
     read_holdings :=
       Ok {| columns := ["Symbol"; "Quantity"]; rows := [[VStr "TCS"; VInt 10]] |};
     read_holdings_pandas := missing_sheet;
     read_historical_performance := missing_sheet;
     read_sector_allocation := missing_sheet;
     read_market_cap := missing_sheet;
     read_summary := missing_sheet;
     read_top_performers := missing_sheet |}.

Definition tcs : holding :=
  {| symbol := "TCS"; name := ""; quantity := 10; avgPrice := 0;
     currentPrice := 0; sector := ""; marketCap := ""; value := 0;
     gainLoss := 0; gainLossPercent := 0 |}.

(** A workbook with all six sheets.  The Quantity column of its Holdings
    sheet holds texts: of the three rows, the second has "n/a" for a
    quantity and the third has blank numeric cells. *)
Definition sheet_non_numeric : frame :=
  {| columns := ["Symbol"; "Quantity"; "Avg Price ₹"];
     rows := [[VStr "TCS"; VStr "10"; VFloat 3500.5];
              [VStr "INFY"; VStr "n/a"; VFloat 1500];
              [VStr "WIPRO"; VNone; VNone]] |}.

Definition wb_non_numeric : workbook :=
  {| file_exists := true;
     read_holdings := Ok sheet_non_numeric;
     read_holdings_pandas := missing_sheet;
     read_historical_performance :=
       Ok {| columns := ["Date"; "Portfolio Value (₹)"; "Nifty 50"; "Gold (₹/10g)"];
             rows := [[VDate "2024-01-01" "2024-01-01 00:00:00";
                       VFloat 100; VFloat 200; VFloat 50]] |};
     read_sector_allocation :=
       Ok {| columns := ["Sector"; "Value (₹)"; "Percentage"];
             rows := [[VStr "Technology"; VFloat 1000; VFloat 0.25]] |};
     read_market_cap :=
       Ok {| columns := ["Market Cap"; "Value (₹)"; "Percentage"];
             rows := [[VStr "Large"; VStr "₹1,234.50"; VFloat 0.25]] |};
     read_summary :=
       Ok {| columns := ["Metric"; "Value"];
             rows := [[VStr "Total Portfolio Value"; VStr "₹1,000"]] |};
     read_top_performers :=
       Ok {| columns := ["Metric"; "Symbol"; "Company Name"; "Performance"];
             rows := [[VStr "Best Performer"; VStr "TCS"; VStr "Tata"; VFloat 0.15]] |} |}.

Definition holdings_non_numeric : list holding :=
  [{| symbol := "TCS"; name := ""; quantity := 10; avgPrice := 3500.5;
      currentPrice := 0; sector := ""; marketCap := ""; value := 0;
      gainLoss := 0; gainLossPercent := 0 |};
   {| symbol := "WIPRO"; name := ""; quantity := 0; avgPrice := 0;
      currentPrice := 0; sector := ""; marketCap := ""; value := 0;
      gainLoss := 0; gainLossPercent := 0 |}].

Definition snapshot_non_numeric : data_cache :=
  {| holdings := Some holdings_non_numeric;
     historical_performance :=
       Some [{| date := "2024-01-01"; portfolio := 100; nifty50 := 200; gold := 50 |}];
     sector_allocation :=
       Some [(VStr "Technology", {| entry_value := 1000; entry_percentage := 25 |})];
     market_cap :=
       Some [(VStr "Large", {| entry_value := 1234.5; entry_percentage := 25 |})];
     top_performers :=
       Some [(VStr "Best Performer",
              {| performer_symbol := VStr "TCS"; performer_name := VStr "Tata";
                 performance := VFloat 0.15 |})];
     summary := Some [(VStr "Total Portfolio Value", VFloat 1000)] |}.

(** A snapshot with one holding of value zero and no precomputed table. *)
Definition unvalued : holding :=
  {| symbol := "IDLE"; name := "Idle Ltd"; quantity := 0; avgPrice := 0;
     currentPrice := 0; sector := "Banking"; marketCap := "Large"; value := 0;
     gainLoss := 0; gainLossPercent := 0 |}.

Definition snapshot_unvalued : data_cache := set_holdings [unvalued] DATA_CACHE.

(** A workbook with a sheet Sector_Allocation and a sheet Market_Cap whose
    percentages are written on the scale 0 to 100. *)
Definition allocation_frame (key : string) (k : string) (value_text : pyval) : frame :=
  {| columns := [key; "Value (₹)"; "Percentage"];
     rows := [[VStr k; value_text; VFloat 25]] |}.

Definition wb_percent_scale : workbook :=
  {| file_exists := true;
     read_holdings := missing_sheet;
     read_holdings_pandas := missing_sheet;
     read_historical_performance := missing_sheet;
     read_sector_allocation := Ok (allocation_frame "Sector" "Technology" (VFloat 1000));
     read_market_cap := Ok (allocation_frame "Market Cap" "Large" (VStr "₹1,234.50"));
     read_summary := missing_sheet;
     read_top_performers := missing_sheet |}.

(** A timeline of five points. *)
Definition point (d : string) (p n g : float) : performance_point :=
  {| date := d; portfolio := p; nifty50 := n; gold := g |}.

Definition five_months : list performance_point :=
  [point "2024-01-01" 100 200 50; point "2024-02-01" 110 0 50;
   point "2024-03-01" 120 210 50; point "2024-04-01" 130 220 50;
   point "2024-05-01" 150 231 50]%float.

Definition with_timeline (l : list performance_point) : data_cache :=
  set_historical_performance l DATA_CACHE.

(** A holding of the given sector, and a snapshot with one such holding per
    sector named. *)
Definition holding_in (s : string) : holding :=
  {| symbol := "SYM"; name := "Company"; quantity := 1; avgPrice := 100;
     currentPrice := 100; sector := s; marketCap := "Large"; value := 100;
     gainLoss := 0; gainLossPercent := 0 |}.

Definition snapshot_in (sectors : list string) : data_cache :=
  set_holdings (map holding_in sectors) DATA_CACHE.

Definition one_sector : list string := ["IT"].
Definition five_sectors_8 : list string :=
  ["IT"; "Banking"; "FMCG"; "Energy"; "Pharma"; "IT"; "Banking"; "FMCG"].
Definition three_sectors_20 : list string :=
  ["IT"; "Banking"; "FMCG"; "IT"; "Banking"; "FMCG"; "IT"; "Banking"; "FMCG"; "IT";
   "Banking"; "FMCG"; "IT"; "Banking"; "FMCG"; "IT"; "Banking"; "FMCG"; "IT"; "Banking"].

(** A snapshot with one Technology holding of negative value, and one with
    3.0 of 10.0 in Technology. *)
Definition valued (s : string) (v : float) : holding :=
  {| symbol := "SYM"; name := "Company"; quantity := 1; avgPrice := 0;
     currentPrice := 0; sector := s; marketCap := "Large"; value := v;
     gainLoss := 0; gainLossPercent := 0 |}.

Definition snapshot_short : data_cache :=
  set_holdings [valued "Technology" (-10)] DATA_CACHE.

Definition snapshot_three_tenths : data_cache :=
  set_holdings [valued "Technology" 3; valued "Banking" 7] DATA_CACHE.

(** A workbook whose Historical_Performance sheet has a text that is no
    number in its second row. *)
Definition sheet_bad_performance : frame :=
  {| columns := ["Date"; "Portfolio Value (₹)"; "Nifty 50"; "Gold (₹/10g)"];
     rows := [[VStr "2024-01-01"; VFloat 100; VFloat 200; VFloat 50];
              [VStr "2024-02-01"; VStr "n/a"; VFloat 210; VFloat 50]] |}.

Definition wb_bad_performance : workbook :=
  {| file_exists := true;
     read_holdings :=
       Ok {| columns := ["Symbol"; "Quantity"]; rows := [[VStr "TCS"; VInt 10]] |};
     read_holdings_pandas := missing_sheet;
     read_historical_performance := Ok sheet_bad_performance;
     read_sector_allocation := missing_sheet;
     read_market_cap := missing_sheet;
     read_summary := missing_sheet;
     read_top_performers := missing_sheet |}.

(** A workbook whose Historical_Performance sheet is not in the order of
    the dates, has a row without date and has a date twice. *)
Definition sheet_unsorted : frame :=
  {| columns := ["Date"; "Portfolio Value (₹)"; "Nifty 50"; "Gold (₹/10g)"];
     rows := [[VStr "2024-03-01"; VFloat 120; VFloat 210; VFloat 50];
              [VNone; VFloat 1; VFloat 1; VFloat 1];
              [VStr "2024-01-01"; VFloat 100; VFloat 200; VFloat 50];
              [VStr "2024-03-01"; VFloat 121; VFloat 211; VFloat 51]] |}.

Definition sheet_unsorted_renamed : frame :=
  {| columns := ["Date"; "portfolio_value"; "nifty50"; "gold"];
     rows := rows sheet_unsorted |}.

Definition wb_unsorted : workbook :=
  {| file_exists := true;
     read_holdings := missing_sheet;
     read_holdings_pandas := missing_sheet;
     read_historical_performance := Ok sheet_unsorted;
     read_sector_allocation := missing_sheet;
     read_market_cap := missing_sheet;
     read_summary := missing_sheet;
     read_top_performers := missing_sheet |}.

Definition timeline_unsorted : list performance_point :=
  [point "2024-03-01" 120 210 50; point "2024-01-01" 100 200 50;
   point "2024-03-01" 121 211 51]%float.

(** A workbook whose Holdings sheet has two columns that the loader both
    takes for the average price. *)
Definition sheet_two_prices : frame :=
  {| columns := ["Symbol"; "Avg Price"; "Avg Buy Price"];
     rows := [[VStr "TCS"; VFloat 3500; VFloat 3400]] |}.

Definition wb_two_prices : workbook :=
  {| file_exists := true;
     read_holdings := Ok sheet_two_prices;
     read_holdings_pandas := missing_sheet;
     read_historical_performance := missing_sheet;
     read_sector_allocation := missing_sheet;
     read_market_cap := missing_sheet;
     read_summary := missing_sheet;
     read_top_performers := missing_sheet |}.

(** Rows of a Summary sheet. *)
Definition summary_row (metric : string) (v : pyval) : row :=
  [("Metric", VStr metric); ("Value", v)].

(** A snapshot with holdings, a timeline of one point, and the same
    precomputed table for the sectors and for the market caps, one of whose
    two groups has no value. *)
Definition table_zero_bucket : list (pyval * allocation_entry) :=
  [(VStr "Large", {| entry_value := 1000; entry_percentage := 100 |});
   (VStr "Small", {| entry_value := 0; entry_percentage := 0 |})].

Definition snapshot_zero_bucket : data_cache :=
  {| holdings := Some [valued "Banking" 1000];
     historical_performance := Some [point "2024-01-01" 100 200 50];
     sector_allocation := Some table_zero_bucket;
     market_cap := Some table_zero_bucket;
     top_performers := None;
     summary := None |}.

(** pydantic's validation of a [str] field in its strict reading: only a
    [str] is a [str]. *)
Definition only_str (v : pyval) : result string :=
  match v with VStr s => Ok s | _ => Raise ValueError end.

(** A validation of an [Optional[float]] field that takes [None], floats
    and the ints that a float holds. *)
Definition float_or_none (v : pyval) : result (option float) :=
  match v with
  | VNone => Ok None
  | VFloat f => Ok (Some f)
  | VInt z => f <- PyFloat.of_int z ;; Ok (Some f)
  | _ => Raise ValueError
  end.

(** * Properties *)

(** ** Facts on binary64 *)


(** The order of the specification of binary64 is antisymmetric. *)
Lemma SFcompare_Lt_swap (x y : spec_float) :
  SFcompare x y = Some Lt -> SFcompare y x = Some Gt.
Proof.
  destruct x as [sx|sx| |sx mx ex], y as [sy|sy| |sy my ey]; cbn;
    try discriminate; try (destruct sx; discriminate || reflexivity);
    try (destruct sy; discriminate || reflexivity);
    try (destruct sx, sy; discriminate || reflexivity).
  change (Pos.compare_cont Eq mx my) with (Pos.compare mx my).
  change (Pos.compare_cont Eq my mx) with (Pos.compare my mx).
  rewrite (Z.compare_antisym ex ey), (Pos.compare_antisym mx my).
  destruct sx, sy; try discriminate; try reflexivity;
    destruct (ex ?= ey); cbn; try discriminate; try reflexivity;
    destruct (mx ?= my)%positive; cbn; try discriminate; reflexivity.
Qed.


Lemma leb_ltb_false (a b : float) : (a <=? b)%float = true -> (b <? a)%float = false.
Proof.
  rewrite ltb_spec, leb_spec. unfold SFltb, SFleb.
  destruct (SFcompare (Prim2SF b) (Prim2SF a)) as [[| |]|] eqn:E; try reflexivity.
  rewrite (SFcompare_Lt_swap _ _ E). discriminate.
Qed.

Lemma ltb_eqb_false (a b : float) : (a <? b)%float = true -> (a =? b)%float = false.
Proof.
  rewrite ltb_spec, FloatAxioms.eqb_spec. unfold SFltb, SFeqb.
  destruct (SFcompare (Prim2SF a) (Prim2SF b)) as [[| |]|]; congruence.
Qed.

Lemma leb_not_ltb_eqb (a b : float) :
  (a <=? b)%float = true -> (a <? b)%float = false -> (a =? b)%float = true.
Proof.
  rewrite ltb_spec, leb_spec, FloatAxioms.eqb_spec. unfold SFltb, SFleb, SFeqb.
  destruct (SFcompare (Prim2SF a) (Prim2SF b)) as [[| |]|]; congruence.
Qed.

(** ** Loading *)

Ltac destruct_result :=
  match goal with
  | |- context [match ?r with Ok _ => _ | Raise _ => _ end] =>
      let E := fresh "E" in destruct r eqn:E
  end.

(** A load attempt, table by table: it stops at the first table that cannot
    be computed, with the tables before it assigned. *)
Lemma load_excel_data_stages (wb : workbook) (c : data_cache) :
  load_excel_data wb c =
  if negb (file_exists wb) then (Ok false, c)
  else
    match parse_holdings wb with
    | Raise _ => (Ok false, c)
    | Ok _ =>
    match parse_historical_performance wb with
    | Raise _ => (Ok false, installed 1 wb c)
    | Ok _ =>
    match parse_sector_allocation wb with
    | Raise _ => (Ok false, installed 2 wb c)
    | Ok _ =>
    match parse_market_cap wb with
    | Raise _ => (Ok false, installed 3 wb c)
    | Ok _ =>
    match parse_summary wb with
    | Raise _ => (Ok false, installed 4 wb c)
    | Ok _ =>
    match parse_top_performers wb with
    | Raise _ => (Ok false, installed 5 wb c)
    | Ok _ => (Ok true, installed 6 wb c)
    end end end end end end.
Proof.
  unfold load_excel_data, catch, load_sheets, and_then, lift, update, ret.
  destruct (file_exists wb); cbn [negb]; [| reflexivity].
  unfold parse_holdings, parse_historical_performance, parse_sector_allocation,
    parse_market_cap, parse_summary, parse_top_performers, bind.
  cbn [installed install].
  unfold parse_holdings, parse_historical_performance, parse_sector_allocation,
    parse_market_cap, parse_summary, parse_top_performers, bind, install.
  repeat (destruct_result; try reflexivity).
Qed.

(** C1, counterexample: a workbook with a Holdings sheet and no
    Historical_Performance sheet.  The load fails, and the new holdings are
    in [DATA_CACHE] all the same, beside the other tables, never replaced. *)
Lemma failed_load_leaves_holdings_installed :
  load_excel_data wb_holdings_only DATA_CACHE = (Ok false, set_holdings [tcs] DATA_CACHE)
  /\ set_holdings [tcs] DATA_CACHE <> DATA_CACHE
  /\ historical_performance (set_holdings [tcs] DATA_CACHE) = None.
Proof.
  split; [vm_compute; reflexivity | split; [discriminate | reflexivity]].
Qed.

(** The assignments before the last one leave [top_performers] alone. *)
Lemma top_performers_installed (stage : nat) (wb : workbook) (c : data_cache) :
  (stage <= 5)%nat -> top_performers (installed stage wb c) = top_performers c.
Proof.
  intros H.
  do 6 (destruct stage as [|stage]; [cbn [installed]; unfold install;
        repeat destruct_result; reflexivity |]).
  lia.
Qed.

(** A failed load, by the table at which it stops. *)
Lemma failed_load_stage
  (wb : workbook) (c c' : data_cache) :
  load_excel_data wb c = (Ok false, c') ->
  exists stage : nat,
    (stage <= 5)%nat
    /\ computed stage wb = false
    /\ (forall n, (n < stage)%nat -> computed n wb = true)
    /\ c' = installed stage wb c
    /\ top_performers c' = top_performers c
    /\ (file_exists wb = false \/ is_ok (parse_holdings wb) = false -> c' = c).
Proof.
  rewrite load_excel_data_stages.
  destruct (file_exists wb) eqn:Ef; cbn [negb].
  2:{ intros [= <-]. exists 0%nat. cbn. rewrite Ef.
      repeat split; auto with arith. intros n Hn. lia. }
  destruct (parse_holdings wb) as [hs|] eqn:Eh.
  2:{ intros [= <-]. exists 0%nat. cbn. rewrite Ef, Eh.
      repeat split; auto with arith. intros n Hn. lia. }
  assert (Hno : forall P : Prop, true = false \/ is_ok (Ok hs) = false -> P)
    by (cbn; intros P [|]; discriminate).
  repeat (destruct_result;
          [| intros H; apply (f_equal snd) in H; cbn [snd] in H; subst c';
             match goal with
             | |- context [installed ?n wb c] => exists n
             end;
             repeat split;
             [ auto with arith
             | cbn [computed];
               repeat match goal with E : _ = Raise _ |- _ => rewrite E end;
               reflexivity
             | intros n Hn;
               do 5 (destruct n as [|n];
                     [ try lia; cbn [computed]; rewrite ?Ef, ?Eh;
                       repeat match goal with E : _ = Ok _ |- _ => rewrite E end;
                       reflexivity |]);
               lia
             | apply top_performers_installed; auto with arith
             | apply Hno ] ]).
  intros H; apply (f_equal fst) in H; discriminate H.
Qed.

(** The holdings and the timeline after a load attempt that opened the
    Holdings sheet. *)
Lemma holdings_after_load (wb : workbook) (c : data_cache) (hs : list holding) :
  file_exists wb = true -> parse_holdings wb = Ok hs ->
  holdings (snd (load_excel_data wb c)) = Some hs.
Proof.
  intros Ef Eh. rewrite load_excel_data_stages, Ef, Eh. cbn [negb].
  repeat destruct_result; cbn [snd installed install];
    rewrite ?Eh;
    repeat match goal with E : _ = Ok _ |- _ => rewrite E end;
    repeat match goal with E : _ = Raise _ |- _ => rewrite E end;
    reflexivity.
Qed.

Lemma historical_performance_after_load (wb : workbook) (c : data_cache) :
  file_exists wb = true -> is_ok (parse_holdings wb) = true ->
  historical_performance (snd (load_excel_data wb c)) =
  match parse_historical_performance wb with
  | Ok timeline => Some timeline
  | Raise _ => historical_performance c
  end.
Proof.
  intros Ef Eh. rewrite load_excel_data_stages, Ef. cbn [negb].
  destruct (parse_holdings wb) as [hs|] eqn:E0; [| discriminate Eh].
  repeat destruct_result; cbn [snd installed install];
    rewrite ?E0;
    repeat match goal with E : _ = Ok _ |- _ => rewrite E end;
    repeat match goal with E : _ = Raise _ |- _ => rewrite E end;
    reflexivity.
Qed.

(** C1, amended: when [load_excel_data] returns [False], one of the six
    tables could not be computed, and [DATA_CACHE] holds the tables that come
    before the first such table in the order of the program, with the other
    tables as they were; [top_performers], the last one, is never assigned.
    When the file is missing or the Holdings table cannot be computed,
    nothing is assigned: [DATA_CACHE] is exactly as it was.  In every other
    case the holdings of [DATA_CACHE] are the new ones, so that
    [DATA_CACHE] is as it was only if it held them already: after a first
    load, the holdings being [None] before it, [DATA_CACHE] is as it was
    exactly when the failure comes before the holdings. *)
Theorem failed_load_installs_the_tables_before_the_failure
  (wb : workbook) (c c' : data_cache) :
  load_excel_data wb c = (Ok false, c') ->
  exists stage : nat,
    (stage <= 5)%nat
    /\ computed stage wb = false
    /\ (forall n, (n < stage)%nat -> computed n wb = true)
    /\ c' = installed stage wb c
    /\ top_performers c' = top_performers c
    /\ (file_exists wb = false \/ is_ok (parse_holdings wb) = false -> c' = c)
    /\ (forall hs, file_exists wb = true -> parse_holdings wb = Ok hs ->
                   holdings c' = Some hs)
    /\ (holdings c = None ->
        (c' = c <-> file_exists wb = false \/ is_ok (parse_holdings wb) = false)).
Proof.
  intros H.
  destruct (failed_load_stage wb c c' H) as (stage & H1 & H2 & H3 & H4 & H5 & H6).
  assert (K : forall hs, file_exists wb = true -> parse_holdings wb = Ok hs ->
                         holdings c' = Some hs).
  { intros hs Ef Eh. pose proof (holdings_after_load wb c hs Ef Eh) as E.
    rewrite H in E. exact E. }
  exists stage.
  split; [exact H1 |]. split; [exact H2 |]. split; [exact H3 |].
  split; [exact H4 |]. split; [exact H5 |]. split; [exact H6 |].
  split; [exact K |].
  intros Hn. split; [| exact H6].
  intros Hc. destruct (file_exists wb) eqn:Ef; [| left; reflexivity].
  destruct (parse_holdings wb) as [hs|] eqn:Eh; [| right; reflexivity].
  specialize (K hs eq_refl eq_refl). rewrite Hc, Hn in K. discriminate K.
Qed.

(** C1, witness: the theorem at the workbook without Historical_Performance
    sheet. *)
Lemma failed_load_witness :
  exists stage : nat,
    (stage <= 5)%nat
    /\ computed stage wb_holdings_only = false
    /\ (forall n, (n < stage)%nat -> computed n wb_holdings_only = true)
    /\ set_holdings [tcs] DATA_CACHE = installed stage wb_holdings_only DATA_CACHE
    /\ top_performers (set_holdings [tcs] DATA_CACHE) = top_performers DATA_CACHE
    /\ (file_exists wb_holdings_only = false
         \/ is_ok (parse_holdings wb_holdings_only) = false ->
        set_holdings [tcs] DATA_CACHE = DATA_CACHE)
    /\ (forall hs, file_exists wb_holdings_only = true ->
                   parse_holdings wb_holdings_only = Ok hs ->
                   holdings (set_holdings [tcs] DATA_CACHE) = Some hs)
    /\ (holdings DATA_CACHE = None ->
        (set_holdings [tcs] DATA_CACHE = DATA_CACHE
         <-> file_exists wb_holdings_only = false
             \/ is_ok (parse_holdings wb_holdings_only) = false)).
Proof.
  apply (failed_load_installs_the_tables_before_the_failure
           wb_holdings_only DATA_CACHE (set_holdings [tcs] DATA_CACHE)).
  vm_compute. reflexivity.
Defined.

(** ** Allocation *)

(** After [d[k] = v] a dict is not empty; nor are the totals per group of a
    list of holdings that is not empty. *)
Lemma dict_set_not_empty {K V : Type} (keq : K -> K -> bool) (d : list (K * V))
  (k : K) (v : V) :
  Dict.set keq d k v <> [].
Proof.
  destruct d as [|[k' v'] d]; cbn; [discriminate |].
  destruct (keq k' k); discriminate.
Qed.

Lemma group_totals_not_empty (key : holding -> string) (hs : list holding) :
  hs <> [] -> group_totals key hs <> [].
Proof.
  unfold group_totals.
  assert (G : forall l acc, acc <> [] -> fold_left (add_to_group key) l acc <> []).
  { induction l as [|h l IH]; intros acc Hacc; cbn; [assumption |].
    apply IH. apply dict_set_not_empty. }
  destruct hs as [|h hs]; [congruence | intros _].
  cbn [fold_left]. apply G. apply dict_set_not_empty.
Qed.

(** With holdings whose values sum to zero, the fallback divides by zero. *)
Lemma allocation_fallback_zero_total (key : holding -> string) (c : data_cache)
  (hs : list holding) :
  holdings c = Some hs -> hs <> [] ->
  Py.num_eqb (Py.sum (map value hs)) (NInt 0) = true ->
  allocation_fallback key c = Raise ZeroDivisionError.
Proof.
  intros Hc Hne Hzero. unfold allocation_fallback. rewrite Hc.
  destruct hs as [|h hs']; [congruence |].
  pose proof (group_totals_not_empty key (h :: hs') Hne) as Hg.
  destruct (group_totals key (h :: hs')) as [|[k v] rest]; [congruence |].
  cbn [allocation_items]. unfold Py.truediv. rewrite Hzero. reflexivity.
Qed.

(** C2: without precomputed table, both allocation functions return the
    empty mapping when there is no holding; with holdings whose values sum
    to zero both raise [ZeroDivisionError], where the claim has them return
    the empty mapping, as at the snapshot with one holding of value 0.0. *)
Theorem allocation_fallback_divides_by_zero_total :
  (forall c, non_empty (sector_allocation c) = false ->
             non_empty (holdings c) = false ->
             calculate_allocation_by_sector c = Ok [])
  /\ (forall c, non_empty (market_cap c) = false ->
                non_empty (holdings c) = false ->
                calculate_allocation_by_market_cap c = Ok [])
  /\ (forall c hs, non_empty (sector_allocation c) = false ->
                   holdings c = Some hs -> hs <> [] ->
                   Py.num_eqb (Py.sum (map value hs)) (NInt 0) = true ->
                   calculate_allocation_by_sector c = Raise ZeroDivisionError)
  /\ (forall c hs, non_empty (market_cap c) = false ->
                   holdings c = Some hs -> hs <> [] ->
                   Py.num_eqb (Py.sum (map value hs)) (NInt 0) = true ->
                   calculate_allocation_by_market_cap c = Raise ZeroDivisionError)
  /\ calculate_allocation_by_sector snapshot_unvalued = Raise ZeroDivisionError
  /\ calculate_allocation_by_market_cap snapshot_unvalued = Raise ZeroDivisionError.
Proof.
  split; [| split; [| split; [| split; [| split]]]].
  - intros c Hs Hh. unfold calculate_allocation_by_sector, allocation_fallback.
    rewrite Hs. destruct (holdings c) as [[|h hs]|]; [reflexivity | discriminate | reflexivity].
  - intros c Hs Hh. unfold calculate_allocation_by_market_cap, allocation_fallback.
    rewrite Hs. destruct (holdings c) as [[|h hs]|]; [reflexivity | discriminate | reflexivity].
  - intros c hs Hs Hc Hne Hz. unfold calculate_allocation_by_sector. rewrite Hs.
    eapply allocation_fallback_zero_total; eassumption.
  - intros c hs Hs Hc Hne Hz. unfold calculate_allocation_by_market_cap. rewrite Hs.
    eapply allocation_fallback_zero_total; eassumption.
  - vm_compute. reflexivity.
  - vm_compute. reflexivity.
Qed.

(** ** Holdings rows *)



(** ** Performance returns *)

(** C5: with fewer than two points (or no timeline) the returns are the
    empty map; otherwise each of portfolio, nifty50 and gold has month1
    computed from the last point against the one before it, months3 against
    the point at index [max(0, length - 4)] and year1 against the first
    point, where a return is [(current - past) / past * 100] rounded to one
    decimal when [past > 0] and 0 when [past <= 0]. *)
Theorem performance_returns_by_period :
  (forall c,
     match historical_performance c with
     | None => calculate_performance_returns c = []
     | Some timeline =>
         let n := Z.of_nat (List.length timeline) in
         if n <? 2 then calculate_performance_returns c = []
         else
           let at_index i := item timeline (Z.to_nat i) in
           let returns series :=
             {| PerformanceReturns.month1 :=
                  Py.to_float (calculate_return (series (at_index (n - 1)))
                                                (series (at_index (n - 2))));
                PerformanceReturns.months3 :=
                  Py.to_float (calculate_return (series (at_index (n - 1)))
                                                (series (at_index (Z.max 0 (n - 4)))));
                PerformanceReturns.year1 :=
                  Py.to_float (calculate_return (series (at_index (n - 1)))
                                                (series (at_index 0))) |} in
           calculate_performance_returns c =
           [("portfolio", returns portfolio); ("nifty50", returns nifty50);
            ("gold", returns gold)]
     end)
  /\ (forall current past : float,
        (0 <? past)%float = true ->
        Py.to_float (calculate_return current past) =
        PyFloat.round ((current - past) / past * 100)%float 1)
  /\ (forall current past : float,
        (past <=? 0)%float = true ->
        Py.to_float (calculate_return current past) = 0%float)
  /\ calculate_performance_returns (with_timeline five_months) =
     [("portfolio", {| PerformanceReturns.month1 := 15.4;
                       PerformanceReturns.months3 := 36.4;
                       PerformanceReturns.year1 := 50 |});
      ("nifty50", {| PerformanceReturns.month1 := 5;
                     PerformanceReturns.months3 := 0;
                     PerformanceReturns.year1 := 15.5 |});
      ("gold", {| PerformanceReturns.month1 := 0;
                  PerformanceReturns.months3 := 0;
                  PerformanceReturns.year1 := 0 |})]%float.
Proof.
  split; [| split; [| split]].
  - intros c. unfold calculate_performance_returns.
    destruct (historical_performance c) as [timeline|]; [| reflexivity].
    cbv zeta. set (len := List.length timeline).
    destruct (Z.of_nat len <? 2) eqn:E2.
    + apply Z.ltb_lt in E2. replace (len <? 2)%nat with true; [reflexivity |].
      symmetry; apply Nat.ltb_lt; lia.
    + apply Z.ltb_ge in E2. replace (len <? 2)%nat with false
        by (symmetry; apply Nat.ltb_ge; lia).
      replace (2 <=? len)%nat with true by (symmetry; apply Nat.leb_le; lia).
      replace (Z.to_nat (Z.of_nat len - 1)) with (len - 1)%nat by lia.
      replace (Z.to_nat (Z.of_nat len - 2)) with (len - 2)%nat by lia.
      change (Z.to_nat 0) with 0%nat.
      destruct (4 <=? len)%nat eqn:E4.
      * apply Nat.leb_le in E4.
        replace (Z.to_nat (Z.max 0 (Z.of_nat len - 4))) with (Nat.max 0 (len - 4)) by lia.
        reflexivity.
      * apply Nat.leb_gt in E4.
        replace (Z.to_nat (Z.max 0 (Z.of_nat len - 4))) with 0%nat by lia.
        reflexivity.
  - intros current past H. unfold calculate_return. rewrite H. reflexivity.
  - intros current past H. unfold calculate_return.
    rewrite (leb_ltb_false _ _ H). reflexivity.
  - vm_compute. reflexivity.
Qed.

(** ** Diversification score *)

(** [min] on two [int]s. *)
Lemma min_int (a b : Z) : Py.min (NInt a) (NInt b) = NInt (Z.min a b).
Proof.
  unfold Py.min. cbn [Py.ltb].
  destruct (b <? a) eqn:E; [apply Z.ltb_lt in E | apply Z.ltb_ge in E];
    f_equal; lia.
Qed.

(** C6: 5.0 without holdings; otherwise
    [clamp(min(2 * sectors, 10) - penalty, 1.0, 10.0)] with
    [penalty = max(0, (count - 10) * 0.1)] when there are more than ten
    holdings and 0 otherwise.  One holding in one sector scores 2 (the
    [int], equal to 2.0), eight holdings over five sectors 10.0, twenty
    holdings over three sectors 5.0. *)
Theorem diversification_score_formula :
  (forall c, non_empty (holdings c) = false ->
             calculate_diversification_score c = NFloat 5)
  /\ (forall c hs,
        holdings c = Some hs -> hs <> [] ->
        let sectors := count_sectors hs in
        let count := Z.of_nat (List.length hs) in
        let base := NInt (Z.min (2 * sectors) 10) in
        let penalty :=
          if 10 <? count
          then Py.max (NInt 0) (NFloat (PyFloat.of_Z_nearest (count - 10) * 0.1))
          else NInt 0 in
        calculate_diversification_score c =
        clamp (Py.sub base penalty) (NFloat 1) (NFloat 10))
  /\ Py.num_eqb (calculate_diversification_score (snapshot_in one_sector)) (NFloat 2) = true
  /\ calculate_diversification_score (snapshot_in five_sectors_8) = NFloat 10
  /\ calculate_diversification_score (snapshot_in three_sectors_20) = NFloat 5.
Proof.
  split; [| split; [| split; [| split]]].
  - intros c H. unfold calculate_diversification_score.
    destruct (holdings c) as [[|h hs]|]; [reflexivity | discriminate | reflexivity].
  - intros c hs Hc Hne. cbv zeta. unfold calculate_diversification_score, clamp.
    rewrite Hc. destruct hs as [|h hs]; [congruence |].
    rewrite min_int. rewrite (Z.mul_comm 2). reflexivity.
  - vm_compute. reflexivity.
  - vm_compute. reflexivity.
  - vm_compute. reflexivity.
Qed.

(** ** Risk level *)

(** The sum of a list of floats that is not empty is a float. *)
Lemma sum_cons (v : float) (l : list float) :
  Py.sum (v :: l) = NFloat (fold_left PrimFloat.add l (0 + v)%float).
Proof. reflexivity. Qed.

(** C7, counterexample: one Technology holding of value -10.0 and a
    diversification score of 8.  The total is not above 0, so the program
    takes the ratio to be 0 and answers Conservative; the ratio of the
    claim, high-risk value over total value with 0 only for a total of 0,
    is 1.0 and gives Aggressive. *)
Lemma risk_level_of_negative_total :
  determine_risk_level snapshot_short (NInt 8) = Ok "Conservative"
  /\ claimed_risk_level [valued "Technology" (-10)] (NInt 8) = "Aggressive".
Proof. split; vm_compute; reflexivity. Qed.

(** C7, amended: Moderate without holdings; otherwise, with the ratio of
    the high-risk value to the total value, taken as 0 when the total is not
    above 0, Conservative if the score is at least 8 and the ratio below
    0.3, else Moderate if the score is at least 6 and the ratio below 0.5,
    else Aggressive.  Whenever the total is at least 0 this is the level of
    the claim.  The comparisons of the ratio are strict: 3.0 of 10.0 in
    Technology is a ratio of 0.3 and, with a score of 8, Moderate. *)
Theorem risk_level_by_thresholds :
  (forall c d,
     determine_risk_level c d =
     Ok match holdings c with
        | None | Some [] => "Moderate"
        | Some hs =>
            level_of d (if Py.gtb (total_value hs) (NInt 0)
                        then quotient (high_risk_exposure hs) (total_value hs)
                        else NInt 0)
        end)
  /\ (forall c hs d,
        holdings c = Some hs ->
        Py.geb (total_value hs) (NInt 0) = true ->
        determine_risk_level c d = Ok (claimed_risk_level hs d))
  /\ determine_risk_level snapshot_three_tenths (NInt 8) = Ok "Moderate"
  /\ claimed_ratio [valued "Technology" 3; valued "Banking" 7] = NFloat 0.3.
Proof.
  assert (Main : forall c d,
     determine_risk_level c d =
     Ok match holdings c with
        | None | Some [] => "Moderate"
        | Some hs =>
            level_of d (if Py.gtb (total_value hs) (NInt 0)
                        then quotient (high_risk_exposure hs) (total_value hs)
                        else NInt 0)
        end).
  { intros c d. unfold determine_risk_level.
    destruct (holdings c) as [[|h hs]|]; [reflexivity | | reflexivity].
    unfold high_risk_ratio_of.
    fold (high_risk_exposure (h :: hs)). fold (total_value (h :: hs)).
    destruct (Py.gtb (total_value (h :: hs)) (NInt 0)) eqn:Eg.
    - unfold Py.truediv.
      assert (Ez : Py.num_eqb (total_value (h :: hs)) (NInt 0) = false).
      { revert Eg. unfold total_value. cbn [map]. rewrite sum_cons.
        unfold Py.gtb. cbn [Py.ltb Py.num_eqb].
        change (Py.small 0) with true. cbv iota. apply ltb_eqb_false. }
      rewrite Ez. cbn [bind]. unfold level_of, quotient.
      destruct (Py.geb d (NInt 8) && _); [reflexivity |].
      destruct (Py.geb d (NInt 6) && _); reflexivity.
    - cbn [bind]. unfold level_of.
      destruct (Py.geb d (NInt 8) && _); [reflexivity |].
      destruct (Py.geb d (NInt 6) && _); reflexivity. }
  split; [exact Main | split; [| split]].
  - intros c hs d Hc Hge. rewrite Main, Hc. unfold claimed_risk_level.
    destruct hs as [|h hs]; [reflexivity |].
    unfold claimed_ratio. f_equal. f_equal.
    revert Hge. unfold total_value. cbn [map]. rewrite sum_cons.
    unfold Py.gtb, Py.geb. cbn [Py.ltb Py.leb Py.num_eqb].
    change (Py.small 0) with true. cbv iota.
    intros Hle.
    destruct (Py.of_small 0 <? _)%float eqn:El.
    + rewrite (ltb_eqb_false _ _ El). reflexivity.
    + rewrite (leb_not_ltb_eqb _ _ Hle El). reflexivity.
  - vm_compute. reflexivity.
  - vm_compute. reflexivity.
Qed.

(** ** Precomputed allocation tables *)

(** Commas and rupee signs in a cell. *)
Lemma remove_comma_cons (c : ascii) (s : string) :
  Str.remove "," (String c s)
  = if Ascii.eqb "," c then Str.remove "," s else String c (Str.remove "," s).
Proof.
  unfold Str.remove. cbn [Str.remove_scan Str.strip_prefix String.length Nat.pred].
  destruct (Ascii.eqb "," c); reflexivity.
Qed.

Lemma remove_comma_app (a b : string) :
  Str.remove "," (a ++ b) = Str.remove "," a ++ Str.remove "," b.
Proof.
  induction a as [|c a IH]; [reflexivity |].
  cbn [append]. rewrite !remove_comma_cons, IH.
  destruct (Ascii.eqb "," c); reflexivity.
Qed.

Lemma not_rupee_lead (c : ascii) :
  (Str.byte c <? 128)%N = true -> Ascii.eqb (ascii_of_N 226) c = false.
Proof.
  intros H. apply Ascii.eqb_neq. intros <-. vm_compute in H. discriminate.
Qed.

Lemma remove_rupee_ascii (a t : string) :
  ascii_only a = true -> Str.remove rupee (a ++ t) = a ++ Str.remove rupee t.
Proof.
  intros H. induction a as [|c a IH]; [reflexivity |].
  cbn [ascii_only] in H. apply andb_true_iff in H. destruct H as [Hc Ha].
  specialize (IH Ha). cbn [append]. unfold Str.remove, rupee in *.
  cbn [Str.remove_scan Str.strip_prefix].
  change (Ascii.eqb _ c) with (Ascii.eqb (ascii_of_N 226) c).
  rewrite (not_rupee_lead c Hc). f_equal. exact IH.
Qed.

Lemma remove_rupee_head (t : string) : Str.remove rupee (rupee ++ t) = Str.remove rupee t.
Proof. reflexivity. Qed.

Lemma ascii_only_remove_comma (a : string) :
  ascii_only a = true -> ascii_only (Str.remove "," a) = true.
Proof.
  induction a as [|c a IH]; [reflexivity |].
  cbn [ascii_only]. intros H. apply andb_true_iff in H. destruct H as [Hc Ha].
  rewrite remove_comma_cons. destruct (Ascii.eqb "," c); [apply IH, Ha |].
  cbn [ascii_only]. rewrite Hc, (IH Ha). reflexivity.
Qed.

Lemma clean_number_comma (a b : string) :
  clean_number (a ++ "," ++ b) = clean_number (a ++ b).
Proof.
  unfold clean_number. rewrite !remove_comma_app. reflexivity.
Qed.

Lemma clean_number_rupee (a b : string) :
  ascii_only a = true -> clean_number (a ++ rupee ++ b) = clean_number (a ++ b).
Proof.
  intros H. unfold clean_number. rewrite !remove_comma_app.
  change (Str.remove "," rupee) with rupee.
  rewrite !(remove_rupee_ascii _ _ (ascii_only_remove_comma a H)).
  rewrite remove_rupee_head. reflexivity.
Qed.

(** A decimal number written with ASCII digits is left as it is by the
    cleaning and by what [float] does before it reads the digits. *)
Ltac by_cases_on a :=
  destruct a as [[] [] [] [] [] [] [] []]; try discriminate.

Lemma plain_char_facts (a : ascii) :
  plain_char a = true ->
  (Str.byte a <? 128)%N = true
  /\ Ascii.eqb "," a = false /\ Ascii.eqb a "_" = false
  /\ Str.is_space1 a = false /\ PyFloat.is_space1 a = false
  /\ (forall b, Str.is_space2 a b = false)
  /\ (forall b c, Str.is_space3 a b c = false)
  /\ (forall s, PyFloat.split_sign (String a s) = (false, String a s))
  /\ (forall s, String.eqb (Str.lower_letters (String a s)) "inf" = false
                /\ String.eqb (Str.lower_letters (String a s)) "infinity" = false
                /\ String.eqb (Str.lower_letters (String a s)) "nan" = false).
Proof.
  by_cases_on a; intros _; repeat split; reflexivity.
Qed.

Lemma plain_lstrip (a : ascii) (s : string) :
  plain_char a = true ->
  Str.lstrip (String a s) = String a s /\ PyFloat.lstrip (String a s) = String a s.
Proof.
  intros H. destruct (plain_char_facts a H) as (_ & _ & _ & S1 & S1' & S2 & S3 & _).
  cbn [Str.lstrip PyFloat.lstrip]. rewrite S1, S1'.
  destruct s as [|b [|c s]]; rewrite ?S2, ?S3; split; reflexivity.
Qed.

Lemma plain_strip (s : string) :
  plain s = true ->
  Str.strip s = s /\ PyFloat.rstrip (PyFloat.lstrip s) = s.
Proof.
  intros H.
  assert (R : Str.rstrip s = s /\ PyFloat.rstrip s = s).
  { induction s as [|a s IH]; [split; reflexivity |].
    cbn [plain] in H. apply andb_true_iff in H. destruct H as [Ha Hs].
    destruct (IH Hs) as [I1 I2]. destruct (plain_lstrip a s Ha) as [L1 L2].
    cbn [Str.rstrip PyFloat.rstrip]. rewrite L1, L2, I1, I2. split; reflexivity. }
  destruct s as [|a s]; [split; reflexivity |].
  cbn [plain] in H. apply andb_true_iff in H. destruct H as [Ha Hs].
  destruct (plain_lstrip a s Ha) as [L1 L2]. unfold Str.strip. rewrite L1, L2. exact R.
Qed.

Lemma plain_ascii_only (s : string) : plain s = true -> ascii_only s = true.
Proof.
  induction s as [|a s IH]; [reflexivity |]. cbn [plain ascii_only].
  intros H. apply andb_true_iff in H. destruct H as [Ha Hs].
  rewrite (proj1 (plain_char_facts a Ha)), (IH Hs). reflexivity.
Qed.

Lemma plain_remove_comma (s : string) : plain s = true -> Str.remove "," s = s.
Proof.
  induction s as [|a s IH]; [reflexivity |]. cbn [plain].
  intros H. apply andb_true_iff in H. destruct H as [Ha Hs].
  rewrite remove_comma_cons, (IH Hs).
  destruct (plain_char_facts a Ha) as (_ & -> & _). reflexivity.
Qed.

Lemma ascii_only_digits (s : string) : ascii_only s = true -> PyFloat.ascii_digits s = s.
Proof.
  induction s as [|a s IH]; [reflexivity |]. cbn [ascii_only PyFloat.ascii_digits].
  intros H. apply andb_true_iff in H. destruct H as [Ha Hs].
  rewrite Ha, (IH Hs). reflexivity.
Qed.

Lemma append_empty (s : string) : s ++ "" = s.
Proof. induction s as [|a s IH]; [reflexivity |]. cbn [append]. rewrite IH. reflexivity. Qed.

Lemma append_is_empty (a b : string) : a ++ b = "" -> a = "" /\ b = "".
Proof. destruct a; cbn [append]; [intros ->; split; reflexivity | discriminate]. Qed.

Lemma plain_clean_number (s : string) : plain s = true -> clean_number s = s.
Proof.
  intros H. unfold clean_number. rewrite (plain_remove_comma s H).
  pose proof (remove_rupee_ascii s "" (plain_ascii_only s H)) as R.
  rewrite append_empty in R. change (Str.remove rupee "") with "" in R.
  rewrite append_empty in R. rewrite R. apply (plain_strip s H).
Qed.

Lemma plain_drop_underscores (s : string) :
  plain s = true ->
  forall prev,
    match prev with Some p => Ascii.eqb p "_" | None => false end = false ->
    PyFloat.drop_underscores prev s = Some s.
Proof.
  induction s as [|a s IH]; intros H prev Hp.
  - cbn [PyFloat.drop_underscores]. rewrite Hp. reflexivity.
  - cbn [plain] in H. apply andb_true_iff in H. destruct H as [Ha Hs].
    destruct (plain_char_facts a Ha) as (_ & _ & U & _).
    cbn [PyFloat.drop_underscores]. rewrite U, Hp. cbn [andb].
    rewrite (IH Hs (Some a) U). reflexivity.
Qed.

Lemma span_digits_app (ds rest : string) :
  digits_only ds = true ->
  match rest with String a _ => PyFloat.is_digit a | EmptyString => false end = false ->
  forall acc count,
    PyFloat.span_digits (ds ++ rest) acc count
    = (number_of ds acc, count + Z.of_nat (String.length ds), rest).
Proof.
  intros Hd Hr. induction ds as [|a ds IH]; intros acc count.
  - cbn [append number_of String.length]. rewrite Z.add_0_r.
    destruct rest as [|b rest]; [reflexivity |]. cbn [PyFloat.span_digits].
    rewrite Hr. reflexivity.
  - cbn [digits_only] in Hd. apply andb_true_iff in Hd. destruct Hd as [Ha Hs].
    cbn [append PyFloat.span_digits number_of String.length]. rewrite Ha, (IH Hs).
    f_equal. f_equal. lia.
Qed.

Lemma number_of_app (a b : string) (acc : Z) :
  number_of (a ++ b) acc = number_of b (number_of a acc).
Proof.
  revert acc. induction a as [|c a IH]; intros acc; [reflexivity |].
  cbn [append number_of]. apply IH.
Qed.

Lemma digits_plain (s : string) : digits_only s = true -> plain s = true.
Proof.
  induction s as [|a s IH]; [reflexivity |]. cbn [digits_only plain].
  intros H. apply andb_true_iff in H. destruct H as [Ha Hs].
  unfold plain_char. rewrite Ha, (IH Hs). reflexivity.
Qed.

Lemma plain_app (a b : string) : plain a = true -> plain b = true -> plain (a ++ b) = true.
Proof.
  induction a as [|c a IH]; [intros _ H; exact H |]. cbn [plain append].
  intros H Hb. apply andb_true_iff in H. destruct H as [Hc Ha].
  rewrite Hc, (IH Ha Hb). reflexivity.
Qed.

(** [float] on a decimal number without sign or exponent. *)
Lemma of_string_plain (s : string) (d e10 : Z) :
  plain s = true -> s <> "" ->
  PyFloat.parse_decimal s = Some (d, e10) ->
  PyFloat.of_string s = Some (PyFloat.of_decimal false d e10).
Proof.
  intros H Hne Hp. unfold PyFloat.of_string.
  rewrite (ascii_only_digits s (plain_ascii_only s H)).
  rewrite (proj2 (plain_strip s H)).
  rewrite (plain_drop_underscores s H None eq_refl).
  destruct s as [|a s]; [congruence |].
  cbn [plain] in H. apply andb_true_iff in H. destruct H as [Ha Hs].
  destruct (plain_char_facts a Ha) as (_ & _ & _ & _ & _ & _ & _ & Sg & Wd).
  rewrite Sg. destruct (Wd s) as (-> & -> & ->). cbn [orb]. rewrite Hp. reflexivity.
Qed.

Lemma parse_decimal_digits (ip fp : string) :
  digits_only ip = true -> digits_only fp = true -> ip <> "" ->
  PyFloat.parse_decimal ip = Some (number_of ip 0, 0)
  /\ PyFloat.parse_decimal (ip ++ "." ++ fp)
     = Some (number_of (ip ++ fp) 0, - Z.of_nat (String.length fp)).
Proof.
  intros Hi Hf Hne.
  assert (L : (0 <? Z.of_nat (String.length ip)) = true).
  { destruct ip; [congruence |]. apply Z.ltb_lt. cbn [String.length]. lia. }
  split; unfold PyFloat.parse_decimal.
  - pose proof (span_digits_app ip "" Hi eq_refl 0 0) as E. rewrite append_empty in E.
    rewrite E. cbn [PyFloat.parse_exponent]. rewrite Z.add_0_l, Z.add_0_r, L.
    reflexivity.
  - rewrite (span_digits_app ip ("." ++ fp) Hi eq_refl 0 0).
    cbn [append].
    pose proof (span_digits_app fp "" Hf eq_refl (number_of ip 0) 0) as E.
    rewrite append_empty in E. rewrite E. cbn [PyFloat.parse_exponent].
    rewrite number_of_app.
    assert (L' : (0 <? 0 + Z.of_nat (String.length ip) + (0 + Z.of_nat (String.length fp)))
                 = true)
      by (apply Z.ltb_lt; apply Z.ltb_lt in L; lia).
    rewrite L'. f_equal.
Qed.

(** The value of a text cell. *)
Lemma market_cap_value_of_text (s : string) :
  market_cap_value (VStr s) =
  match PyFloat.of_string (clean_number s) with
  | Some f => f
  | None => 0%float
  end.
Proof.
  unfold market_cap_value. cbv zeta. change (Py.str (VStr s)) with s.
  set (t := clean_number s).
  destruct t as [|a t'] eqn:Et; [reflexivity |].
  cbn [Str.is_empty negb andb].
  destruct (String.eqb (String a t') "0") eqn:E0.
  - apply String.eqb_eq in E0. rewrite E0. reflexivity.
  - cbn [negb Py.float]. destruct (PyFloat.of_string (String a t')); reflexivity.
Qed.

Lemma market_cap_value_decimal (ip fp : string) :
  digits_only ip = true -> digits_only fp = true -> ip <> "" ->
  market_cap_value (VStr ip) = PyFloat.of_decimal false (number_of ip 0) 0
  /\ market_cap_value (VStr (ip ++ "." ++ fp))
     = PyFloat.of_decimal false (number_of (ip ++ fp) 0) (- Z.of_nat (String.length fp)).
Proof.
  intros Hi Hf Hne. destruct (parse_decimal_digits ip fp Hi Hf Hne) as [P1 P2].
  assert (Pd : plain (ip ++ "." ++ fp) = true).
  { apply plain_app; [apply digits_plain, Hi |]. cbn [append plain].
    rewrite (digits_plain fp Hf). reflexivity. }
  split; rewrite market_cap_value_of_text.
  - rewrite (plain_clean_number ip (digits_plain ip Hi)).
    rewrite (of_string_plain ip _ _ (digits_plain ip Hi) Hne P1). reflexivity.
  - rewrite (plain_clean_number _ Pd).
    rewrite (of_string_plain _ _ _ Pd (fun E => Hne (proj1 (append_is_empty _ _ E))) P2).
    reflexivity.
Qed.

(** C8: the value of a Market_Cap row is the text of its cell without
    commas and rupee signs, and without white space around, read as
    [float] reads it, and 0.0 when that text is not a number; the row is
    stored with that value whatever its cell holds, no exception coming
    from it.  A comma anywhere in the text, and a rupee sign after any ASCII
    text, change nothing to the value; digits, and digits with a point
    among them, give the double nearest to the decimal number they write.
    The text "₹1,234.50" gives 1234.5. *)
Theorem market_cap_value_parsing :
  (forall cell,
     market_cap_value cell =
     match PyFloat.of_string (clean_number (Py.str cell)) with
     | Some f => f
     | None => 0%float
     end)
  /\ (forall a b,
        market_cap_value (VStr (a ++ "," ++ b)) = market_cap_value (VStr (a ++ b)))
  /\ (forall a b,
        ascii_only a = true ->
        market_cap_value (VStr (a ++ rupee ++ b)) = market_cap_value (VStr (a ++ b)))
  /\ (forall ip fp,
        digits_only ip = true -> digits_only fp = true -> ip <> "" ->
        market_cap_value (VStr ip) = PyFloat.of_decimal false (number_of ip 0) 0
        /\ market_cap_value (VStr (ip ++ "." ++ fp))
           = PyFloat.of_decimal false (number_of (ip ++ fp) 0)
               (- Z.of_nat (String.length fp)))
  /\ (forall acc r key vc pc p,
        row_item r "market_cap" = Ok key -> Py.truthy key = true ->
        row_item r "value" = Ok vc -> row_item r "Percentage" = Ok pc ->
        percentage_of pc = Ok p ->
        market_cap_step acc r =
        Ok (Dict.set Py.eqb acc key
              {| entry_value := market_cap_value vc; entry_percentage := p |}))
  /\ clean_number "₹1,234.50" = "1234.50"
  /\ market_cap_value (VStr "₹1,234.50") = 1234.5%float
  /\ market_cap_value (VStr " ₹ 12,34,567.50 ₹ ") = 1234567.5%float
  /\ market_cap_value (VStr "₹१,२३४.५०") = 1234.5%float
  /\ market_cap_value (VFloat 1234.5) = 1234.5%float
  /\ market_cap_value (VStr "n/a") = 0%float
  /\ market_cap_value VNone = 0%float.
Proof.
  assert (Text : forall s t, clean_number s = clean_number t ->
                             market_cap_value (VStr s) = market_cap_value (VStr t)).
  { intros s t E. rewrite !market_cap_value_of_text, E. reflexivity. }
  split; [| split; [| split; [| split; [| split]]]].
  - intros cell. unfold market_cap_value. cbv zeta.
    set (t := clean_number (Py.str cell)).
    destruct t as [|a t'] eqn:Et; [reflexivity |].
    cbn [Str.is_empty negb andb].
    destruct (String.eqb (String a t') "0") eqn:E0.
    + apply String.eqb_eq in E0. rewrite E0. reflexivity.
    + cbn [negb Py.float]. destruct (PyFloat.of_string (String a t')); reflexivity.
  - intros a b. apply Text, clean_number_comma.
  - intros a b Ha. apply Text, clean_number_rupee, Ha.
  - apply market_cap_value_decimal.
  - intros acc r key vc pc p Hk Ht Hv Hp Ep. unfold market_cap_step.
    rewrite Hk. cbn [bind]. rewrite Ht, Hv. cbn [bind]. rewrite Hp. cbn [bind].
    rewrite Ep. reflexivity.
  - repeat split; vm_compute; reflexivity.
Qed.

(** C9: the percentage stored for a Sector_Allocation or Market_Cap row is
    the float of its Percentage cell times 100 whatever its magnitude, and
    0.0 for a cell that is [None], zero or empty; a sheet that writes 25.0
    for a quarter is stored as 2500.0. *)
Theorem allocation_percentage_times_100 :
  (forall x : pyval,
     percentage_of x =
     if Py.truthy x then f <- Py.float x ;; Ok (f * 100)%float else Ok 0%float)
  /\ (forall p : float,
        percentage_of (VFloat p) = Ok (if (p =? 0)%float then 0 else p * 100)%float)
  /\ percentage_of VNone = Ok 0%float
  /\ (forall acc r key vc pc,
        row_item r "Sector" = Ok key -> Py.truthy key = true ->
        row_item r "value" = Ok vc -> row_item r "Percentage" = Ok pc ->
        sector_step acc r =
        (v <- float_or_zero vc ;;
         p <- percentage_of pc ;;
         Ok (Dict.set Py.eqb acc key {| entry_value := v; entry_percentage := p |})))
  /\ (forall acc r key vc pc,
        row_item r "market_cap" = Ok key -> Py.truthy key = true ->
        row_item r "value" = Ok vc -> row_item r "Percentage" = Ok pc ->
        market_cap_step acc r =
        (p <- percentage_of pc ;;
         Ok (Dict.set Py.eqb acc key
               {| entry_value := market_cap_value vc; entry_percentage := p |})))
  /\ parse_sector_allocation wb_percent_scale =
     Ok [(VStr "Technology", {| entry_value := 1000; entry_percentage := 2500 |})]
  /\ parse_market_cap wb_percent_scale =
     Ok [(VStr "Large", {| entry_value := 1234.5; entry_percentage := 2500 |})].
Proof.
  split; [| split; [| split; [| split; [| split; [| split]]]]].
  - reflexivity.
  - intros p. unfold percentage_of. cbn [Py.truthy Py.float].
    destruct (p =? 0)%float; reflexivity.
  - reflexivity.
  - intros acc r key vc pc Hk Ht Hv Hp. unfold sector_step.
    rewrite Hk. cbn [bind]. rewrite Ht, Hv. cbn [bind]. rewrite Hp.
    destruct (float_or_zero vc); reflexivity.
  - intros acc r key vc pc Hk Ht Hv Hp. unfold market_cap_step.
    rewrite Hk. cbn [bind]. rewrite Ht, Hv. cbn [bind]. rewrite Hp. reflexivity.
  - vm_compute. reflexivity.
  - vm_compute. reflexivity.
Qed.

(** ** The holdings query *)


(** *** Renaming columns leaves the symbol of a row where it is *)





Lemma column_mapping_in (cols : list string) (old_name new_name : string) :
  In (old_name, new_name) (column_mapping cols) ->
  column_mapping_of old_name = Some new_name.
Proof.
  unfold column_mapping. rewrite in_flat_map. intros [c [_ Hin]].
  destruct (column_mapping_of c) eqn:E; cbn in Hin; [| contradiction].
  destruct Hin as [[= <- <-] | []]. exact E.
Qed.











(** ** The summary's fallback for the performers *)

(** Sorting keeps the number of holdings. *)
Lemma insert_desc_length (key : holding -> float) (x : holding) (l : list holding) :
  List.length (insert_desc key x l) = S (List.length l).
Proof.
  induction l as [|y l IH]; cbn; [reflexivity |].
  destruct (key x <? key y)%float; cbn; [rewrite IH |]; reflexivity.
Qed.

Lemma sorted_desc_length (key : holding -> float) (l : list holding) :
  List.length (sorted_desc key l) = List.length l.
Proof.
  unfold sorted_desc.
  induction l as [|x l IH]; cbn [fold_right]; [reflexivity |].
  rewrite insert_desc_length, IH. reflexivity.
Qed.

(** [l[0]] and [l[-1]] exist when [l] is not empty. *)
Lemma first_item_ok (l : list holding) : l <> [] -> exists h, first_item l = Ok h.
Proof. destruct l as [|h l]; [congruence | intros _; exists h; reflexivity]. Qed.

Lemma last_item_ok (l : list holding) : l <> [] -> exists h, last_item l = Ok h.
Proof.
  intros H. unfold last_item. destruct (rev l) as [|h l'] eqn:E.
  - apply (f_equal (@List.length holding)) in E. rewrite length_rev in E.
    destruct l; [congruence | discriminate].
  - exists h. reflexivity.
Qed.

Lemma sorted_desc_not_empty (key : holding -> float) (l : list holding) :
  l <> [] -> sorted_desc key l <> [].
Proof.
  intros H E. apply (f_equal (@List.length holding)) in E.
  rewrite sorted_desc_length in E. destruct l; [congruence | discriminate].
Qed.

(** C10: with one holding, the fallback gives the same record as
    topPerformer and worstPerformer and the same record as highestValue and
    lowestValue, those of that holding; and on any list of holdings that is
    not empty the fallback returns its four records (it raises IndexError
    on the empty list only). *)
Theorem fallback_performers_of_one_holding :
  (forall h : holding,
     exists p, fallback_performers [h] = Ok p
               /\ topPerformer p = worstPerformer p
               /\ highestValue p = lowestValue p
               /\ topPerformer p = by_gain h
               /\ highestValue p = by_value h)
  /\ (forall hs : list holding,
        hs <> [] -> exists p, fallback_performers hs = Ok p)
  /\ fallback_performers [] = Raise IndexError.
Proof.
  split; [| split].
  - intros h. eexists. split; [reflexivity |]. cbn. auto.
  - intros hs H. unfold fallback_performers.
    destruct (first_item_ok _ (sorted_desc_not_empty gainLossPercent hs H)) as [a ->].
    destruct (last_item_ok _ (sorted_desc_not_empty gainLossPercent hs H)) as [b ->].
    destruct (first_item_ok _ (sorted_desc_not_empty value hs H)) as [a' ->].
    destruct (last_item_ok _ (sorted_desc_not_empty value hs H)) as [b' ->].
    cbn [bind]. eexists. reflexivity.
  - reflexivity.
Qed.

(** * Further properties of the loader *)

(** ** The load as a whole *)

(** What [load_excel_data] returns. *)
Lemma load_excel_data_returns (wb : workbook) (c : data_cache) :
  fst (load_excel_data wb c) = Ok (all_computed wb).
Proof.
  rewrite load_excel_data_stages. unfold all_computed. cbn [seq forallb computed].
  destruct (file_exists wb); cbn [negb andb]; [| reflexivity].
  repeat (destruct_result; cbn [is_ok andb fst]; [| reflexivity]).
  reflexivity.
Qed.

Lemma all_computed_spec (wb : workbook) :
  all_computed wb = true <-> forall n, computed n wb = true.
Proof.
  unfold all_computed. rewrite forallb_forall. split.
  - intros H n. destruct (Nat.ltb_spec n 6) as [L | L].
    + apply H, in_seq. lia.
    + do 6 (destruct n as [|n]; [lia |]). reflexivity.
  - intros H n _. apply H.
Qed.

(** X1: [load_excel_data] never raises: whatever the workbook and whatever
    [DATA_CACHE] holds, it returns [True] or [False], and [True] exactly
    when the file is there and each of the six tables can be computed.
    [startup_event], which only awaits it, never raises either, so that the
    server starts without its workbook. *)
Theorem load_excel_data_never_raises (wb : workbook) (c : data_cache) :
  (exists (success : bool) (c' : data_cache),
     load_excel_data wb c = (Ok success, c')
     /\ (success = true <-> forall n, computed n wb = true))
  /\ startup_event wb c = (Ok tt, snd (load_excel_data wb c)).
Proof.
  pose proof (load_excel_data_returns wb c) as E.
  split.
  - exists (all_computed wb), (snd (load_excel_data wb c)). split.
    + rewrite <- E. destruct (load_excel_data wb c); reflexivity.
    + apply all_computed_spec.
  - unfold startup_event, and_then, ret.
    destruct (load_excel_data wb c) as [r c']. cbn [fst snd] in *. rewrite E.
    reflexivity.
Qed.

(** The snapshot a complete load leaves. *)
Lemma installed_all (wb : workbook) (c : data_cache)
  (hs : list holding) (ps : list performance_point)
  (sd md : list (pyval * allocation_entry)) (sm : list (pyval * pyval))
  (tp : list (pyval * performer_entry)) :
  parse_holdings wb = Ok hs -> parse_historical_performance wb = Ok ps ->
  parse_sector_allocation wb = Ok sd -> parse_market_cap wb = Ok md ->
  parse_summary wb = Ok sm -> parse_top_performers wb = Ok tp ->
  installed 6 wb c =
  {| holdings := Some hs; historical_performance := Some ps;
     sector_allocation := Some sd; market_cap := Some md;
     top_performers := Some tp; summary := Some sm |}.
Proof.
  intros E0 E1 E2 E3 E4 E5. cbn [installed]. rewrite E0, E1, E2, E3, E4, E5.
  reflexivity.
Qed.

Lemma load_success_inv (wb : workbook) (c c' : data_cache) :
  load_excel_data wb c = (Ok true, c') ->
  exists hs ps sd md sm tp,
    file_exists wb = true
    /\ parse_holdings wb = Ok hs /\ parse_historical_performance wb = Ok ps
    /\ parse_sector_allocation wb = Ok sd /\ parse_market_cap wb = Ok md
    /\ parse_summary wb = Ok sm /\ parse_top_performers wb = Ok tp
    /\ c' = {| holdings := Some hs; historical_performance := Some ps;
               sector_allocation := Some sd; market_cap := Some md;
               top_performers := Some tp; summary := Some sm |}.
Proof.
  rewrite load_excel_data_stages.
  destruct (file_exists wb); cbn [negb];
    [| intros H; apply (f_equal fst) in H; discriminate H].
  destruct (parse_holdings wb) as [hs|] eqn:E0;
    [| intros H; apply (f_equal fst) in H; discriminate H].
  destruct (parse_historical_performance wb) as [ps|] eqn:E1;
    [| intros H; apply (f_equal fst) in H; discriminate H].
  destruct (parse_sector_allocation wb) as [sd|] eqn:E2;
    [| intros H; apply (f_equal fst) in H; discriminate H].
  destruct (parse_market_cap wb) as [md|] eqn:E3;
    [| intros H; apply (f_equal fst) in H; discriminate H].
  destruct (parse_summary wb) as [sm|] eqn:E4;
    [| intros H; apply (f_equal fst) in H; discriminate H].
  destruct (parse_top_performers wb) as [tp|] eqn:E5;
    [| intros H; apply (f_equal fst) in H; discriminate H].
  intros H. apply (f_equal snd) in H. cbn [snd] in H.
  rewrite (installed_all wb c hs ps sd md sm tp E0 E1 E2 E3 E4 E5) in H.
  exists hs, ps, sd, md, sm, tp. repeat split; try reflexivity. symmetry. exact H.
Qed.

(** X2: a load that returns [True] replaces the whole snapshot: none of the
    six keys of [DATA_CACHE] is [None] afterwards, and nothing of what
    [DATA_CACHE] held before is left, the same workbook giving the same
    snapshot from any earlier state. *)
Theorem successful_load_replaces_the_snapshot (wb : workbook) (c1 c2 c' : data_cache) :
  load_excel_data wb c1 = (Ok true, c') ->
  load_excel_data wb c2 = (Ok true, c')
  /\ is_not_none (holdings c') = true
  /\ is_not_none (historical_performance c') = true
  /\ is_not_none (sector_allocation c') = true
  /\ is_not_none (market_cap c') = true
  /\ is_not_none (summary c') = true
  /\ is_not_none (top_performers c') = true.
Proof.
  intros H.
  destruct (load_success_inv wb c1 c' H)
    as (hs & ps & sd & md & sm & tp & Ef & E0 & E1 & E2 & E3 & E4 & E5 & ->).
  split; [| cbn; auto 10].
  rewrite load_excel_data_stages, Ef, E0, E1, E2, E3, E4, E5. cbn [negb].
  rewrite (installed_all wb c2 hs ps sd md sm tp E0 E1 E2 E3 E4 E5). reflexivity.
Qed.

(** X2, witness: the workbook with six sheets, loaded over an empty
    [DATA_CACHE] and over a snapshot that has holdings. *)
Lemma successful_load_witness :
  load_excel_data wb_non_numeric snapshot_unvalued = (Ok true, snapshot_non_numeric)
  /\ is_not_none (holdings snapshot_non_numeric) = true
  /\ is_not_none (historical_performance snapshot_non_numeric) = true
  /\ is_not_none (sector_allocation snapshot_non_numeric) = true
  /\ is_not_none (market_cap snapshot_non_numeric) = true
  /\ is_not_none (summary snapshot_non_numeric) = true
  /\ is_not_none (top_performers snapshot_non_numeric) = true.
Proof.
  apply (successful_load_replaces_the_snapshot wb_non_numeric DATA_CACHE).
  vm_compute. reflexivity.
Defined.

(** ** The headers of the Holdings sheet *)

Lemma mem_spec (s : string) (l : list string) : mem s l = true <-> In s l.
Proof.
  unfold mem. rewrite existsb_exists. split.
  - intros [x [Hx E]]. apply String.eqb_eq in E. subst x. exact Hx.
  - intros H. exists s. split; [exact H | apply String.eqb_refl].
Qed.

(** Two columns that get the same name make a duplicate. *)
Lemma has_duplicate_map (f : string -> string) (x y : string) (l : list string) :
  x <> y -> In x l -> In y l -> f x = f y -> has_duplicate (map f l) = true.
Proof.
  intros Hxy Hx Hy Hf. induction l as [|a l IH]; [destruct Hx |].
  cbn [map has_duplicate]. apply orb_true_iff.
  destruct Hx as [-> | Hx], Hy as [Hy | Hy].
  - congruence.
  - left. rewrite Hf. apply mem_spec, in_map, Hy.
  - subst a. left. rewrite <- Hf. apply mem_spec, in_map, Hx.
  - right. apply (IH Hx Hy).
Qed.

Lemma rename_one_columns (o t : string) (df df' : frame) :
  rename [(o, t)] df = Ok df' ->
  columns df' = map (rename_one o t) (columns df)
  /\ has_duplicate (map (rename_one o t) (columns df)) = false.
Proof.
  unfold rename. destruct (forallb _ _); [| discriminate].
  assert (E : map (fun c => match Dict.get String.eqb [(o, t)] c with
                            | Some c' => c'
                            | None => c
                            end) (columns df)
              = map (rename_one o t) (columns df)).
  { apply map_ext. intros c. unfold rename_one. cbn [Dict.get].
    destruct (String.eqb o c); reflexivity. }
  rewrite E. destruct (has_duplicate _) eqn:D; [discriminate |].
  intros [= <-]. split; reflexivity.
Qed.

Lemma rename_one_same (o t : string) : rename_one o t o = t.
Proof. unfold rename_one. rewrite String.eqb_refl. reflexivity. Qed.

Lemma rename_one_other (o t c : string) : o <> c -> rename_one o t c = c.
Proof.
  intros H. unfold rename_one. destruct (String.eqb o c) eqn:E; [| reflexivity].
  apply String.eqb_eq in E. contradiction.
Qed.

(** A column that already has one of the loader's names keeps it. *)
Lemma column_mapping_of_names (col n : string) :
  column_mapping_of col = Some n -> forall t, column_mapping_of n = Some t -> t = n.
Proof.
  unfold column_mapping_of at 1. cbv zeta.
  repeat match goal with
         | |- context [if ?b then Some _ else _] => destruct b
         end; intros [= <-] t; vm_compute; congruence.
Qed.

(** Once a column is called [n], giving the name [n] to another column
    raises. *)
Lemma second_column_of_a_name (mapping : list (string * string)) :
  forall (df : frame) (c n : string),
  (forall o t, In (o, t) mapping -> column_mapping_of o = Some t) ->
  In n (columns df) -> In c (columns df) -> c <> n -> In (c, n) mapping ->
  is_ok (apply_renaming mapping df) = false.
Proof.
  induction mapping as [|[o t] rest IH]; intros df c n Hm Hn Hc Hcn Hin;
    [destruct Hin |].
  cbn [apply_renaming]. unfold bind.
  destruct (rename [(o, t)] df) as [df1|] eqn:E; [| reflexivity].
  destruct (rename_one_columns o t df df1 E) as [Ec D].
  pose proof (Hm c n Hin) as Mc.
  destruct (string_dec o c) as [-> | Hoc].
  - pose proof (Hm c t (or_introl eq_refl)) as Mt.
    assert (t = n) by congruence. subst t.
    rewrite (has_duplicate_map (rename_one c n) c n (columns df) Hcn Hc Hn) in D;
      [discriminate |].
    rewrite rename_one_same, (rename_one_other c n n Hcn). reflexivity.
  - destruct Hin as [[= -> ->] | Hin]; [congruence |].
    apply (IH df1 c n (fun a b H => Hm a b (or_intror H))); [| | exact Hcn | exact Hin].
    + rewrite Ec. apply in_map_iff. exists n. split; [| exact Hn].
      destruct (string_dec o n) as [-> | Hon]; [| apply rename_one_other, Hon].
      rewrite rename_one_same.
      apply (column_mapping_of_names c n Mc t (Hm n t (or_introl eq_refl))).
    + rewrite Ec. apply in_map_iff. exists c.
      split; [apply rename_one_other, Hoc | exact Hc].
Qed.

Lemma first_column_of_a_name (o : string) (rest : list (string * string))
  (df : frame) (c n : string) :
  (forall a b, In (a, b) ((o, n) :: rest) -> column_mapping_of a = Some b) ->
  In o (columns df) -> In c (columns df) -> o <> c -> In (c, n) rest ->
  is_ok (apply_renaming ((o, n) :: rest) df) = false.
Proof.
  intros Hm Ho Hc Hoc Hin.
  cbn [apply_renaming]. unfold bind.
  destruct (rename [(o, n)] df) as [df1|] eqn:E; [| reflexivity].
  destruct (rename_one_columns o n df df1 E) as [Ec D].
  assert (Hcn : c <> n).
  { intros ->.
    rewrite (has_duplicate_map (rename_one o n) o n (columns df) Hoc Ho Hc) in D;
      [discriminate |].
    rewrite rename_one_same, (rename_one_other o n n Hoc). reflexivity. }
  apply (second_column_of_a_name rest df1 c n (fun a b H => Hm a b (or_intror H)));
    [| | exact Hcn | exact Hin].
  - rewrite Ec. apply in_map_iff. exists o. split; [apply rename_one_same | exact Ho].
  - rewrite Ec. apply in_map_iff. exists c.
    split; [apply rename_one_other, Hoc | exact Hc].
Qed.

Lemma two_columns_of_a_name (mapping : list (string * string)) :
  forall (df : frame) (c1 c2 n : string),
  (forall o t, In (o, t) mapping -> column_mapping_of o = Some t) ->
  In c1 (columns df) -> In c2 (columns df) -> c1 <> c2 ->
  In (c1, n) mapping -> In (c2, n) mapping ->
  is_ok (apply_renaming mapping df) = false.
Proof.
  induction mapping as [|[o t] rest IH]; intros df c1 c2 n Hm H1 H2 H12 I1 I2;
    [destruct I1 |].
  assert (T : forall c, In (c, n) ((o, t) :: rest) -> o = c -> t = n).
  { intros c Hin ->. pose proof (Hm c t (or_introl eq_refl)). pose proof (Hm c n Hin).
    congruence. }
  destruct (string_dec o c1) as [E1 | N1].
  { rewrite (T c1 I1 E1) in *. subst o.
    destruct I2 as [[= ->] | I2]; [congruence |].
    apply (first_column_of_a_name c1 rest df c2 n Hm H1 H2 H12 I2). }
  destruct (string_dec o c2) as [E2 | N2].
  { rewrite (T c2 I2 E2) in *. subst o.
    destruct I1 as [[= ->] | I1]; [congruence |].
    apply (first_column_of_a_name c2 rest df c1 n Hm H2 H1 (not_eq_sym H12) I1). }
  destruct I1 as [[= -> ->] | I1]; [congruence |].
  destruct I2 as [[= -> ->] | I2]; [congruence |].
  cbn [apply_renaming]. unfold bind.
  destruct (rename [(o, t)] df) as [df1|] eqn:E; [| reflexivity].
  destruct (rename_one_columns o t df df1 E) as [Ec D].
  apply (IH df1 c1 c2 n (fun a b H => Hm a b (or_intror H))); try assumption.
  - rewrite Ec. apply in_map_iff. exists c1.
    split; [apply rename_one_other, N1 | exact H1].
  - rewrite Ec. apply in_map_iff. exists c2.
    split; [apply rename_one_other, N2 | exact H2].
Qed.

Lemma column_mapping_has (cols : list string) (c n : string) :
  In c cols -> column_mapping_of c = Some n -> In (c, n) (column_mapping cols).
Proof.
  intros Hc Hn. unfold column_mapping. apply in_flat_map. exists c.
  split; [exact Hc |]. rewrite Hn. left. reflexivity.
Qed.

(** X3: when two different columns of the Holdings sheet get the same name
    from the loader (two headers with avg and price in them, say), the
    renaming of the second one raises, polars allowing no two columns of one
    name: [load_excel_data] returns [False] and leaves [DATA_CACHE] as it
    was, no holding being loaded. *)
Theorem two_headers_of_one_name_fail_the_load (wb : workbook) (c : data_cache)
  (df : frame) (col1 col2 new_name : string) :
  open_holdings wb = Ok df ->
  In col1 (columns df) -> In col2 (columns df) -> col1 <> col2 ->
  column_mapping_of col1 = Some new_name ->
  column_mapping_of col2 = Some new_name ->
  load_excel_data wb c = (Ok false, c).
Proof.
  intros Eo H1 H2 H12 M1 M2.
  rewrite load_excel_data_stages.
  destruct (file_exists wb); cbn [negb]; [| reflexivity].
  assert (E : is_ok (parse_holdings wb) = false).
  { unfold parse_holdings, bind. rewrite Eo.
    pose proof (two_columns_of_a_name (column_mapping (columns df)) df col1 col2 new_name
                  (column_mapping_in (columns df)) H1 H2 H12
                  (column_mapping_has _ _ _ H1 M1) (column_mapping_has _ _ _ H2 M2)) as K.
    destruct (apply_renaming (column_mapping (columns df)) df);
      [discriminate K | reflexivity]. }
  destruct (parse_holdings wb); [discriminate E | reflexivity].
Qed.

(** X3, witness: a Holdings sheet with the columns Avg Price and Avg Buy
    Price. *)
Lemma two_headers_witness :
  load_excel_data wb_two_prices snapshot_unvalued = (Ok false, snapshot_unvalued).
Proof.
  apply (two_headers_of_one_name_fail_the_load wb_two_prices snapshot_unvalued
           sheet_two_prices "Avg Price" "Avg Buy Price" "avg_price").
  - reflexivity.
  - right. left. reflexivity.
  - right. right. left. reflexivity.
  - discriminate.
  - vm_compute. reflexivity.
  - vm_compute. reflexivity.
Defined.

(** ** The rows of the sheets *)

Lemma holdings_data_of_app (rs1 rs2 : list row) :
  holdings_data_of (rs1 ++ rs2) = (holdings_data_of rs1 ++ holdings_data_of rs2)%list.
Proof.
  induction rs1 as [|r rs1 IH]; [reflexivity |].
  cbn [app holdings_data_of]. rewrite IH.
  destruct (holding_of_row r) as [[h|]|e]; reflexivity.
Qed.

Lemma holdings_data_of_skipped (r : row) :
  has_symbol r = false \/ raises r = true -> holdings_data_of [r] = [].
Proof.
  unfold has_symbol, raises, holdings_data_of, holding_of_row.
  intros [H | H].
  - rewrite H. reflexivity.
  - destruct (Py.truthy (symbol_of r)); cbn [negb]; [| reflexivity].
    destruct (convert_cells (cells_of r)); [discriminate | reflexivity].
Qed.

(** X4: the rows of the Holdings sheet are converted one by one, in the
    order of the sheet: a row without symbol, or one whose conversion
    raises, is left out and changes nothing to the holdings that the rows
    before it and after it give. *)
Theorem bad_holdings_row_is_left_out_alone (rs1 rs2 : list row) (r : row) :
  holdings_data_of (rs1 ++ r :: rs2)
  = if has_symbol r && negb (raises r)
    then (holdings_data_of rs1 ++ holdings_data_of [r] ++ holdings_data_of rs2)%list
    else (holdings_data_of rs1 ++ holdings_data_of rs2)%list.
Proof.
  rewrite holdings_data_of_app.
  change (r :: rs2) with ([r] ++ rs2)%list. rewrite holdings_data_of_app.
  destruct (has_symbol r) eqn:Hs; cbn [andb negb].
  - destruct (raises r) eqn:Hr; cbn [negb]; [| reflexivity].
    rewrite (holdings_data_of_skipped r (or_intror Hr)). reflexivity.
  - rewrite (holdings_data_of_skipped r (or_introl Hs)). reflexivity.
Qed.

(** A loop without [try] fails with its first row that raises. *)
Lemma fold_rows_raises {A : Type} (step : A -> row -> result A) (r : row) (rs : list row) :
  In r rs -> (forall acc, is_ok (step acc r) = false) ->
  forall acc, is_ok (fold_rows step rs acc) = false.
Proof.
  intros Hin Hr. induction rs as [|r' rs IH]; [destruct Hin |].
  intros acc. cbn [fold_rows]. unfold bind.
  destruct Hin as [-> | Hin].
  - specialize (Hr acc). destruct (step acc r); [discriminate | reflexivity].
  - destruct (step acc r'); [apply (IH Hin) | reflexivity].
Qed.

Lemma fold_rows_app {A : Type} (step : A -> row -> result A) (rs1 rs2 : list row) :
  forall acc,
    fold_rows step (rs1 ++ rs2) acc
    = (acc' <- fold_rows step rs1 acc ;; fold_rows step rs2 acc').
Proof.
  induction rs1 as [|r rs1 IH]; intros acc; cbn [app fold_rows bind]; [reflexivity |].
  unfold bind at 1 3. destruct (step acc r); [apply IH | reflexivity].
Qed.

Lemma performance_step_raises (r : row) :
  dated r = true ->
  is_ok (float_or_zero (row_get r "portfolio_value"))
  && is_ok (float_or_zero (row_get r "nifty50"))
  && is_ok (float_or_zero (row_get r "gold")) = false ->
  forall acc, is_ok (performance_step acc r) = false.
Proof.
  unfold dated, date_val_of. intros Hd Hc acc. unfold performance_step, bind.
  rewrite Hd.
  destruct (float_or_zero (row_get r "portfolio_value")); [| reflexivity].
  destruct (float_or_zero (row_get r "nifty50")); [| reflexivity].
  destruct (float_or_zero (row_get r "gold")); [discriminate | reflexivity].
Qed.

(** X5: unlike a row of the Holdings sheet, a row of the
    Historical_Performance sheet that has a date and a value cell that
    [float] refuses (a text that is no number, say) is not skipped: it makes
    [load_excel_data] return [False], with the holdings assigned and no
    other key of [DATA_CACHE] changed. *)
Theorem bad_performance_row_fails_the_load (wb : workbook) (c : data_cache)
  (hs : list holding) (df df' : frame) (r : row) :
  file_exists wb = true ->
  parse_holdings wb = Ok hs ->
  read_historical_performance wb = Ok df ->
  rename performance_renaming df = Ok df' ->
  In r (named_rows df') ->
  dated r = true ->
  is_ok (float_or_zero (row_get r "portfolio_value"))
  && is_ok (float_or_zero (row_get r "nifty50"))
  && is_ok (float_or_zero (row_get r "gold")) = false ->
  load_excel_data wb c = (Ok false, set_holdings hs c).
Proof.
  intros Ef Eh Er En Hin Hd Hc.
  rewrite load_excel_data_stages, Ef, Eh. cbn [negb].
  assert (E : is_ok (parse_historical_performance wb) = false).
  { unfold parse_historical_performance, bind. rewrite Er, En.
    apply (fold_rows_raises _ r _ Hin (performance_step_raises r Hd Hc)). }
  destruct (parse_historical_performance wb); [discriminate E |].
  cbn [installed install]. rewrite Eh. reflexivity.
Qed.

(** X5, witness: a Historical_Performance sheet whose second row has the
    text n/a for a portfolio value. *)
Lemma bad_performance_row_witness :
  load_excel_data wb_bad_performance DATA_CACHE = (Ok false, set_holdings [tcs] DATA_CACHE).
Proof.
  apply (bad_performance_row_fails_the_load wb_bad_performance DATA_CACHE [tcs]
           sheet_bad_performance
           {| columns := ["Date"; "portfolio_value"; "nifty50"; "gold"];
              rows := rows sheet_bad_performance |}
           [("Date", VStr "2024-02-01"); ("portfolio_value", VStr "n/a");
            ("nifty50", VFloat 210); ("gold", VFloat 50)]).
  - reflexivity.
  - vm_compute. reflexivity.
  - reflexivity.
  - vm_compute. reflexivity.
  - right. left. reflexivity.
  - vm_compute. reflexivity.
  - vm_compute. reflexivity.
Defined.

Lemma performance_step_dates (acc : list performance_point) (r : row) :
  forall l, performance_step acc r = Ok l ->
  map date l = (map date acc ++ (if dated r then [date_str_of r] else []))%list.
Proof.
  intros l. unfold performance_step, dated, date_str_of, date_val_of, bind.
  destruct (Py.truthy (Py.or (row_get r "Date") (row_get r "date"))).
  - destruct (float_or_zero (row_get r "portfolio_value")); [| discriminate].
    destruct (float_or_zero (row_get r "nifty50")); [| discriminate].
    destruct (float_or_zero (row_get r "gold")); [| discriminate].
    intros [= <-]. rewrite map_app. reflexivity.
  - intros [= <-]. rewrite app_nil_r. reflexivity.
Qed.

Lemma performance_fold_dates (rs : list row) :
  forall acc l, fold_rows performance_step rs acc = Ok l ->
  map date l = (map date acc ++ map date_str_of (filter dated rs))%list.
Proof.
  induction rs as [|r rs IH]; intros acc l; cbn [fold_rows filter map].
  - intros [= <-]. rewrite app_nil_r. reflexivity.
  - unfold bind. destruct (performance_step acc r) as [acc'|] eqn:E; [| discriminate].
    intros H. rewrite (IH _ _ H), (performance_step_dates _ _ _ E), <- app_assoc.
    destruct (dated r); reflexivity.
Qed.

(** X6: the timeline has one point for each row of the
    Historical_Performance sheet that has a date, in the order of the
    sheet: the loader neither sorts the points by date nor merges two rows
    of the same date. *)
Theorem timeline_keeps_the_order_of_the_sheet (wb : workbook) (df df' : frame)
  (timeline : list performance_point) :
  read_historical_performance wb = Ok df ->
  rename performance_renaming df = Ok df' ->
  parse_historical_performance wb = Ok timeline ->
  map date timeline = map date_str_of (filter dated (named_rows df')).
Proof.
  intros Er En. unfold parse_historical_performance, bind. rewrite Er, En.
  intros H. apply (performance_fold_dates _ [] _ H).
Qed.

(** X6, witness: a sheet with March before January, a row without date
    and March a second time. *)
Lemma timeline_order_witness :
  map date timeline_unsorted
  = map date_str_of (filter dated (named_rows sheet_unsorted_renamed)).
Proof.
  apply (timeline_keeps_the_order_of_the_sheet wb_unsorted sheet_unsorted
           sheet_unsorted_renamed timeline_unsorted).
  - reflexivity.
  - vm_compute. reflexivity.
  - vm_compute. reflexivity.
Defined.

(** Keys that are texts, in a table of the loader. *)
Lemma eqb_text_l (a : pyval) (m : string) : Py.eqb a (VStr m) = true -> a = VStr m.
Proof.
  destruct a; cbn; try discriminate.
  intros H. apply String.eqb_eq in H. congruence.
Qed.

Lemma eqb_text_r (a : pyval) (m : string) : Py.eqb (VStr m) a = true -> a = VStr m.
Proof.
  destruct a; cbn; try discriminate.
  intros H. apply String.eqb_eq in H. congruence.
Qed.

Lemma get_set_text {V : Type} (d : list (pyval * V)) (m : string) (v : V) :
  Dict.get Py.eqb (Dict.set Py.eqb d (VStr m) v) (VStr m) = Some v.
Proof.
  induction d as [|[k' v'] d IH]; cbn [Dict.set Dict.get].
  - cbn. rewrite String.eqb_refl. reflexivity.
  - destruct (Py.eqb k' (VStr m)) eqn:E; cbn [Dict.get]; rewrite E;
      [reflexivity | exact IH].
Qed.

Lemma get_set_other {V : Type} (d : list (pyval * V)) (k : pyval) (m : string) (v : V) :
  k <> VStr m ->
  Dict.get Py.eqb (Dict.set Py.eqb d k v) (VStr m) = Dict.get Py.eqb d (VStr m).
Proof.
  intros Hk. induction d as [|[k' v'] d IH]; cbn [Dict.set Dict.get].
  - destruct (Py.eqb k (VStr m)) eqn:E; [| reflexivity].
    apply eqb_text_l in E. contradiction.
  - destruct (Py.eqb k' k) eqn:E; cbn [Dict.get].
    + destruct (Py.eqb k' (VStr m)) eqn:E1; [| reflexivity].
      apply eqb_text_l in E1. subst k'. apply eqb_text_r in E. contradiction.
    + rewrite IH. reflexivity.
Qed.

(** The steps of the four loops that fill a dict. *)
Lemma summary_step_local : row_local summary_step.
Proof.
  intros acc r. unfold summary_step, bind.
  destruct (row_item r "Metric") as [k|e]; [| right; right; eauto].
  destruct (Py.truthy k); [| left; auto].
  destruct (row_item r "Value") as [vc|e]; [| right; right; eauto].
  right; left. eexists _, _. split; reflexivity.
Qed.

Lemma sector_step_local : row_local sector_step.
Proof.
  intros acc r. unfold sector_step, bind.
  destruct (row_item r "Sector") as [k|e]; [| right; right; eauto].
  destruct (Py.truthy k); [| left; auto].
  destruct (row_item r "value") as [vc|e]; [| right; right; eauto].
  destruct (float_or_zero vc) as [v|e]; [| right; right; eauto].
  destruct (row_item r "Percentage") as [pc|e]; [| right; right; eauto].
  destruct (percentage_of pc) as [p|e]; [| right; right; eauto].
  right; left. eexists _, _. split; reflexivity.
Qed.

Lemma market_cap_step_local : row_local market_cap_step.
Proof.
  intros acc r. unfold market_cap_step, bind.
  destruct (row_item r "market_cap") as [k|e]; [| right; right; eauto].
  destruct (Py.truthy k); [| left; auto].
  destruct (row_item r "value") as [vc|e]; [| right; right; eauto].
  destruct (row_item r "Percentage") as [pc|e]; [| right; right; eauto].
  destruct (percentage_of pc) as [p|e]; [| right; right; eauto].
  right; left. eexists _, _. split; reflexivity.
Qed.

Lemma top_performers_step_local : row_local top_performers_step.
Proof.
  intros acc r. unfold top_performers_step, bind.
  destruct (row_item r "Metric") as [k|e]; [| right; right; eauto].
  destruct (Py.truthy k); [| left; auto].
  destruct (row_item r "Performance") as [pc|e]; [| right; right; eauto].
  destruct (row_item r "Symbol") as [s|e]; [| right; right; eauto].
  destruct (row_item r "Company Name") as [n|e]; [| right; right; eauto].
  right; left. eexists _, _. split; reflexivity.
Qed.

Lemma local_fold_other {V : Type}
  (step : list (pyval * V) -> row -> result (list (pyval * V))) (m : string)
  (rs : list row) :
  row_local step ->
  (forall r v, In r rs -> step [] r <> Ok [(VStr m, v)]) ->
  forall acc acc', fold_rows step rs acc = Ok acc' ->
  Dict.get Py.eqb acc' (VStr m) = Dict.get Py.eqb acc (VStr m).
Proof.
  intros L. induction rs as [|r rs IH]; intros Hm acc acc'; cbn [fold_rows].
  - intros [= <-]. reflexivity.
  - unfold bind. destruct (step acc r) as [acc1|] eqn:E; [| discriminate].
    intros H. rewrite (IH (fun r' v Hr => Hm r' v (or_intror Hr)) _ _ H).
    destruct (L acc r) as [[_ E1] | [(k & v & E0 & E1) | (e & _ & E1)]].
    + congruence.
    + rewrite E1 in E. injection E as <-. apply get_set_other.
      intros ->. apply (Hm r v (or_introl eq_refl) E0).
    + congruence.
Qed.

Lemma local_last_row {V : Type}
  (step : list (pyval * V) -> row -> result (list (pyval * V)))
  (rs1 rs2 : list row) (r : row) (m : string) (v : V) (table : list (pyval * V)) :
  row_local step ->
  fold_rows step (rs1 ++ r :: rs2) [] = Ok table ->
  step [] r = Ok [(VStr m, v)] ->
  (forall r' v', In r' rs2 -> step [] r' <> Ok [(VStr m, v')]) ->
  Dict.get Py.eqb table (VStr m) = Some v.
Proof.
  intros L H Hr Hrest. rewrite fold_rows_app in H. unfold bind in H.
  destruct (fold_rows step rs1 []) as [acc1|]; [| discriminate].
  cbn [fold_rows] in H. unfold bind in H.
  destruct (step acc1 r) as [acc2|] eqn:E; [| discriminate].
  rewrite (local_fold_other step m rs2 L Hrest _ _ H).
  destruct (L acc1 r) as [[E0 _] | [(k & v0 & E0 & E1) | (e & E0 & _)]];
    try congruence.
  rewrite E0 in Hr. injection Hr as -> ->.
  rewrite E1 in E. injection E as <-. apply get_set_text.
Qed.

(** X7: when several rows of the Summary sheet have the same text for a
    metric, the table keeps the entry of the last of them: what
    [summary_data.get] gives for the metric is what that row alone stores,
    whatever the rows of the same metric before it held. *)
Theorem last_summary_row_of_a_metric_wins (rs1 rs2 : list row) (r : row)
  (m : string) (v : pyval) (table : list (pyval * pyval)) :
  fold_rows summary_step (rs1 ++ r :: rs2) [] = Ok table ->
  summary_step [] r = Ok [(VStr m, v)] ->
  (forall r' v', In r' rs2 -> summary_step [] r' <> Ok [(VStr m, v')]) ->
  Dict.get Py.eqb table (VStr m) = Some v.
Proof.
  apply (local_last_row summary_step rs1 rs2 r m v table summary_step_local).
Qed.

(** X7, witness: a Summary sheet with the total value twice and the
    invested amount after it. *)
Lemma last_summary_row_witness :
  Dict.get Py.eqb
    [(VStr "Total Portfolio Value", VInt 2000); (VStr "Total Invested Amount", VInt 500)]
    (VStr "Total Portfolio Value")
  = Some (VInt 2000).
Proof.
  apply (last_summary_row_of_a_metric_wins
           [summary_row "Total Portfolio Value" (VInt 1000)]
           [summary_row "Total Invested Amount" (VInt 500)]
           (summary_row "Total Portfolio Value" (VInt 2000))
           "Total Portfolio Value" (VInt 2000)).
  - reflexivity.
  - reflexivity.
  - intros r' v' [<- | []]. discriminate.
Defined.

(** X8: in the tables of the Sector_Allocation, Market_Cap and
    Top_Performers sheets too, the entry under a text key is the one that
    the last row of that key gives, whatever the rows of the same key
    before it held. *)
Theorem last_row_of_a_key_wins :
  (forall rs1 rs2 r m e table,
     fold_rows sector_step (rs1 ++ r :: rs2) [] = Ok table ->
     sector_step [] r = Ok [(VStr m, e)] ->
     (forall r' e', In r' rs2 -> sector_step [] r' <> Ok [(VStr m, e')]) ->
     Dict.get Py.eqb table (VStr m) = Some e)
  /\ (forall rs1 rs2 r m e table,
        fold_rows market_cap_step (rs1 ++ r :: rs2) [] = Ok table ->
        market_cap_step [] r = Ok [(VStr m, e)] ->
        (forall r' e', In r' rs2 -> market_cap_step [] r' <> Ok [(VStr m, e')]) ->
        Dict.get Py.eqb table (VStr m) = Some e)
  /\ (forall rs1 rs2 r m e table,
        fold_rows top_performers_step (rs1 ++ r :: rs2) [] = Ok table ->
        top_performers_step [] r = Ok [(VStr m, e)] ->
        (forall r' e', In r' rs2 -> top_performers_step [] r' <> Ok [(VStr m, e')]) ->
        Dict.get Py.eqb table (VStr m) = Some e).
Proof.
  split; [| split]; intros rs1 rs2 r m e table.
  - apply (local_last_row sector_step rs1 rs2 r m e table sector_step_local).
  - apply (local_last_row market_cap_step rs1 rs2 r m e table market_cap_step_local).
  - apply (local_last_row top_performers_step rs1 rs2 r m e table
             top_performers_step_local).
Qed.


(** * Further properties of the queries *)

(** ** Loading on demand *)

Lemma ensure_data_loaded_loaded (wb : workbook) (c : data_cache) (hs : list holding) :
  holdings c = Some hs -> ensure_data_loaded wb c = (Ok tt, c).
Proof.
  intros H. unfold ensure_data_loaded, and_then, read. rewrite H. reflexivity.
Qed.

Lemma ensure_data_loaded_not_loaded (wb : workbook) (c : data_cache) :
  holdings c = None ->
  ensure_data_loaded wb c =
  (if all_computed wb then Ok tt else Raise (HTTPException 500),
   snd (load_excel_data wb c)).
Proof.
  intros H. unfold ensure_data_loaded, and_then, read. rewrite H.
  pose proof (load_excel_data_returns wb c) as E.
  destruct (load_excel_data wb c) as [r c']. cbn [fst snd] in *. rewrite E.
  destruct (all_computed wb); reflexivity.
Qed.

(** X9: [ensure_data_loaded] looks at the holdings only.  Once
    [DATA_CACHE["holdings"]] is not [None] (an empty list included, and
    whatever the other keys hold) it reads nothing and changes nothing;
    while it is [None] it runs one load and raises the error 500 unless the
    load returns [True].  When it returns, the holdings are not [None]. *)
Theorem ensure_data_loaded_loads_once (wb : workbook) (c : data_cache) :
  (forall hs, holdings c = Some hs -> ensure_data_loaded wb c = (Ok tt, c))
  /\ (holdings c = None ->
      ensure_data_loaded wb c =
      (if all_computed wb then Ok tt else Raise (HTTPException 500),
       snd (load_excel_data wb c)))
  /\ (forall c', ensure_data_loaded wb c = (Ok tt, c') -> holdings c' <> None).
Proof.
  split; [apply ensure_data_loaded_loaded |].
  split; [apply ensure_data_loaded_not_loaded |].
  intros c'. destruct (holdings c) as [hs|] eqn:H.
  - rewrite (ensure_data_loaded_loaded wb c hs H). intros [= <-]. congruence.
  - rewrite (ensure_data_loaded_not_loaded wb c H).
    destruct (all_computed wb) eqn:A; [| discriminate].
    intros [= <-]. pose proof (proj1 (all_computed_spec wb) A 0%nat) as A0.
    cbn [computed] in A0. apply andb_true_iff in A0. destruct A0 as [Ef Eh].
    destruct (parse_holdings wb) as [hs|] eqn:E; [| discriminate Eh].
    rewrite (holdings_after_load wb c hs Ef E). discriminate.
Qed.

(** The performance query on a snapshot that has holdings: no load is
    attempted. *)
Lemma get_portfolio_performance_loaded (wb : workbook) (c : data_cache)
  (hs : list holding) :
  holdings c = Some hs ->
  get_portfolio_performance wb c =
  (match historical_performance c with
   | Some (p :: timeline_data) =>
       Ok {| PerformanceData.timeline := map timeline_item (p :: timeline_data);
             PerformanceData.returns := calculate_performance_returns c |}
   | Some [] | None => Raise (HTTPException 500)
   end, c).
Proof.
  intros H. unfold get_portfolio_performance, catch, and_then.
  rewrite (ensure_data_loaded_loaded wb c hs H). unfold read.
  destruct (historical_performance c) as [[|p l]|]; reflexivity.
Qed.

(** X10: a load that fails after the holdings is never tried again.  When
    the first load, on the empty [DATA_CACHE], computes the holdings and
    fails at the Historical_Performance sheet, then whatever the workbook
    has become, [ensure_data_loaded] finds the holdings and loads nothing,
    and the performance query raises the error 500 every time. *)
Theorem failed_load_is_never_retried (wb : workbook) (hs : list holding) :
  file_exists wb = true ->
  parse_holdings wb = Ok hs ->
  is_ok (parse_historical_performance wb) = false ->
  load_excel_data wb DATA_CACHE = (Ok false, set_holdings hs DATA_CACHE)
  /\ forall wb',
       ensure_data_loaded wb' (set_holdings hs DATA_CACHE)
       = (Ok tt, set_holdings hs DATA_CACHE)
       /\ get_portfolio_performance wb' (set_holdings hs DATA_CACHE)
          = (Raise (HTTPException 500), set_holdings hs DATA_CACHE).
Proof.
  intros Ef Eh Ep. split.
  - rewrite load_excel_data_stages, Ef, Eh. cbn [negb].
    destruct (parse_historical_performance wb); [discriminate Ep |].
    cbn [installed install]. rewrite Eh. reflexivity.
  - intros wb'. split.
    + apply (ensure_data_loaded_loaded wb' _ hs). reflexivity.
    + apply (get_portfolio_performance_loaded wb' (set_holdings hs DATA_CACHE) hs).
      reflexivity.
Qed.

(** X10, witness: the workbook without Historical_Performance sheet. *)
Lemma failed_load_is_never_retried_witness :
  load_excel_data wb_holdings_only DATA_CACHE = (Ok false, set_holdings [tcs] DATA_CACHE)
  /\ forall wb',
       ensure_data_loaded wb' (set_holdings [tcs] DATA_CACHE)
       = (Ok tt, set_holdings [tcs] DATA_CACHE)
       /\ get_portfolio_performance wb' (set_holdings [tcs] DATA_CACHE)
          = (Raise (HTTPException 500), set_holdings [tcs] DATA_CACHE).
Proof.
  apply (failed_load_is_never_retried wb_holdings_only [tcs]).
  - reflexivity.
  - vm_compute. reflexivity.
  - vm_compute. reflexivity.
Defined.

(** ** The queries on a snapshot that has holdings *)

(** X11: on a snapshot that has holdings, the performance query leaves
    [DATA_CACHE] as it is; it raises the error 500 when the timeline is
    [None] or empty (its own 404 does not get out), and otherwise answers
    with the points of the timeline, unchanged and in their order, and with
    the returns: none for a timeline of one point, those of portfolio,
    nifty50 and gold from two points on. *)
Theorem performance_query_on_a_loaded_snapshot (wb : workbook) (c : data_cache)
  (hs : list holding) :
  holdings c = Some hs ->
  snd (get_portfolio_performance wb c) = c
  /\ (non_empty (historical_performance c) = false ->
      fst (get_portfolio_performance wb c) = Raise (HTTPException 500))
  /\ (forall timeline_data,
        historical_performance c = Some timeline_data -> timeline_data <> [] ->
        exists answer,
          fst (get_portfolio_performance wb c) = Ok answer
          /\ PerformanceData.timeline answer = map timeline_item timeline_data
          /\ PerformanceData.returns answer = calculate_performance_returns c
          /\ (List.length timeline_data = 1%nat -> PerformanceData.returns answer = [])
          /\ ((2 <= List.length timeline_data)%nat ->
              map fst (PerformanceData.returns answer)
              = ["portfolio"; "nifty50"; "gold"])).
Proof.
  intros H. rewrite (get_portfolio_performance_loaded wb c hs H). cbn [fst snd].
  split; [reflexivity |]. split.
  - destruct (historical_performance c) as [[|p l]|];
      [reflexivity | discriminate | reflexivity].
  - intros timeline_data Ht Hne. rewrite Ht.
    destruct timeline_data as [|p l]; [congruence |].
    eexists. split; [reflexivity |].
    cbn [PerformanceData.timeline PerformanceData.returns].
    split; [reflexivity |]. split; [reflexivity |].
    unfold calculate_performance_returns. rewrite Ht. split.
    + intros L. rewrite L. reflexivity.
    + intros L. destruct (Nat.ltb_spec (List.length (p :: l)) 2) as [L' | L']; [lia |].
      reflexivity.
Qed.

(** X11, witness: a snapshot with a timeline of one point. *)
Lemma performance_query_witness :
  snd (get_portfolio_performance wb_holdings_only snapshot_zero_bucket)
  = snapshot_zero_bucket
  /\ (non_empty (historical_performance snapshot_zero_bucket) = false ->
      fst (get_portfolio_performance wb_holdings_only snapshot_zero_bucket)
      = Raise (HTTPException 500))
  /\ (forall timeline_data,
        historical_performance snapshot_zero_bucket = Some timeline_data ->
        timeline_data <> [] ->
        exists answer,
          fst (get_portfolio_performance wb_holdings_only snapshot_zero_bucket)
          = Ok answer
          /\ PerformanceData.timeline answer = map timeline_item timeline_data
          /\ PerformanceData.returns answer
             = calculate_performance_returns snapshot_zero_bucket
          /\ (List.length timeline_data = 1%nat -> PerformanceData.returns answer = [])
          /\ ((2 <= List.length timeline_data)%nat ->
              map fst (PerformanceData.returns answer)
              = ["portfolio"; "nifty50"; "gold"])).
Proof.
  apply (performance_query_on_a_loaded_snapshot wb_holdings_only snapshot_zero_bucket
           [valued "Banking" 1000]).
  reflexivity.
Defined.

(** The allocation query on a snapshot that has holdings. *)
Lemma get_portfolio_allocation_loaded (wb : workbook) (c : data_cache)
  (hs : list holding) :
  holdings c = Some hs ->
  get_portfolio_allocation wb c =
  (match calculate_allocation_by_sector c, calculate_allocation_by_market_cap c with
   | Ok s, Ok m => Ok {| bySector := s; byMarketCap := m |}
   | _, _ => Raise (HTTPException 500)
   end, c).
Proof.
  intros H. unfold get_portfolio_allocation, catch, and_then.
  rewrite (ensure_data_loaded_loaded wb c hs H). unfold read, lift.
  destruct (calculate_allocation_by_sector c); [| reflexivity].
  destruct (calculate_allocation_by_market_cap c); reflexivity.
Qed.

(** X12: on a snapshot that has holdings, the allocation query leaves
    [DATA_CACHE] as it is.  It answers whenever both precomputed tables are
    there and not empty; and it raises the error 500 when one of them is
    missing or empty while the values of the holdings sum to zero, the
    division by the total in the fallback being the cause. *)
Theorem allocation_query_on_a_loaded_snapshot (wb : workbook) (c : data_cache)
  (hs : list holding) :
  holdings c = Some hs ->
  snd (get_portfolio_allocation wb c) = c
  /\ (non_empty (sector_allocation c) = true -> non_empty (market_cap c) = true ->
      is_ok (fst (get_portfolio_allocation wb c)) = true)
  /\ (hs <> [] -> Py.num_eqb (Py.sum (map value hs)) (NInt 0) = true ->
      non_empty (sector_allocation c) && non_empty (market_cap c) = false ->
      fst (get_portfolio_allocation wb c) = Raise (HTTPException 500)).
Proof.
  intros H. rewrite (get_portfolio_allocation_loaded wb c hs H). cbn [fst snd].
  split; [reflexivity |]. split.
  - intros Hs Hm. unfold calculate_allocation_by_sector, calculate_allocation_by_market_cap.
    rewrite Hs, Hm.
    destruct (sector_allocation c), (market_cap c); reflexivity.
  - intros Hne Hz Ht. apply andb_false_iff in Ht. destruct Ht as [Ht | Ht].
    + unfold calculate_allocation_by_sector. rewrite Ht.
      rewrite (allocation_fallback_zero_total sector c hs H Hne Hz). reflexivity.
    + unfold calculate_allocation_by_market_cap at 1. rewrite Ht.
      rewrite (allocation_fallback_zero_total marketCap c hs H Hne Hz).
      destruct (calculate_allocation_by_sector c); reflexivity.
Qed.

(** X12, witness: the snapshot with one holding of value zero and no
    precomputed table. *)
Lemma allocation_query_witness :
  snd (get_portfolio_allocation wb_holdings_only snapshot_unvalued) = snapshot_unvalued
  /\ (non_empty (sector_allocation snapshot_unvalued) = true ->
      non_empty (market_cap snapshot_unvalued) = true ->
      is_ok (fst (get_portfolio_allocation wb_holdings_only snapshot_unvalued)) = true)
  /\ ([unvalued] <> [] ->
      Py.num_eqb (Py.sum (map value [unvalued])) (NInt 0) = true ->
      non_empty (sector_allocation snapshot_unvalued)
      && non_empty (market_cap snapshot_unvalued) = false ->
      fst (get_portfolio_allocation wb_holdings_only snapshot_unvalued)
      = Raise (HTTPException 500)).
Proof.
  apply (allocation_query_on_a_loaded_snapshot wb_holdings_only snapshot_unvalued
           [unvalued]).
  reflexivity.
Defined.

Lemma market_cap_items_of_texts (str_field : pyval -> result string)
  (table : list (pyval * allocation_entry)) :
  (forall s, str_field (VStr s) = Ok s) ->
  forall names, texts_of table = Some names ->
  exists items,
    market_cap_items str_field table = Ok items
    /\ map MarketCapItem.marketCap items = names
    /\ map MarketCapItem.value items = map (fun x => entry_value (snd x)) table
    /\ map MarketCapItem.percentage items
       = map (fun x => PyFloat.round (entry_percentage (snd x)) 1) table.
Proof.
  intros Hs. induction table as [|[k e] rest IH]; intros names.
  - intros [= <-]. exists []. repeat split.
  - cbn [texts_of]. destruct k; try discriminate.
    destruct (texts_of rest) as [ns|]; [| discriminate]. intros [= <-].
    destruct (IH ns eq_refl) as (items & E & En & Ev & Ep).
    cbn [market_cap_items]. rewrite Hs, E. cbn [bind].
    eexists. split; [reflexivity |]. cbn [map]. rewrite En, Ev, Ep. repeat split.
Qed.

(** X13: on a snapshot that has holdings, the market cap query leaves
    [DATA_CACHE] as it is.  Without a Market_Cap table, or with an empty
    one, it raises the error 500 and does not fall back on the holdings as
    the allocation query does; with a table whose keys are texts it answers
    one item per entry, in the order of the table, the entries of value
    zero included, each with its value and its percentage rounded to one
    decimal. *)
Theorem market_cap_query_on_a_loaded_snapshot (str_field : pyval -> result string)
  (wb : workbook) (c : data_cache) (hs : list holding) :
  holdings c = Some hs ->
  snd (get_market_cap_info str_field wb c) = c
  /\ (non_empty (market_cap c) = false ->
      fst (get_market_cap_info str_field wb c) = Raise (HTTPException 500))
  /\ (forall table names,
        (forall s, str_field (VStr s) = Ok s) ->
        market_cap c = Some table -> table <> [] -> texts_of table = Some names ->
        exists items,
          fst (get_market_cap_info str_field wb c) = Ok items
          /\ map MarketCapItem.marketCap items = names
          /\ map MarketCapItem.value items = map (fun x => entry_value (snd x)) table
          /\ map MarketCapItem.percentage items
             = map (fun x => PyFloat.round (entry_percentage (snd x)) 1) table).
Proof.
  intros H.
  assert (E : get_market_cap_info str_field wb c =
              (match market_cap c with
               | Some (x :: t) =>
                   match market_cap_items str_field (x :: t) with
                   | Ok items => Ok items
                   | Raise _ => Raise (HTTPException 500)
                   end
               | Some [] | None => Raise (HTTPException 500)
               end, c)).
  { unfold get_market_cap_info, catch, and_then.
    rewrite (ensure_data_loaded_loaded wb c hs H). unfold read.
    destruct (market_cap c) as [[|x t]|]; try reflexivity.
    cbn [non_empty]. unfold lift.
    destruct (market_cap_items str_field (x :: t)); reflexivity. }
  rewrite E. cbn [fst snd]. split; [reflexivity |]. split.
  - destruct (market_cap c) as [[|x t]|]; [reflexivity | discriminate | reflexivity].
  - intros table names Hs Ht Hne Hn. rewrite Ht.
    destruct table as [|x t]; [congruence |].
    destruct (market_cap_items_of_texts str_field (x :: t) Hs names Hn)
      as (items & Ei & R).
    rewrite Ei. exists items. split; [reflexivity | exact R].
Qed.

(** X13, witness: a snapshot whose Market_Cap table has a group of value
    zero. *)
Lemma market_cap_query_witness :
  snd (get_market_cap_info only_str wb_holdings_only snapshot_zero_bucket)
  = snapshot_zero_bucket
  /\ (non_empty (market_cap snapshot_zero_bucket) = false ->
      fst (get_market_cap_info only_str wb_holdings_only snapshot_zero_bucket)
      = Raise (HTTPException 500))
  /\ (forall table names,
        (forall s, only_str (VStr s) = Ok s) ->
        market_cap snapshot_zero_bucket = Some table -> table <> [] ->
        texts_of table = Some names ->
        exists items,
          fst (get_market_cap_info only_str wb_holdings_only snapshot_zero_bucket)
          = Ok items
          /\ map MarketCapItem.marketCap items = names
          /\ map MarketCapItem.value items = map (fun x => entry_value (snd x)) table
          /\ map MarketCapItem.percentage items
             = map (fun x => PyFloat.round (entry_percentage (snd x)) 1) table).
Proof.
  apply (market_cap_query_on_a_loaded_snapshot only_str wb_holdings_only
           snapshot_zero_bucket [valued "Banking" 1000]).
  reflexivity.
Defined.

Lemma gtb_not_zero (t : num) :
  Py.gtb t (NInt 0) = true -> Py.num_eqb t (NInt 0) = false.
Proof.
  destruct t as [z | f]; unfold Py.gtb; cbn [Py.ltb Py.num_eqb].
  - intros H. apply Z.ltb_lt in H. apply Z.eqb_neq. lia.
  - change (Py.small 0) with true. cbv iota. apply ltb_eqb_false.
Qed.

Lemma invested_amounts_ok (hs : list holding) :
  convertible hs = true ->
  exists amounts, invested_amounts hs = Ok amounts
                  /\ List.length amounts = List.length hs.
Proof.
  induction hs as [|h hs IH]; cbn [convertible forallb invested_amounts].
  - intros _. exists []. split; reflexivity.
  - intros H. apply andb_true_iff in H. destruct H as [Hq Hr].
    destruct (IH Hr) as (amounts & E & L).
    destruct (PyFloat.of_int (quantity h)) as [q|]; [| discriminate Hq].
    cbn [bind]. rewrite E. cbn [bind]. eexists. split; [reflexivity |].
    cbn [List.length]. rewrite L. reflexivity.
Qed.

(** The totals computed from the holdings. *)
Lemma summary_totals_fallback (c : data_cache) (hs : list holding) :
  non_empty (summary c) = false -> convertible hs = true ->
  exists t amounts,
    summary_totals c hs = Ok t
    /\ invested_amounts hs = Ok amounts
    /\ Totals.total_value t = Py.sum (map value hs)
    /\ Totals.total_invested t = Py.sum amounts
    /\ Totals.total_gain_loss t
       = Py.sub (Totals.total_value t) (Totals.total_invested t)
    /\ Totals.total_gain_loss_percent t
       = if Py.gtb (Totals.total_invested t) (NInt 0)
         then NFloat (Py.to_float (Totals.total_gain_loss t)
                      / Py.to_float (Totals.total_invested t) * 100)
         else NInt 0.
Proof.
  intros Hs Hc. destruct (invested_amounts_ok hs Hc) as (amounts & E & _).
  assert (F : summary_totals c hs =
              (let total_value := Py.sum (map value hs) in
               amounts <- invested_amounts hs ;;
               let total_invested := Py.sum amounts in
               let total_gain_loss := Py.sub total_value total_invested in
               total_gain_loss_percent <-
                 (if Py.gtb total_invested (NInt 0)
                  then q <- Py.truediv total_gain_loss total_invested ;;
                       Ok (NFloat (q * 100))
                  else Ok (NInt 0)) ;;
               Ok {| Totals.total_value := total_value;
                     Totals.total_invested := total_invested;
                     Totals.total_gain_loss := total_gain_loss;
                     Totals.total_gain_loss_percent := total_gain_loss_percent |})).
  { unfold summary_totals. destruct (summary c) as [[|x t]|]; [| discriminate |];
      reflexivity. }
  rewrite F, E. cbv zeta. cbn [bind].
  destruct (Py.gtb (Py.sum amounts) (NInt 0)) eqn:G.
  - unfold Py.truediv. rewrite (gtb_not_zero _ G). cbn [bind].
    eexists _, _. split; [reflexivity |].
    cbn [Totals.total_value Totals.total_invested
         Totals.total_gain_loss Totals.total_gain_loss_percent]. rewrite G. auto 10.
  - cbn [bind]. eexists _, _. split; [reflexivity |].
    cbn [Totals.total_value Totals.total_invested
         Totals.total_gain_loss Totals.total_gain_loss_percent]. rewrite G. auto 10.
Qed.

(** X14: the totals of the summary.  With a Summary table that is not
    empty they are read from the table alone, whatever the holdings are
    worth, and a table that has none of the four metrics gives four totals
    of 0.0.  Without such a table they are computed from the holdings:
    the value is the sum of the values, the invested amount the sum of
    quantity times average price, the gain or loss their difference, and
    its percentage is the [int] 0 unless the invested amount is above zero:
    no division by zero can happen, and nothing raises as long as the
    quantities fit in a float. *)
Theorem summary_totals_by_source (c : data_cache) (hs : list holding) :
  (forall table,
     summary c = Some table -> table <> [] ->
     (forall hs', summary_totals c hs' = summary_totals c hs)
     /\ ((forall metric, In metric summary_metrics ->
                         Dict.get Py.eqb table (VStr metric) = None) ->
         summary_totals c hs
         = Ok {| Totals.total_value := NFloat 0;
                 Totals.total_invested := NFloat 0;
                 Totals.total_gain_loss := NFloat 0;
                 Totals.total_gain_loss_percent := NFloat 0 |}))
  /\ (non_empty (summary c) = false -> convertible hs = true ->
      exists t amounts,
        summary_totals c hs = Ok t
        /\ invested_amounts hs = Ok amounts
        /\ Totals.total_value t = Py.sum (map value hs)
        /\ Totals.total_invested t = Py.sum amounts
        /\ Totals.total_gain_loss t
           = Py.sub (Totals.total_value t) (Totals.total_invested t)
        /\ Totals.total_gain_loss_percent t
           = if Py.gtb (Totals.total_invested t) (NInt 0)
             then NFloat (Py.to_float (Totals.total_gain_loss t)
                          / Py.to_float (Totals.total_invested t) * 100)
             else NInt 0).
Proof.
  split.
  - intros table Hs Hne. destruct table as [|x t]; [congruence |]. split.
    + intros hs'. unfold summary_totals. rewrite Hs. reflexivity.
    + intros Hm. unfold summary_totals. rewrite Hs. unfold summary_metric.
      rewrite !Hm by (cbn; auto). vm_compute. reflexivity.
  - apply summary_totals_fallback.
Qed.

(** The risk level and the performers of the fallback never raise. *)
Lemma determine_risk_level_returns (c : data_cache) (d : num) :
  exists level, determine_risk_level c d = Ok level.
Proof.
  unfold determine_risk_level.
  destruct (holdings c) as [[|h hs]|]; [eexists; reflexivity | | eexists; reflexivity].
  unfold high_risk_ratio_of.
  destruct (Py.gtb (Py.sum (map value (h :: hs))) (NInt 0)) eqn:G.
  - unfold Py.truediv. rewrite (gtb_not_zero _ G). cbn [bind].
    destruct (Py.geb d (NInt 8) && _); [eexists; reflexivity |].
    destruct (Py.geb d (NInt 6) && _); eexists; reflexivity.
  - cbn [bind].
    destruct (Py.geb d (NInt 8) && _); [eexists; reflexivity |].
    destruct (Py.geb d (NInt 6) && _); eexists; reflexivity.
Qed.

Lemma fallback_performers_ok (hs : list holding) :
  hs <> [] -> exists p, fallback_performers hs = Ok p.
Proof.
  intros H. unfold fallback_performers.
  destruct (first_item_ok _ (sorted_desc_not_empty gainLossPercent hs H)) as [a ->].
  destruct (last_item_ok _ (sorted_desc_not_empty gainLossPercent hs H)) as [b ->].
  destruct (first_item_ok _ (sorted_desc_not_empty value hs H)) as [a' ->].
  destruct (last_item_ok _ (sorted_desc_not_empty value hs H)) as [b' ->].
  cbn [bind]. eexists. reflexivity.
Qed.

(** X15: on a snapshot that has holdings, the summary query leaves
    [DATA_CACHE] as it is.  With an empty list of holdings it raises the
    error 500, whatever the Summary and Top_Performers tables hold.  With
    holdings whose quantities fit in a float and neither of the two tables
    it answers, whatever pydantic does with values that are not of the
    declared type: the totals are those computed from the holdings,
    rounded to two decimals, and the score, rounded to one decimal, and the
    risk level are those of the two metric functions; when no value and no
    gain of the holdings is a [nan], the four performers are those of the
    fallback. *)
Theorem summary_query_on_a_loaded_snapshot
  (str_field : pyval -> result string)
  (optional_float_field : pyval -> result (option float))
  (wb : workbook) (c : data_cache) (hs : list holding) :
  holdings c = Some hs ->
  snd (get_portfolio_summary str_field optional_float_field wb c) = c
  /\ (hs = [] ->
      fst (get_portfolio_summary str_field optional_float_field wb c)
      = Raise (HTTPException 500))
  /\ (hs <> [] -> non_empty (summary c) = false ->
      non_empty (top_performers c) = false -> convertible hs = true ->
      exists s t,
        fst (get_portfolio_summary str_field optional_float_field wb c) = Ok s
        /\ summary_totals c hs = Ok t
        /\ PortfolioSummary.totalValue s = rounded (Py.sum (map value hs)) 2
        /\ PortfolioSummary.totalInvested s = rounded (Totals.total_invested t) 2
        /\ PortfolioSummary.totalGainLoss s = rounded (Totals.total_gain_loss t) 2
        /\ PortfolioSummary.totalGainLossPercent s
           = rounded (Totals.total_gain_loss_percent t) 2
        /\ PortfolioSummary.diversificationScore s
           = rounded (calculate_diversification_score c) 1
        /\ determine_risk_level c (calculate_diversification_score c)
           = Ok (PortfolioSummary.riskLevel s)
        /\ (no_nan hs = true ->
            fallback_performers hs
            = Ok {| topPerformer := PortfolioSummary.topPerformer s;
                    worstPerformer := PortfolioSummary.worstPerformer s;
                    highestValue := PortfolioSummary.highestValue s;
                    lowestValue := PortfolioSummary.lowestValue s |})).
Proof.
  intros H.
  assert (E : ensure_data_loaded wb c = (Ok tt, c)).
  { unfold ensure_data_loaded, and_then, read. rewrite H. reflexivity. }
  split; [| split].
  - unfold get_portfolio_summary, catch, and_then. rewrite E. unfold read, lift.
    rewrite H. destruct hs as [|h hs']; [reflexivity |].
    destruct (summary_totals c (h :: hs')); [| reflexivity].
    destruct (summary_performers _ _ c (h :: hs')); [| reflexivity].
    destruct (determine_risk_level c _); reflexivity.
  - intros ->. unfold get_portfolio_summary, catch, and_then. rewrite E. unfold read.
    rewrite H. reflexivity.
  - intros Hne Hs Ht Hc.
    destruct (summary_totals_fallback c hs Hs Hc)
      as (t & amounts & Et & _ & Ev & _).
    destruct (fallback_performers_ok hs Hne) as [p Ep].
    destruct (determine_risk_level_returns c (calculate_diversification_score c))
      as [level El].
    assert (Ep' : summary_performers str_field optional_float_field c hs = Ok p).
    { unfold summary_performers.
      destruct (top_performers c) as [[|x l]|]; [exact Ep | discriminate Ht | exact Ep]. }
    unfold get_portfolio_summary, catch, and_then. rewrite E. unfold read, lift.
    rewrite H. destruct hs as [|h hs']; [congruence |].
    rewrite Et, Ep', El. unfold ret. cbn [fst].
    eexists _, t. split; [reflexivity |].
    cbn [PortfolioSummary.totalValue PortfolioSummary.totalInvested
         PortfolioSummary.totalGainLoss PortfolioSummary.totalGainLossPercent
         PortfolioSummary.topPerformer PortfolioSummary.worstPerformer
         PortfolioSummary.highestValue PortfolioSummary.lowestValue
         PortfolioSummary.diversificationScore PortfolioSummary.riskLevel].
    rewrite Ev. repeat (split; [reflexivity |]).
    intros _. rewrite Ep. destruct p; reflexivity.
Qed.

(** X15, witness: eight holdings over five sectors and no precomputed
    table. *)
Lemma summary_query_witness :
  snd (get_portfolio_summary only_str float_or_none wb_holdings_only
         (snapshot_in five_sectors_8))
  = snapshot_in five_sectors_8
  /\ (map holding_in five_sectors_8 = [] ->
      fst (get_portfolio_summary only_str float_or_none wb_holdings_only
             (snapshot_in five_sectors_8))
      = Raise (HTTPException 500))
  /\ (map holding_in five_sectors_8 <> [] ->
      non_empty (summary (snapshot_in five_sectors_8)) = false ->
      non_empty (top_performers (snapshot_in five_sectors_8)) = false ->
      convertible (map holding_in five_sectors_8) = true ->
      exists s t,
        fst (get_portfolio_summary only_str float_or_none wb_holdings_only
               (snapshot_in five_sectors_8)) = Ok s
        /\ summary_totals (snapshot_in five_sectors_8) (map holding_in five_sectors_8)
           = Ok t
        /\ PortfolioSummary.totalValue s
           = rounded (Py.sum (map value (map holding_in five_sectors_8))) 2
        /\ PortfolioSummary.totalInvested s = rounded (Totals.total_invested t) 2
        /\ PortfolioSummary.totalGainLoss s = rounded (Totals.total_gain_loss t) 2
        /\ PortfolioSummary.totalGainLossPercent s
           = rounded (Totals.total_gain_loss_percent t) 2
        /\ PortfolioSummary.diversificationScore s
           = rounded (calculate_diversification_score (snapshot_in five_sectors_8)) 1
        /\ determine_risk_level (snapshot_in five_sectors_8)
             (calculate_diversification_score (snapshot_in five_sectors_8))
           = Ok (PortfolioSummary.riskLevel s)
        /\ (no_nan (map holding_in five_sectors_8) = true ->
            fallback_performers (map holding_in five_sectors_8)
            = Ok {| topPerformer := PortfolioSummary.topPerformer s;
                    worstPerformer := PortfolioSummary.worstPerformer s;
                    highestValue := PortfolioSummary.highestValue s;
                    lowestValue := PortfolioSummary.lowestValue s |})).
Proof.
  apply (summary_query_on_a_loaded_snapshot only_str float_or_none wb_holdings_only
           (snapshot_in five_sectors_8) (map holding_in five_sectors_8)).
  reflexivity.
Defined.

(** X16: after a load on the empty [DATA_CACHE], the health check reports
    [data_loaded] exactly when the holdings and the timeline could be
    computed, whatever became of the four sheets after them: it can report
    healthy after a load that returned [False].  After a load that returned
    [True] it reports healthy on any earlier state. *)
Theorem health_after_a_load (wb : workbook) :
  data_loaded (health_check (snd (load_excel_data wb DATA_CACHE)))
  = computed 0 wb && computed 1 wb
  /\ (forall c, all_computed wb = true ->
        status (health_check (snd (load_excel_data wb c))) = "healthy").
Proof.
  split.
  - cbn [computed]. destruct (file_exists wb) eqn:Ef.
    + destruct (parse_holdings wb) as [hs|] eqn:Eh.
      * unfold health_check. cbn [data_loaded forallb].
        rewrite (holdings_after_load wb _ hs Ef Eh).
        rewrite (historical_performance_after_load wb _ Ef); [| rewrite Eh; reflexivity].
        destruct (parse_historical_performance wb); reflexivity.
      * rewrite load_excel_data_stages, Ef, Eh. reflexivity.
    + rewrite load_excel_data_stages, Ef. reflexivity.
  - intros c A.
    pose proof (proj1 (all_computed_spec wb) A 0%nat) as A0.
    pose proof (proj1 (all_computed_spec wb) A 1%nat) as A1.
    cbn [computed] in A0, A1.
    apply andb_true_iff in A0. destruct A0 as [Ef Eh].
    destruct (parse_holdings wb) as [hs|] eqn:E; [| discriminate Eh].
    unfold health_check. cbn [status forallb].
    rewrite (holdings_after_load wb c hs Ef E).
    rewrite (historical_performance_after_load wb c Ef); [| rewrite E; reflexivity].
    destruct (parse_historical_performance wb); [reflexivity | discriminate A1].
Qed.

(** * Further properties of the metrics *)

(** ** Allocation *)

(** X17: a precomputed table that is not empty is answered from, whatever
    the holdings are: the sectors give one item per entry of the table, in
    its order; the market caps give one item per entry whose value is above
    zero, so that fewer items than entries come out as soon as one entry is
    not, and the empty mapping when none is, without any fallback on the
    holdings. *)
Theorem precomputed_allocation_tables (c : data_cache)
  (table : list (pyval * allocation_entry)) :
  table <> [] ->
  (sector_allocation c = Some table ->
   exists items,
     calculate_allocation_by_sector c = Ok items
     /\ map fst items = map fst table
     /\ map (fun x => AllocationItem.value (snd x)) items
        = map (fun x => entry_value (snd x)) table)
  /\ (market_cap c = Some table ->
      exists items,
        calculate_allocation_by_market_cap c = Ok items
        /\ map fst items = map fst (filter positive_entry table)
        /\ map (fun x => AllocationItem.value (snd x)) items
           = map (fun x => entry_value (snd x)) (filter positive_entry table)
        /\ (forallb positive_entry table = false ->
            (List.length items < List.length table)%nat)
        /\ (existsb positive_entry table = false -> items = [])).
Proof.
  intros Hne. split.
  - intros H. unfold calculate_allocation_by_sector. rewrite H.
    destruct table as [|x t]; [congruence |]. cbn [non_empty].
    eexists. split; [reflexivity |]. rewrite !map_map.
    split; apply map_ext; intros [k e]; reflexivity.
  - intros H. unfold calculate_allocation_by_market_cap. rewrite H.
    destruct table as [|x t]; [congruence |]. cbn [non_empty].
    assert (F : filter (fun '(_, e) => (0 <? entry_value e)%float) (x :: t)
                = filter positive_entry (x :: t)).
    { apply filter_ext. intros [k e]. reflexivity. }
    rewrite F. eexists. split; [reflexivity |]. rewrite !map_map.
    split; [apply map_ext; intros [k e]; reflexivity |].
    split; [apply map_ext; intros [k e]; reflexivity |].
    rewrite length_map. split.
    + generalize (x :: t). clear. intros l H.
      induction l as [|a l IH]; [discriminate |].
      cbn [forallb filter] in *. destruct (positive_entry a); cbn [andb] in H.
      * specialize (IH H). cbn [List.length]. lia.
      * pose proof (filter_length_le positive_entry l). cbn [List.length]. lia.
    + generalize (x :: t). clear. intros l H.
      induction l as [|a l IH]; [reflexivity |].
      cbn [existsb filter] in *. apply orb_false_iff in H. destruct H as [Ha Hl].
      rewrite Ha. apply (IH Hl).
Qed.

(** X17, witness: a table of two groups, one of value zero. *)
Lemma precomputed_allocation_witness :
  (sector_allocation snapshot_zero_bucket = Some table_zero_bucket ->
   exists items,
     calculate_allocation_by_sector snapshot_zero_bucket = Ok items
     /\ map fst items = map fst table_zero_bucket
     /\ map (fun x => AllocationItem.value (snd x)) items
        = map (fun x => entry_value (snd x)) table_zero_bucket)
  /\ (market_cap snapshot_zero_bucket = Some table_zero_bucket ->
      exists items,
        calculate_allocation_by_market_cap snapshot_zero_bucket = Ok items
        /\ map fst items = map fst (filter positive_entry table_zero_bucket)
        /\ map (fun x => AllocationItem.value (snd x)) items
           = map (fun x => entry_value (snd x)) (filter positive_entry table_zero_bucket)
        /\ (forallb positive_entry table_zero_bucket = false ->
            (List.length items < List.length table_zero_bucket)%nat)
        /\ (existsb positive_entry table_zero_bucket = false -> items = [])).
Proof.
  apply (precomputed_allocation_tables snapshot_zero_bucket table_zero_bucket).
  discriminate.
Defined.

(** The keys of a dict of texts after an assignment. *)
Lemma dict_set_keys {V : Type} (d : list (string * V)) (k : string) (v : V) :
  map fst (Dict.set String.eqb d k v)
  = if mem k (map fst d) then map fst d else (map fst d ++ [k])%list.
Proof.
  induction d as [|[k' v'] d IH]; [reflexivity |].
  cbn [Dict.set map fst mem existsb app]. rewrite (String.eqb_sym k k').
  destruct (String.eqb k' k); cbn [orb map fst]; [reflexivity |].
  fold (mem k (map fst d)). rewrite IH. destruct (mem k (map fst d)); reflexivity.
Qed.

(** The groups of the fallback are the groups of the holdings, each one
    once. *)
Lemma group_totals_keys (key : holding -> string) (hs : list holding) :
  NoDup (map fst (group_totals key hs))
  /\ forall k, In k (map fst (group_totals key hs)) <-> In k (map key hs).
Proof.
  unfold group_totals.
  assert (G : forall l acc,
            NoDup (map fst acc) ->
            NoDup (map fst (fold_left (add_to_group key) l acc))
            /\ forall k, In k (map fst (fold_left (add_to_group key) l acc))
                         <-> In k (map fst acc) \/ In k (map key l)).
  { induction l as [|h l IH]; intros acc Hacc; cbn [fold_left map].
    - split; [exact Hacc |]. intros k. cbn [In]. tauto.
    - assert (K : map fst (add_to_group key acc h)
                  = if mem (key h) (map fst acc) then map fst acc
                    else (map fst acc ++ [key h])%list)
        by (unfold add_to_group; apply dict_set_keys).
      assert (N : NoDup (map fst (add_to_group key acc h))).
      { rewrite K. destruct (mem (key h) (map fst acc)) eqn:M; [exact Hacc |].
        apply NoDup_app; [exact Hacc | constructor; [intros [] | constructor] |].
        intros x Hx [<- | []]. apply mem_spec in Hx. congruence. }
      destruct (IH _ N) as [N' I']. split; [exact N' |].
      intros k. rewrite I', K. cbn [In].
      destruct (mem (key h) (map fst acc)) eqn:M.
      + apply mem_spec in M. split; [tauto |].
        intros [H | [<- | H]]; tauto.
      + rewrite in_app_iff. cbn [In]. tauto. }
  destruct (G hs [] (NoDup_nil _)) as [N I]. split; [exact N |].
  intros k. rewrite I. cbn [map In]. tauto.
Qed.

Lemma allocation_items_ok (total : num) (totals : list (string * float)) :
  Py.num_eqb total (NInt 0) = false ->
  exists items,
    allocation_items total totals = Ok items
    /\ map fst items = map (fun x => VStr (fst x)) totals
    /\ map (fun x => AllocationItem.value (snd x)) items = map snd totals.
Proof.
  intros Hz. induction totals as [|[k v] rest IH].
  - exists []. repeat split.
  - destruct IH as (items & E & Ek & Ev). cbn [allocation_items].
    unfold Py.truediv. rewrite Hz. cbn [bind]. rewrite E. cbn [bind].
    eexists. split; [reflexivity |]. cbn [map fst snd AllocationItem.value].
    rewrite Ek, Ev. split; reflexivity.
Qed.

(** X18: without a precomputed sector table, holdings whose values do not
    sum to zero give the allocation by sector one item per sector: every
    sector of a holding is a key, no key comes twice, and the number of
    items is the number of sectors that the diversification score counts. *)
Theorem fallback_allocation_has_one_item_per_sector (c : data_cache)
  (hs : list holding) :
  holdings c = Some hs -> hs <> [] ->
  non_empty (sector_allocation c) = false ->
  Py.num_eqb (Py.sum (map value hs)) (NInt 0) = false ->
  exists items,
    calculate_allocation_by_sector c = Ok items
    /\ Z.of_nat (List.length items) = count_sectors hs
    /\ (forall h, In h hs -> In (VStr (sector h)) (map fst items))
    /\ NoDup (map fst items).
Proof.
  intros H Hne Ht Hz. unfold calculate_allocation_by_sector. rewrite Ht.
  unfold allocation_fallback. rewrite H.
  destruct hs as [|h0 hs0]; [congruence |]. set (hs := h0 :: hs0) in *.
  destruct (allocation_items_ok _ (group_totals sector hs) Hz) as (items & E & Ek & _).
  destruct (group_totals_keys sector hs) as [N I].
  exists items. split; [exact E |].
  assert (L : List.length items = List.length (map fst (group_totals sector hs))).
  { rewrite <- (length_map fst items), Ek, !length_map. reflexivity. }
  split; [| split].
  - unfold count_sectors. f_equal. rewrite L.
    apply Nat.le_antisymm; apply NoDup_incl_length;
      try exact N; try apply NoDup_nodup;
      intros k Hk; [apply nodup_In, I, Hk | apply I, (nodup_In string_dec), Hk].
  - intros h Hh. rewrite Ek, <- (map_map fst VStr). apply in_map. apply I.
    apply in_map, Hh.
  - rewrite Ek, <- (map_map fst VStr).
    clear -N. induction N as [|k l Hk N IH]; cbn [map]; constructor; [| exact IH].
    rewrite in_map_iff. intros [k' [[= ->] Hin]]. contradiction.
Qed.

(** X18, witness: eight holdings of value 100.0 over five sectors. *)
Lemma fallback_allocation_witness :
  exists items,
    calculate_allocation_by_sector (snapshot_in five_sectors_8) = Ok items
    /\ Z.of_nat (List.length items) = count_sectors (map holding_in five_sectors_8)
    /\ (forall h, In h (map holding_in five_sectors_8) ->
                  In (VStr (sector h)) (map fst items))
    /\ NoDup (map fst items).
Proof.
  apply (fallback_allocation_has_one_item_per_sector (snapshot_in five_sectors_8)
           (map holding_in five_sectors_8)).
  - reflexivity.
  - discriminate.
  - reflexivity.
  - vm_compute. reflexivity.
Defined.

(** ** Ranges *)

Lemma float_ltb_leb (a b : float) : (a <? b)%float = true -> (a <=? b)%float = true.
Proof.
  rewrite ltb_spec, leb_spec. unfold SFltb, SFleb.
  destruct (SFcompare (Prim2SF a) (Prim2SF b)) as [[| |]|]; congruence.
Qed.

Lemma num_ltb_leb (a b : num) : Py.ltb a b = true -> Py.leb a b = true.
Proof.
  destruct a as [x | x], b as [y | y]; cbn [Py.ltb Py.leb].
  - intros H. apply Z.ltb_lt in H. apply Z.leb_le. lia.
  - destruct (Py.small x); [apply float_ltb_leb |].
    destruct (PyFloat.compare_Z x y) as [[| |]|]; congruence.
  - destruct (Py.small y); [apply float_ltb_leb |].
    destruct (PyFloat.compare_Z y x) as [[| |]|]; congruence.
  - apply float_ltb_leb.
Qed.

(** [min(10.0, max(1.0, x))] is between 1.0 and 10.0 whatever [x] is, a
    [nan] included. *)
Lemma clamp_1_10 (x : num) :
  Py.leb (NFloat 1) (clamp x (NFloat 1) (NFloat 10)) = true
  /\ Py.leb (clamp x (NFloat 1) (NFloat 10)) (NFloat 10) = true.
Proof.
  unfold clamp, Py.max, Py.min, Py.gtb.
  destruct (Py.ltb (NFloat 1) x) eqn:E1.
  - destruct (Py.ltb x (NFloat 10)) eqn:E2.
    + split; apply num_ltb_leb; assumption.
    + split; vm_compute; reflexivity.
  - change (Py.ltb (NFloat 1) (NFloat 10)) with true. cbv iota.
    split; vm_compute; reflexivity.
Qed.

(** X19: the diversification score is at least 1 and at most 10 on every
    snapshot, however many holdings and sectors there are. *)
Theorem diversification_score_range (c : data_cache) :
  Py.leb (NFloat 1) (calculate_diversification_score c) = true
  /\ Py.leb (calculate_diversification_score c) (NFloat 10) = true.
Proof.
  unfold calculate_diversification_score.
  destruct (holdings c) as [[|h hs]|];
    [split; vm_compute; reflexivity | | split; vm_compute; reflexivity].
  apply clamp_1_10.
Qed.

Lemma Prim2SF_inj (x y : float) : Prim2SF x = Prim2SF y -> x = y.
Proof.
  intros H. rewrite <- (SF2Prim_Prim2SF x), <- (SF2Prim_Prim2SF y), H. reflexivity.
Qed.

Lemma positive_finite (x : float) :
  (0 <? x)%float = true -> finite_float x = true ->
  exists m e, Prim2SF x = S754_finite false m e.
Proof.
  rewrite ltb_spec. unfold finite_float, SFltb.
  change (Prim2SF 0) with (S754_zero false).
  destruct (Prim2SF x) as [s | s | | s m e]; try discriminate.
  destruct s; cbn; [discriminate |]. intros _ _. eauto.
Qed.

Lemma sub_diag_finite (x : float) (s : bool) (m : positive) (e : Z) :
  Prim2SF x = S754_finite s m e -> Prim2SF (x - x) = S754_zero false.
Proof.
  intros H. rewrite sub_spec, H. unfold SF64sub, SFsub. cbv zeta.
  rewrite Z.sub_diag. reflexivity.
Qed.

(** X20: the return of a value over itself is exactly 0.0, for every value
    above zero that is not an infinity: a series that has not moved shows
    no return, no rounding error of the division or of [round] coming in. *)
Theorem unchanged_value_returns_zero (v : float) :
  (0 <? v)%float = true -> finite_float v = true -> calculate_return v v = NFloat 0.
Proof.
  intros Hpos Hfin. unfold calculate_return. rewrite Hpos. f_equal.
  destruct (positive_finite v Hpos Hfin) as (m & e & E).
  assert (Z : Prim2SF ((v - v) / v * 100) = S754_zero false).
  { rewrite mul_spec, div_spec, (sub_diag_finite v false m e E), E. reflexivity. }
  apply Prim2SF_inj. unfold PyFloat.round. rewrite Z. exact Z.
Qed.

(** X20, witness: the value 100.0. *)
Lemma unchanged_value_witness : calculate_return 100 100 = NFloat 0.
Proof.
  apply (unchanged_value_returns_zero 100); vm_compute; reflexivity.
Defined.
